(** * ANMP: the topology canvas and the project codec

    A shallow embedding of [anmp/ui/network_canvas.py], of the discovery
    handlers of [anmp/app/main_window.py] and [anmp/core/network_scanner.py]
    and of the project files of [anmp/core/data_manager.py].  Around them
    it covers the state manager and the file controller of [anmp/app], the
    slots and menu actions of the main window that drive the canvases, and
    the mask helpers of [anmp/utils/helpers.py].

    Python dictionaries that hold node and connection attributes keep their
    insertion order and are association lists here; the canvas tables
    [nodes] and [connections] are finite maps.  Python integers are [Z],
    Python floats are binary64 numbers.  Functions that mutate [self], draw
    random numbers or raise are written in a state-and-exception monad in
    which the state survives a raise, as it does in Python.

    Qt rendering (pixmaps, text items, the graphics scene) is outside the
    model: a [NetworkNode] is the data it carries and the position given to
    [setPos], a [NetworkConnection] is its two end nodes and its data.  What
    the node item computes in Python when it is built or refreshed is in the
    model: the device type is looked up in the icon table, the address is
    read from the [l3] group, status, name and address are formatted into
    text, and each of these can raise.  [setPos] refuses coordinates that
    are no numbers; the other calls into Qt are taken to succeed.

    Strings are Python strings of Unicode characters, held as their UTF-8
    bytes.  Integers are converted to and from text up to the 4300 digits
    the interpreter allows.  The counter of a canvas, which counts the
    nodes added, is taken to stay below that length; the limits of the
    machine (memory, recursion depth) are not part of the model. *)

From Stdlib Require Import ZArith String Ascii Floats Sorted.
From stdpp Require Import gmap strings pretty list.

Set Warnings "-register-all".
Local Open Scope Z_scope.
Local Open Scope string_scope.

Module Py.

(** ** Python values *)

Inductive value :=
| VNone
| VBool (b : bool)
| VInt (z : Z)
| VFloat (f : float)
| VStr (s : string)
| VList (l : list value)
| VDict (d : list (string * value)).

Abbreviation dict := (list (string * value)).

(** [d.get(k)] / [k in d]. *)
Fixpoint dict_get (d : dict) (k : string) : option value :=
  match d with
  | [] => None
  | (k', v) :: d' => if String.eqb k k' then Some v else dict_get d' k
  end.

Definition dict_has (d : dict) (k : string) : bool :=
  match dict_get d k with Some _ => true | None => false end.

(** [d[k] = v]: an existing key keeps its place, a new key goes last. *)
Fixpoint dict_set (d : dict) (k : string) (v : value) : dict :=
  match d with
  | [] => [(k, v)]
  | (k', v') :: d' =>
      if String.eqb k k' then (k', v) :: d' else (k', v') :: dict_set d' k v
  end.

(** [d.setdefault(k, v)], for its effect on [d]. *)
Definition dict_setdefault (d : dict) (k : string) (v : value) : dict :=
  match dict_get d k with
  | Some _ => d
  | None => dict_set d k v
  end.

(** [d.update(other)]. *)
Definition dict_update (d other : dict) : dict :=
  foldl (fun acc kv => dict_set acc kv.1 kv.2) d other.

(** [d.get(k, default)]. *)
Definition dict_get_default (d : dict) (k : string) (default : value) : value :=
  match dict_get d k with Some v => v | None => default end.

(** Truth value of an object, as [if x:] tests it. *)
Definition truthy (v : value) : bool :=
  match v with
  | VNone => false
  | VBool b => b
  | VInt z => negb (Z.eqb z 0)
  | VFloat f => negb (PrimFloat.eqb f 0%float)
  | VStr s => negb (String.eqb s "")
  | VList l => match l with [] => false | _ => true end
  | VDict d => match d with [] => false | _ => true end
  end.

(** Whether an object can be a key of a dictionary or a member of a set. *)
Definition hashable (v : value) : bool :=
  match v with
  | VList _ | VDict _ => false
  | _ => true
  end.

(** The interpreter converts no integer of more than 4300 digits to or
    from text: [str], [repr], an f-string, [json.dump] and [json.load]
    raise [ValueError] on one, also inside a list or a dictionary. *)
Fixpoint within_digit_limit (v : value) : bool :=
  match v with
  | VInt z => (Z.abs z <? 10 ^ 4300)%Z
  | VList l => forallb within_digit_limit l
  | VDict d => forallb (fun '(_, x) => within_digit_limit x) d
  | _ => true
  end.

(** Whether an object converts to a C [double], as an argument of a Qt
    method that takes a real number must: a float, or an integer that
    rounds to a finite double. *)
Definition is_real (v : value) : bool :=
  match v with
  | VBool _ | VFloat _ => true
  | VInt z => (Z.abs z <? 2 ^ 1024 - 2 ^ 970)%Z
  | _ => false
  end.

(** [s.split(".")]: never empty. *)
Fixpoint split_dot (s : string) (cur : string) : list string :=
  match s with
  | EmptyString => [cur]
  | String c s' =>
      if Ascii.eqb c "."%char then cur :: split_dot s' ""
      else split_dot s' (cur +:+ String c "")
  end.

(** [xs[-1]] of a list of strings. *)
Definition last_item (xs : list string) : string := List.last xs "".

(** ** Exceptions and mutable state *)

Inductive exn :=
| KeyError (k : string)
| TypeError
| AttributeError
| ValueError
| FileNotFoundError
| JSONDecodeError
| UnicodeDecodeError
| OSError.

Inductive outcome (A : Type) :=
| Return (a : A)
| Raise (e : exn).
Arguments Return {A} a.
Arguments Raise {A} e.

Definition M (St A : Type) : Type := St -> outcome A * St.

Definition ret {St A} (a : A) : M St A := fun s => (Return a, s).

Definition bind {St A B} (m : M St A) (k : A -> M St B) : M St B :=
  fun s =>
    match m s with
    | (Return a, s') => k a s'
    | (Raise e, s') => (Raise e, s')
    end.

Definition raise {St A} (e : exn) : M St A := fun s => (Raise e, s).
Definition get {St} : M St St := fun s => (Return s, s).

(** [try: body except Exception: handler]. *)
Definition try_except {St A} (body : M St A) (handler : exn -> M St A) : M St A :=
  fun s =>
    match body s with
    | (Return a, s') => (Return a, s')
    | (Raise e, s') => handler e s'
    end.

Notation "x <- m ;; k" := (bind m (fun x => k))
  (at level 20, m at level 99, k at level 200, only parsing).
Notation "m ;;; k" := (bind m (fun _ => k))
  (at level 100, k at level 200, right associativity, only parsing).

(** [for x in xs: body(x)]. *)
Fixpoint for_each {St A} (xs : list A) (body : A -> M St unit) : M St unit :=
  match xs with
  | [] => ret tt
  | x :: xs' => body x ;;; for_each xs' body
  end.

End Py.
Export Py.

Module Canvas.

(** ** The [random] module

    The generator is the sequence of raw draws it will make and the number
    already made; [randint a b] maps the next draw into [a..b]. *)

Record rng := Rng { entropy : nat -> Z; cursor : nat }.

Definition randint_value (a b : Z) (g : rng) : Z :=
  a + (entropy g (cursor g)) mod (b - a + 1).

Definition advance (g : rng) : rng := Rng (entropy g) (S (cursor g)).

(** ** [class NetworkNode], [class NetworkConnection], [class NetworkCanvas] *)

Record NetworkNode := mkNode {
  node_data : dict;
  pos : value * value
}.

Record NetworkConnection := mkConn {
  source_node : Z;
  target_node : Z;
  connection_data : dict
}.

Record NetworkCanvas := mkCanvas {
  level : string;
  nodes : gmap Z NetworkNode;
  connections : gmap (Z * Z) NetworkConnection;
  next_node_id : Z
}.

(** A canvas together with the process-wide random generator. *)
Record session := mkSession {
  self : NetworkCanvas;
  random : rng
}.

Definition get_self : M session NetworkCanvas :=
  fun s => (Return (self s), s).

Definition put_self (c : NetworkCanvas) : M session unit :=
  fun s => (Return tt, mkSession c (random s)).

Definition randint (a b : Z) : M session Z :=
  fun s => (Return (randint_value a b (random s)),
            mkSession (self s) (advance (random s))).

Definition set_nodes (c : NetworkCanvas) (ns : gmap Z NetworkNode) : NetworkCanvas :=
  mkCanvas (level c) ns (connections c) (next_node_id c).

Definition set_connections (c : NetworkCanvas)
    (cs : gmap (Z * Z) NetworkConnection) : NetworkCanvas :=
  mkCanvas (level c) (nodes c) cs (next_node_id c).

Definition set_next_node_id (c : NetworkCanvas) (n : Z) : NetworkCanvas :=
  mkCanvas (level c) (nodes c) (connections c) n.

(** [NetworkCanvas.__init__]. *)
Definition new_canvas (lvl : string) : NetworkCanvas :=
  mkCanvas lvl ∅ ∅ 1.

(** [NetworkNode.update_appearance]: [IconManager.get_device_icon] looks
    the device type up in its table of icons, which hashes it, and then
    formats the status into the key of its cache. *)
Definition update_appearance {St} (node_data : dict) : M St unit :=
  let device_type := dict_get_default node_data "type" (VStr "host") in
  let status := dict_get_default node_data "status" (VStr "online") in
  if negb (hashable device_type) then raise TypeError
  else if negb (within_digit_limit status) then raise ValueError
  else ret tt.

(** [NetworkNode.update_text]: the address is read with
    [node_data.get("l3", {}).get("ip", "No IP")]; name and address are
    then formatted into the label. *)
Definition update_text {St} (node_data : dict) : M St unit :=
  let name := dict_get_default node_data "name" (VStr "Unknown") in
  match dict_get_default node_data "l3" (VDict []) with
  | VDict l3 =>
      let ip := dict_get_default l3 "ip" (VStr "No IP") in
      if within_digit_limit name && within_digit_limit ip then ret tt
      else raise ValueError
  | _ => raise AttributeError
  end.

(** [NetworkNode.__init__]. *)
Definition NetworkNode_init {St} (node_data : dict) : M St unit :=
  update_appearance node_data ;;;
  update_text node_data.

(** [QGraphicsItem.setPos(x, y)], for what it accepts. *)
Definition setPos {St} (x y : value) : M St unit :=
  if is_real x && is_real y then ret tt else raise TypeError.

(** [NetworkCanvas.add_node].  Both [random.randint] calls are made whether
    or not the key is present: the default is an argument of [setdefault].
    [node_data["id"]] is [new_id] from its assignment on: it is the key the
    item is stored under and the value returned.  The item is built before
    it is stored: when its data is refused, the canvas is as before. *)
Definition add_node (node_data : option dict) : M session Z :=
  c <- get_self ;;
  let new_id := next_node_id c in
  let node_data :=
    match node_data with
    | None => [("id", VInt (next_node_id c))]
    | Some d => dict_set d "id" (VInt (next_node_id c))
    end in
  let node_data := dict_setdefault node_data "name" (VStr ("Device-" +:+ pretty new_id)) in
  let node_data := dict_setdefault node_data "type" (VStr "host") in
  rx <- randint 50 400 ;;
  let node_data := dict_setdefault node_data "x" (VInt rx) in
  ry <- randint 50 300 ;;
  let node_data := dict_setdefault node_data "y" (VInt ry) in
  let node_data := dict_setdefault node_data "status" (VStr "online") in
  let node_data := dict_setdefault node_data "l1"
    (VDict [("ports", VList []); ("location", VStr "")]) in
  let node_data := dict_setdefault node_data "l2"
    (VDict [("mac", VStr ""); ("vlan", VInt 1)]) in
  let node_data := dict_setdefault node_data "l3"
    (VDict [("ip", VStr ("192.168.1." +:+ pretty new_id));
            ("mask", VStr "255.255.255.0"); ("gateway", VStr "")]) in
  NetworkNode_init node_data ;;;
  let p := (dict_get_default node_data "x" VNone,
            dict_get_default node_data "y" VNone) in
  setPos p.1 p.2 ;;;
  let node_item := mkNode node_data p in
  c <- get_self ;;
  put_self (set_nodes c (<[new_id := node_item]> (nodes c))) ;;;
  c <- get_self ;;
  put_self (set_next_node_id c (next_node_id c + 1)) ;;;
  ret new_id.

(** [NetworkCanvas.clear]. *)
Definition clear : M session unit :=
  c <- get_self ;;
  put_self (mkCanvas (level c) ∅ ∅ 1).

(** [k in self.nodes], [k in self.connections]. *)
Definition has_node (c : NetworkCanvas) (node_id : Z) : bool :=
  match nodes c !! node_id with Some _ => true | None => false end.

Definition has_connection (c : NetworkCanvas) (key : Z * Z) : bool :=
  match connections c !! key with Some _ => true | None => false end.

(** [NetworkCanvas.get_node_count], [NetworkCanvas.get_connection_count]. *)
Definition get_node_count (c : NetworkCanvas) : nat := size (nodes c).
Definition get_connection_count (c : NetworkCanvas) : nat := size (connections c).

(** The dictionary literal of the loop of [add_discovered_nodes], for a
    record whose address is the string [ip] and the two draws [x], [y]. *)
Definition discovered_node_data (node_info : dict) (ip : string) (x y : Z) : dict :=
  [("name", dict_get_default node_info "name"
              (VStr ("Host-" +:+ last_item (split_dot ip ""))));
   ("type", dict_get_default node_info "type" (VStr "host"));
   ("ip", VStr ip);
   ("mask", dict_get_default node_info "mask" (VStr "255.255.255.0"));
   ("x", VInt x);
   ("y", VInt y);
   ("status", dict_get_default node_info "status" (VStr "online"));
   ("ports", dict_get_default node_info "ports" (VList []))].

(** The body of the loop of [add_discovered_nodes].  The default of
    [node_info.get("name", ...)] is computed first and needs
    [node_info["ip"]] to be a string; the two draws are the only effects of
    building the literal. *)
Definition add_discovered_node (node_info : dict) : M session unit :=
  match dict_get node_info "ip" with
  | None => raise (KeyError "ip")
  | Some (VStr ip) =>
      x <- randint 50 600 ;;
      y <- randint 50 400 ;;
      let node_data := discovered_node_data node_info ip x y in
      add_node (Some node_data) ;;;
      ret tt
  | Some _ => raise AttributeError
  end.

(** [NetworkCanvas.add_discovered_nodes]. *)
Definition add_discovered_nodes (discovered_nodes : list dict) : M session unit :=
  for_each discovered_nodes add_discovered_node.

(** An object used as a key of [self.nodes]: [1], [True] and [1.0] are the
    same key, a string or [None] is a key no node has, a list or a
    dictionary cannot be hashed. *)
Inductive hashed :=
| Unhashable
| IntKey (z : Z)
| OtherKey.

Definition int_of_float (f : float) : option Z :=
  match Prim2SF f with
  | S754_zero _ => Some 0
  | S754_finite sg m e =>
      let sign := if sg then (-1) else 1 in
      if 0 <=? e then Some (sign * (Z.pos m * 2 ^ e))
      else if (Z.pos m mod 2 ^ (- e)) =? 0 then Some (sign * (Z.pos m / 2 ^ (- e)))
      else None
  | _ => None
  end%Z.

Definition hash_key (v : value) : hashed :=
  match v with
  | VInt z => IntKey z
  | VBool b => IntKey (if b then 1 else 0)
  | VFloat f => match int_of_float f with Some z => IntKey z | None => OtherKey end
  | VNone | VStr _ => OtherKey
  | VList _ | VDict _ => Unhashable
  end.

(** [NetworkCanvas.update_node].  The data of the item is updated first;
    the item is then refreshed, which can raise, and only after that
    moved. *)
Definition update_node (new_data : dict) : M session unit :=
  match dict_get new_data "id" with
  | None => raise (KeyError "id")
  | Some node_id =>
      match hash_key node_id with
      | Unhashable => raise TypeError
      | OtherKey => ret tt
      | IntKey node_id =>
          c <- get_self ;;
          match nodes c !! node_id with
          | None => ret tt
          | Some node_item =>
              let d := dict_update (node_data node_item) new_data in
              put_self (set_nodes c
                          (<[node_id := mkNode d (pos node_item)]> (nodes c))) ;;;
              update_appearance d ;;;
              update_text d ;;;
              if dict_has new_data "x" && dict_has new_data "y"
              then
                let p := (dict_get_default new_data "x" VNone,
                          dict_get_default new_data "y" VNone) in
                setPos p.1 p.2 ;;;
                c <- get_self ;;
                put_self (set_nodes c (<[node_id := mkNode d p]> (nodes c)))
              else ret tt
          end
      end
  end.

(** [NetworkCanvas.delete_connection].  The argument is a connection
    object; every object sits under exactly one key of [self.connections],
    the one the search stops at, so the object is named by that key.  A
    key is a pair and always true in [if conn_key:]. *)
Definition delete_connection (connection : Z * Z) : M session unit :=
  c <- get_self ;;
  if has_connection c connection
  then put_self (set_connections c (delete connection (connections c)))
  else ret tt.

(** The keys of [self.connections]. *)
Definition connection_keys (c : NetworkCanvas) : list (Z * Z) :=
  (map_to_list (connections c)).*1.

(** The first half of [delete_node]: collect the keys that have [node_id]
    at either end, then delete those connections. *)
Definition delete_node_connections (node_id : Z) : M session unit :=
  c <- get_self ;;
  let connections_to_remove :=
    List.filter (fun k => (k.1 =? node_id)%Z || (k.2 =? node_id)%Z)
                (connection_keys c) in
  for_each connections_to_remove delete_connection.

(** [NetworkCanvas.delete_node]. *)
Definition delete_node (node_id : Z) : M session unit :=
  c <- get_self ;;
  if has_node c node_id then
    delete_node_connections node_id ;;;
    c <- get_self ;;
    put_self (set_nodes c (delete node_id (nodes c)))
  else ret tt.

Definition conn_key (source_id target_id : Z) : Z * Z :=
  (Z.min source_id target_id, Z.max source_id target_id).

(** [NetworkCanvas.add_connection].  Every path ends in a bare [return] or
    at the end of the body: the call yields [None]. *)
Definition add_connection (source_id target_id : Z)
    (connection_data : option dict) : M session value :=
  c <- get_self ;;
  if negb (has_node c source_id) || negb (has_node c target_id) then ret VNone
  else if (source_id =? target_id)%Z then ret VNone
  else
    let conn_key := conn_key source_id target_id in
    if has_connection c conn_key then ret VNone
    else
      let connection_data :=
        match connection_data with
        | None => [("source", VInt source_id); ("target", VInt target_id);
                   ("type", VStr "ethernet")]
        | Some d => d
        end in
      let connection := mkConn source_id target_id connection_data in
      put_self (set_connections c (<[conn_key := connection]> (connections c))) ;;;
      ret VNone.

(** [add_connection] called with the objects a document holds under
    ["source"] and ["target"]: the membership tests hash them, left to
    right, and only keys that two nodes have reach the rest of the body. *)
Definition add_connection_obj (source_id target_id : value)
    (connection_data : dict) : M session value :=
  match hash_key source_id with
  | Unhashable => raise TypeError
  | OtherKey => ret VNone
  | IntKey s =>
      c <- get_self ;;
      if negb (has_node c s) then ret VNone
      else match hash_key target_id with
           | Unhashable => raise TypeError
           | OtherKey => ret VNone
           | IntKey t => add_connection s t (Some connection_data)
           end
  end.

(** [position[i] * 300 + 400] and [position[i] * 300 + 300]. *)
Definition screen_x (norm_x : float) : float := (norm_x * 300 + 400)%float.
Definition screen_y (norm_y : float) : float := (norm_y * 300 + 300)%float.

(** [NetworkCanvas.auto_layout].  [layout] is the dictionary
    [nx.spring_layout] returns for the graph of this canvas, as its items. *)
Definition auto_layout (layout : list (Z * (float * float))) : M session unit :=
  c <- get_self ;;
  if decide (nodes c = ∅) then ret tt
  else
    for_each layout (fun '(node_id, position) =>
      c <- get_self ;;
      match nodes c !! node_id with
      | Some node_item =>
          let x := screen_x position.1 in
          let y := screen_y position.2 in
          let d := dict_set (dict_set (node_data node_item) "x" (VFloat x))
                            "y" (VFloat y) in
          put_self (set_nodes c (<[node_id := mkNode d (VFloat x, VFloat y)]> (nodes c)))
      | None => ret tt
      end).

(** [for x in v]: the items a [for] loop visits, or [TypeError]. *)
Fixpoint chars (s : string) : list value :=
  match s with
  | EmptyString => []
  | String c s' => VStr (String c "") :: chars s'
  end.

Definition py_iter {St} (v : value) : M St (list value) :=
  match v with
  | VList l => ret l
  | VDict d => ret (map (fun kv => VStr kv.1) d)
  | VStr s => ret (chars s)
  | _ => raise TypeError
  end.

(** The bodies of the two loops of [load_data]. *)
Definition load_node (node_data : value) : M session unit :=
  match node_data with
  | VNone => add_node None ;;; ret tt
  | VDict d => add_node (Some d) ;;; ret tt
  | _ => raise TypeError
  end.

Definition load_connection (connection_data : value) : M session unit :=
  match connection_data with
  | VDict cd =>
      let source_id := dict_get_default cd "source" VNone in
      let target_id := dict_get_default cd "target" VNone in
      if truthy source_id && truthy target_id
      then add_connection_obj source_id target_id cd ;;; ret tt
      else ret tt
  | _ => raise AttributeError
  end.

(** [NetworkCanvas.load_data]. *)
Definition load_data (data : dict) : M session unit :=
  clear ;;;
  node_list <- py_iter (dict_get_default data "nodes" (VList [])) ;;
  for_each node_list load_node ;;;
  connection_list <- py_iter (dict_get_default data "connections" (VList [])) ;;
  for_each connection_list load_connection.

End Canvas.
Export Canvas.

Module Scanner.

(** ** [class NetworkScanner]: the handler of one discovered host *)

(** [a == b] for hashable objects.  Booleans and integers compare as
    integers, and so does a float that is one; a string equals only the
    same string.  (Membership in a set also accepts the very same object,
    which matters only for a NaN.) *)
Definition number_of (v : value) : option (Z + float) :=
  match v with
  | VBool b => Some (inl (if b then 1 else 0))
  | VInt z => Some (inl z)
  | VFloat f => Some (match int_of_float f with Some z => inl z | None => inr f end)
  | _ => None
  end.

Definition py_eqb (a b : value) : bool :=
  match a, b with
  | VNone, VNone => true
  | VStr x, VStr y => String.eqb x y
  | _, _ =>
      match number_of a, number_of b with
      | Some (inl x), Some (inl y) => Z.eqb x y
      | Some (inr f), Some (inr g) => PrimFloat.eqb f g
      | _, _ => false
      end
  end.

(** [node.node_data.get('ip')] of the nodes that have the key. *)
Definition canvas_ips (c : NetworkCanvas) : list value :=
  omap (fun kv => dict_get (node_data kv.2) "ip") (map_to_list (nodes c)).

(** The scanner: the records it has seen, the canvas it was given with
    [set_canvas], if any, and the process-wide random generator. *)
Record NetworkScanner := mkScanner {
  discovered_nodes : list dict;
  canvas : option NetworkCanvas;
  scanner_random : rng
}.

(** A canvas method called on [self.canvas]. *)
Definition on_canvas {A} (c : NetworkCanvas) (m : M session A) : M NetworkScanner A :=
  fun sc => let '(r, s) := m (mkSession c (scanner_random sc)) in
            (r, mkScanner (discovered_nodes sc) (Some (self s)) (random s)).

(** The block under [if self.canvas:] of [_on_node_discovered]: the record
    goes to the canvas unless its address is on it. *)
Definition add_unless_known (node_info : dict) : M session unit :=
  c <- get_self ;;
  let existing_ips := List.filter truthy (canvas_ips c) in
  if negb (forallb hashable existing_ips) then raise TypeError
  else
    let ip := dict_get_default node_info "ip" VNone in
    if negb (hashable ip) then raise TypeError
    else if existsb (py_eqb ip) existing_ips then ret tt
    else add_discovered_nodes [node_info].

(** [NetworkScanner._on_node_discovered]. *)
Definition on_node_discovered (node_info : dict) : M NetworkScanner unit :=
  sc <- get ;;
  (fun _ => (Return tt,
             mkScanner (discovered_nodes sc ++ [node_info]) (canvas sc)
                       (scanner_random sc))) ;;;
  match canvas sc with
  | None => ret tt
  | Some c => on_canvas c (add_unless_known node_info)
  end.

End Scanner.
Export Scanner.

Module App.

(** ** [class ANMPApp]: the three canvases *)

Record ANMPApp := mkApp {
  l1 : NetworkCanvas;
  l2 : NetworkCanvas;
  l3 : NetworkCanvas;
  has_unsaved_changes : bool;
  app_random : rng
}.

Definition new_app (g : rng) : ANMPApp :=
  mkApp (new_canvas "l1") (new_canvas "l2") (new_canvas "l3") false g.

(** A canvas method called on one of [self.canvases]. *)
Definition on_l1 {A} (m : M session A) : M ANMPApp A :=
  fun a => let '(r, s) := m (mkSession (l1 a) (app_random a)) in
           (r, mkApp (self s) (l2 a) (l3 a) (has_unsaved_changes a) (random s)).

Definition on_l2 {A} (m : M session A) : M ANMPApp A :=
  fun a => let '(r, s) := m (mkSession (l2 a) (app_random a)) in
           (r, mkApp (l1 a) (self s) (l3 a) (has_unsaved_changes a) (random s)).

Definition on_l3 {A} (m : M session A) : M ANMPApp A :=
  fun a => let '(r, s) := m (mkSession (l3 a) (app_random a)) in
           (r, mkApp (l1 a) (l2 a) (self s) (has_unsaved_changes a) (random s)).

Definition mark_as_modified : M ANMPApp unit :=
  fun a => (Return tt, mkApp (l1 a) (l2 a) (l3 a) true (app_random a)).

(** [ANMPApp.on_nodes_discovered]. *)
Definition on_nodes_discovered (discovered_nodes : list dict) : M ANMPApp unit :=
  on_l1 (add_discovered_nodes discovered_nodes) ;;;
  on_l2 (add_discovered_nodes discovered_nodes) ;;;
  on_l3 (add_discovered_nodes discovered_nodes) ;;;
  mark_as_modified.

End App.
Export App.

Module Data.

(** ** [class DataManager] and the files it works on

    A file holds either JSON text for a value, which [json.load] reads
    back as that value, or text that is no JSON, such as an empty or
    cut-off file, or bytes that are no UTF-8 text at all.  [fails] tells
    which calls to the operating system fail in this run. *)

Inductive content :=
| JsonText (v : value)
| Malformed
| NotText.

Inductive syscall :=
| Remove (path : string)
| Rename (src dst : string)
| OpenWrite (path : string)
| WriteText (path : string)
| OpenRead (path : string).

Record world := mkWorld {
  disk : gmap string content;
  fails : syscall -> bool;
  current_project : option dict;
  data : dict
}.

Definition get_data : M world dict := fun w => (Return (data w), w).

Definition put_data (d : dict) : M world unit :=
  fun w => (Return tt, mkWorld (disk w) (fails w) (current_project w) d).

Definition put_disk (fs : gmap string content) : M world unit :=
  fun w => (Return tt, mkWorld fs (fails w) (current_project w) (data w)).

Definition set_current_project (d : dict) : M world unit :=
  fun w => (Return tt, mkWorld (disk w) (fails w) (Some d) (data w)).

Definition failing (call : syscall) : M world bool :=
  fun w => (Return (fails w call), w).

(** [os.path.exists]. *)
Definition os_path_exists (path : string) : M world bool :=
  fun w => (Return (match disk w !! path with Some _ => true | None => false end), w).

(** [os.remove]. *)
Definition os_remove (path : string) : M world unit :=
  bad <- failing (Remove path) ;;
  if bad then raise OSError
  else
    w <- get ;;
    match disk w !! path with
    | Some _ => put_disk (delete path (disk w))
    | None => raise FileNotFoundError
    end.

(** [os.rename]. *)
Definition os_rename (src dst : string) : M world unit :=
  bad <- failing (Rename src dst) ;;
  if bad then raise OSError
  else
    w <- get ;;
    match disk w !! src with
    | Some c => put_disk (<[dst := c]> (delete src (disk w)))
    | None => raise FileNotFoundError
    end.

(** [with open(path, 'w') as f: json.dump(d, f)]: opening creates or
    empties the file, the dump then fills it.  A dump that stops, at an
    integer it cannot write or at a failing write, leaves the file cut
    off. *)
Definition write_json (path : string) (d : dict) : M world unit :=
  bad <- failing (OpenWrite path) ;;
  if bad then raise OSError
  else
    w <- get ;;
    put_disk (<[path := Malformed]> (disk w)) ;;;
    if negb (within_digit_limit (VDict d)) then raise ValueError
    else
      bad <- failing (WriteText path) ;;
      if bad then raise OSError
      else
        w <- get ;;
        put_disk (<[path := JsonText (VDict d)]> (disk w)).

(** [with open(path, 'r') as f: json.load(f)]. *)
Definition read_json (path : string) : M world value :=
  bad <- failing (OpenRead path) ;;
  if bad then raise OSError
  else
    w <- get ;;
    match disk w !! path with
    | None => raise FileNotFoundError
    | Some NotText => raise UnicodeDecodeError
    | Some Malformed => raise JSONDecodeError
    | Some (JsonText v) =>
        if within_digit_limit v then ret v else raise ValueError
    end.

(** [data["metadata"][field] = stamp], after [if "metadata" not in data:
    data["metadata"] = {}]. *)
Definition stamp_metadata (field stamp : string) : M world unit :=
  d <- get_data ;;
  (if negb (dict_has d "metadata")
   then put_data (dict_set d "metadata" (VDict []))
   else ret tt) ;;;
  d <- get_data ;;
  match dict_get d "metadata" with
  | Some (VDict md) =>
      put_data (dict_set d "metadata" (VDict (dict_set md field (VStr stamp))))
  | _ => raise TypeError
  end.

(** [DataManager.create_new_project]; [now] is [datetime.now().isoformat()]. *)
Definition create_new_project (name now : string) : dict :=
  [("metadata", VDict [("name", VStr name); ("created", VStr now);
                       ("modified", VStr now); ("version", VStr "1.2")]);
   ("nodes", VList []);
   ("topologies", VDict [("l1", VDict [("connections", VList [])]);
                         ("l2", VDict [("connections", VList [])]);
                         ("l3", VDict [("connections", VList [])])]);
   ("settings", VDict [("auto_layout", VBool true)])].

(** The backup block of [save_project]: an existing file moves to
    [file_path + ".backup"], after an older backup is removed. *)
Definition rotate_backup (file_path : string) : M world unit :=
  found <- os_path_exists file_path ;;
  if found then
    let backup_path := file_path +:+ ".backup" in
    old <- os_path_exists backup_path ;;
    (if old then os_remove backup_path else ret tt) ;;;
    os_rename file_path backup_path
  else ret tt.

(** [DataManager.save_project(data, file_path)]; afterwards [data] of the
    world is the caller's dictionary as the call left it. *)
Definition save_project (data_arg : dict) (file_path now : string) : M world bool :=
  put_data data_arg ;;;
  try_except
    (stamp_metadata "modified" now ;;;
     rotate_backup file_path ;;;
     d <- get_data ;;
     write_json file_path d ;;;
     set_current_project d ;;;
     ret true)
    (fun _ => ret false).

(** [DataManager._validate_project_data]. *)
Definition validate_project_data : M world unit :=
  d <- get_data ;;
  put_data (dict_setdefault d "topologies"
    (VDict [("l1", VDict [("connections", VList [])]);
            ("l2", VDict [("connections", VList [])]);
            ("l3", VDict [("connections", VList [])])])).

(** [DataManager.load_project].  The first handler builds
    [json.JSONDecodeError] from a message alone, without the document and
    position it requires, which is a [TypeError]. *)
Definition load_project (file_path now : string) : M world dict :=
  found <- os_path_exists file_path ;;
  if negb found then raise FileNotFoundError
  else
    try_except
      (v <- read_json file_path ;;
       match v with
       | VDict d => put_data d
       | _ => raise AttributeError
       end ;;;
       validate_project_data ;;;
       stamp_metadata "loaded" now ;;;
       d <- get_data ;;
       set_current_project d ;;;
       ret d)
      (fun e => match e with
                | JSONDecodeError => raise TypeError
                | _ => raise ValueError
                end).

End Data.
Export Data.

Module CanvasEdit.

(** ** [class NetworkCanvas]: placing nodes, editing connections, queries *)

(** [NetworkCanvas.add_node_at_position]; the position is the scene point
    of the double click. *)
Definition add_node_at_position (x y : float) : M session Z :=
  c <- get_self ;;
  let node_data :=
    [("name", VStr ("Node-" +:+ pretty (next_node_id c)));
     ("type", VStr "host");
     ("ip", VStr ("192.168.1." +:+ pretty (next_node_id c)));
     ("mask", VStr "255.255.255.0");
     ("x", VFloat x);
     ("y", VFloat y);
     ("status", VStr "online")] in
  add_node (Some node_data).

(** How an object fares in [min(a, b)] and [max(a, b)] and then as part of
    a key looked up in [self.connections]: numbers compare with numbers and
    strings with strings; [None], lists and dictionaries end in a
    [TypeError], from the comparison or from the hashing of the key.  A
    number that is no integer is part of no key of the table. *)
Inductive ordered :=
| Number (z : option Z)
| Text
| Unordered.

Definition order_class (v : value) : ordered :=
  match v with
  | VBool _ | VInt _ | VFloat _ =>
      Number (match hash_key v with IntKey z => Some z | _ => None end)
  | VStr _ => Text
  | VNone | VList _ | VDict _ => Unordered
  end.

(** [NetworkCanvas.update_connection]. *)
Definition update_connection (new_data : dict) : M session unit :=
  let source_id := dict_get_default new_data "source" VNone in
  let target_id := dict_get_default new_data "target" VNone in
  match order_class source_id, order_class target_id with
  | Number a, Number b =>
      match a, b with
      | Some a, Some b =>
          c <- get_self ;;
          match connections c !! conn_key a b with
          | Some conn =>
              let conn' := mkConn (source_node conn) (target_node conn)
                             (dict_update (connection_data conn) new_data) in
              put_self (set_connections c (<[conn_key a b := conn']> (connections c)))
          | None => ret tt
          end
      | _, _ => ret tt
      end
  | Text, Text => ret tt
  | _, _ => raise TypeError
  end.

(** [NetworkCanvas.get_isolated_nodes].  The names come in the order in
    which Python walks the set of isolated ids, which is not modelled: here
    they come in the order of [elements]. *)
Definition connected_node_ids (c : NetworkCanvas) : gset Z :=
  foldr (fun k acc => {[k.1]} ∪ ({[k.2]} ∪ acc)) ∅ (connection_keys c).

Definition node_name (c : NetworkCanvas) (node_id : Z) : option value :=
  (fun node_item =>
     dict_get_default (node_data node_item) "name" (VStr ("ID: " +:+ pretty node_id)))
  <$> nodes c !! node_id.

Definition get_isolated_nodes (c : NetworkCanvas) : list value :=
  let all_node_ids : gset Z := dom (nodes c) in
  let isolated_ids := all_node_ids ∖ connected_node_ids c in
  omap (node_name c) (elements isolated_ids).

End CanvasEdit.
Export CanvasEdit.

Module Backup.

(** ** [class DataManager]: export, import and backup copies *)



(** [with open(src, 'r') as s: with open(dst, 'w') as d: d.write(s.read())].
    Opening [dst] creates or empties it; the text of [src] is read after
    that, and reading bytes that are no text raises. *)
Definition copy_text (src dst : string) : M world unit :=
  bad <- failing (OpenRead src) ;;
  if bad then raise OSError
  else
    found <- os_path_exists src ;;
    if negb found then raise FileNotFoundError
    else
      bad <- failing (OpenWrite dst) ;;
      if bad then raise OSError
      else
        w <- get ;;
        put_disk (<[dst := Malformed]> (disk w)) ;;;
        w <- get ;;
        match disk w !! src with
        | None => raise FileNotFoundError
        | Some NotText => raise UnicodeDecodeError
        | Some text =>
            bad <- failing (WriteText dst) ;;
            if bad then raise OSError
            else put_disk (<[dst := text]> (disk w))
        end.

(** [DataManager.create_backup]. *)
Definition create_backup (file_path : string) : M world string :=
  found <- os_path_exists file_path ;;
  if negb found then raise FileNotFoundError
  else
    let backup_path := file_path +:+ ".backup" in
    copy_text file_path backup_path ;;;
    ret backup_path.

(** [DataManager.restore_backup]. *)
Definition restore_backup (file_path : string) : M world bool :=
  let backup_path := file_path +:+ ".backup" in
  found <- os_path_exists backup_path ;;
  if negb found then ret false
  else
    try_except
      (here <- os_path_exists file_path ;;
       (if here then os_rename file_path (file_path +:+ ".temp") else ret tt) ;;;
       os_rename backup_path file_path ;;;
       ret true)
      (fun _ => ret false).

End Backup.
Export Backup.

Module AppState.

(** ** [class ProjectState], [class AppStateManager]

    The times are passed in as [now]; the signals a method emits are added
    to [emitted]. *)

Record ProjectState := mkProjectState {
  file_path : option string;
  has_unsaved_changes : bool;
  original_data : option dict;
  name : string;
  created : option string;
  modified : option string
}.

Definition new_project_state : ProjectState :=
  mkProjectState None false None "Новый проект" None None.

Inductive signal :=
| project_loaded (path : string)
| project_saved (path : string)
| project_modified
| project_cleared.

Record AppStateManager := mkManager {
  project_state : ProjectState;
  recent_files : list string;
  max_recent_files : nat;
  emitted : list signal
}.

Definition new_manager : AppStateManager :=
  mkManager new_project_state [] 10 [].

(** [list.remove]: the first occurrence goes. *)
Fixpoint list_remove (x : string) (l : list string) : list string :=
  match l with
  | [] => []
  | y :: l' => if String.eqb y x then l' else y :: list_remove x l'
  end.

(** [AppStateManager._add_recent_file]. *)
Definition add_recent_file (path : string) (m : AppStateManager) : AppStateManager :=
  let l := if existsb (String.eqb path) (recent_files m)
           then list_remove path (recent_files m)
           else recent_files m in
  let l := path :: l in
  let l := if (max_recent_files m <? length l)%nat
           then take (max_recent_files m) l
           else l in
  mkManager (project_state m) l (max_recent_files m) (emitted m).

Definition emit (sig : signal) (m : AppStateManager) : AppStateManager :=
  mkManager (project_state m) (recent_files m) (max_recent_files m)
            (emitted m ++ [sig]).

Definition set_project_state (ps : ProjectState) (m : AppStateManager)
  : AppStateManager :=
  mkManager ps (recent_files m) (max_recent_files m) (emitted m).

(** [AppStateManager.load_project]. *)
Definition load_project (path : string) (d : dict) (now : string)
    (m : AppStateManager) : AppStateManager :=
  let ps := project_state m in
  let m := set_project_state
             (mkProjectState (Some path) false (Some d) (name ps) (created ps)
                             (Some now)) m in
  let m := add_recent_file path m in
  emit (project_loaded path) m.

(** [AppStateManager.save_project]. *)
Definition save_project (path : string) (d : dict) (now : string)
    (m : AppStateManager) : AppStateManager :=
  let ps := project_state m in
  let m := set_project_state
             (mkProjectState (Some path) false (Some d) (name ps) (created ps)
                             (Some now)) m in
  let m := add_recent_file path m in
  emit (project_saved path) m.

(** [AppStateManager.mark_as_modified]. *)
Definition mark_as_modified (m : AppStateManager) : AppStateManager :=
  let ps := project_state m in
  let m := set_project_state
             (mkProjectState (file_path ps) true (original_data ps) (name ps)
                             (created ps) (modified ps)) m in
  emit project_modified m.

(** [AppStateManager.clear_project]. *)
Definition clear_project (m : AppStateManager) : AppStateManager :=
  emit project_cleared (set_project_state new_project_state m).

(** [AppStateManager.new_project]; the clock is read twice. *)
Definition new_project (now later : string) (m : AppStateManager) : AppStateManager :=
  emit project_cleared
    (set_project_state
       (mkProjectState None false None "Новый проект" (Some now) (Some later)) m).

End AppState.

Module FileController.

(** ** [class FileController]: the two methods that reach the files

    [error_occurred] counts the emissions of the signal of that name; the
    text of the message is left out. *)

Record FileController := mkController {
  state_manager : AppState.AppStateManager;
  data_manager : world;
  error_occurred : nat
}.

(** A [DataManager] method called on [self.data_manager]. *)
Definition on_data_manager {A} (m : M world A) : M FileController A :=
  fun c => let '(r, w) := m (data_manager c) in
           (r, mkController (state_manager c) w (error_occurred c)).

(** An [AppStateManager] method called on [self.state_manager]. *)
Definition on_state_manager (f : AppState.AppStateManager -> AppState.AppStateManager)
  : M FileController unit :=
  fun c => (Return tt,
            mkController (f (state_manager c)) (data_manager c) (error_occurred c)).

(** [self.error_occurred.emit(...)]. *)
Definition emit_error : M FileController unit :=
  fun c => (Return tt,
            mkController (state_manager c) (data_manager c) (S (error_occurred c))).

(** The caller's dictionary, as the last [DataManager] call left it. *)
Definition get_caller_data : M FileController dict :=
  fun c => (Return (data (data_manager c)), c).

(** [FileController._load_project_from_path]; [now] is the time the data
    manager reads, [later] the time the state manager reads. *)
Definition load_project_from_path (file_path now later : string)
  : M FileController bool :=
  try_except
    (d <- on_data_manager (Data.load_project file_path now) ;;
     on_state_manager (AppState.load_project file_path d later) ;;;
     ret true)
    (fun _ =>
       emit_error ;;;
       ret false).

(** [FileController._save_project_to_path].  The state manager is handed
    the dictionary [DataManager.save_project] has just stamped. *)
Definition save_project_to_path (file_path : string) (data_arg : dict)
    (now later : string) : M FileController bool :=
  try_except
    (on_data_manager (Data.save_project data_arg file_path now) ;;;
     d <- get_caller_data ;;
     on_state_manager (AppState.save_project file_path d later) ;;;
     ret true)
    (fun _ =>
       emit_error ;;;
       ret false).

End FileController.

Module AppActions.

(** ** [class ANMPApp]: menu actions and slots *)

(** The tab that is open: [self.get_active_canvas()]. *)
Inductive layer := L1 | L2 | L3.

Definition layer_eqb (a b : layer) : bool :=
  match a, b with
  | L1, L1 | L2, L2 | L3, L3 => true
  | _, _ => false
  end.

Definition canvas_of (a : ANMPApp) (which : layer) : NetworkCanvas :=
  match which with L1 => l1 a | L2 => l2 a | L3 => l3 a end.

Definition on_layer {A} (which : layer) (m : M session A) : M ANMPApp A :=
  match which with L1 => on_l1 m | L2 => on_l2 m | L3 => on_l3 m end.

(** [NetworkCanvas.add_node] called with any object: what is not [None]
    has its ["id"] item assigned at once, which only a dictionary
    allows. *)
Definition add_node_obj (node_data : value) : M session Z :=
  match node_data with
  | VNone => add_node None
  | VDict d => add_node (Some d)
  | _ => raise TypeError
  end.

(** [ANMPApp.add_node_action]: the loop passes on what [add_node]
    returned. *)
Definition add_node_action (active : layer) : M ANMPApp unit :=
  node_data <- on_layer active (add_node None) ;;
  for_each [L1; L2; L3]
    (fun which =>
       if negb (layer_eqb which active)
       then on_layer which (add_node_obj (VInt node_data)) ;;; ret tt
       else ret tt).

(** The slots of [connection_editor.connection_updated], in the order in
    which [setup_connections] connected them. *)
Definition on_connection_updated (connection_data : dict) : M ANMPApp unit :=
  on_l1 (update_connection connection_data) ;;;
  on_l2 (update_connection connection_data) ;;;
  on_l3 (update_connection connection_data).

(** [v.get(k, default)] on any object: only a dictionary has [get]. *)
Definition py_get {St} (v : value) (k : string) (default : value) : M St value :=
  match v with
  | VDict d => ret (dict_get_default d k default)
  | _ => raise AttributeError
  end.

(** The list under ["nodes"] after a canvas loaded it.  [add_node] writes
    the id and the defaults into the dictionary it is given, and the
    canvas keeps that dictionary as the data of the node: the [i]-th
    dictionary of the list is from then on the data of node [i + 1]. *)
Definition refreshed (c : NetworkCanvas) (node_list : value) : value :=
  match node_list with
  | VList l =>
      VList (imap (fun i v =>
                     match v, nodes c !! (Z.of_nat i + 1) with
                     | VDict _, Some node_item => VDict (node_data node_item)
                     | _, _ => v
                     end) l)
  | _ => node_list
  end.

(** One round of the loop of [on_project_loaded]. *)
Definition load_layer (which : layer) (level : string) (node_list topologies : value)
  : M ANMPApp unit :=
  group <- py_get topologies level (VDict []) ;;
  connection_list <- py_get group "connections" (VList []) ;;
  on_layer which
    (load_data [("nodes", node_list); ("connections", connection_list)]).

(** [ANMPApp.on_project_loaded]; [data] is what
    [self.app_state.get_project_data()] returns.  The three canvases are
    handed the same list of node dictionaries, one after the other. *)
Definition on_project_loaded (data : option dict) : M ANMPApp unit :=
  match data with
  | None | Some [] => ret tt
  | Some d =>
      let node_list := dict_get_default d "nodes" (VList []) in
      let topologies := dict_get_default d "topologies" (VDict []) in
      load_layer L1 "l1" node_list topologies ;;;
      a <- get ;;
      let node_list := refreshed (l1 a) node_list in
      load_layer L2 "l2" node_list topologies ;;;
      a <- get ;;
      let node_list := refreshed (l2 a) node_list in
      load_layer L3 "l3" node_list topologies
  end.

End AppActions.
Export AppActions.

Module Helpers.

(** ** [utils/helpers.py]: masks and prefix lengths *)

(** [int(x)] for a string of ASCII characters: blanks around it are
    dropped, a sign may come first, digits may be grouped with single
    underscores.  Text with a character beyond ASCII, or longer than the
    interpreter's limit on the digits of an integer, is not covered. *)
Inductive parsed :=
| Int (z : Z)
| NotInt
| Outside.

Definition is_space (c : ascii) : bool :=
  let n := nat_of_ascii c in
  ((9 <=? n) && (n <=? 13) || (28 <=? n) && (n <=? 32))%nat.

Definition digit_of (c : ascii) : option Z :=
  let n := nat_of_ascii c in
  if ((48 <=? n) && (n <=? 57))%nat then Some (Z.of_nat n - 48) else None.

Fixpoint digits (acc : Z) (after_digit : bool) (l : list ascii) : option Z :=
  match l with
  | [] => if after_digit then Some acc else None
  | c :: l' =>
      if Ascii.eqb c "_"%char
      then if after_digit then digits acc false l' else None
      else match digit_of c with
           | Some d => digits (10 * acc + d) true l'
           | None => None
           end
  end.

Fixpoint lstrip (l : list ascii) : list ascii :=
  match l with
  | c :: l' => if is_space c then lstrip l' else l
  | [] => []
  end.

Definition strip (l : list ascii) : list ascii :=
  rev (lstrip (rev (lstrip l))).

Definition py_int (x : string) : parsed :=
  let l := list_ascii_of_string x in
  if negb (forallb (fun c => (nat_of_ascii c <? 128)%nat) l) || (4300 <? length l)%nat
  then Outside
  else
    let signed :=
      match strip l with
      | c :: l' =>
          if Ascii.eqb c "-"%char then (-1, l')
          else if Ascii.eqb c "+"%char then (1, l')
          else (1, c :: l')
      | [] => (1, [])
      end in
    match digits 0 false signed.2 with
    | Some z => Int (signed.1 * z)
    | None => NotInt
    end.

(** [bin(n).count('1')]: the ones in the binary digits of the absolute
    value. *)
Fixpoint ones (p : positive) : Z :=
  match p with
  | xH => 1
  | xO p' => ones p'
  | xI p' => 1 + ones p'
  end.

Definition count_ones (n : Z) : Z :=
  match n with
  | Z0 => 0
  | Zpos p | Zneg p => ones p
  end.

(** [".".join(...)]. *)
Fixpoint join_dot (parts : list string) : string :=
  match parts with
  | [] => ""
  | [x] => x
  | x :: rest => x +:+ "." +:+ join_dot rest
  end.

(** [get_subnet_mask]. *)
Definition get_subnet_mask (prefix_length : Z) : outcome string :=
  if negb ((0 <=? prefix_length)%Z && (prefix_length <=? 32)%Z)
  then Raise ValueError
  else
    let mask := Z.land (Z.shiftl 0xFFFFFFFF (32 - prefix_length)) 0xFFFFFFFF in
    Return (join_dot
              ((fun i => pretty (Z.land (Z.shiftr mask i) 0xFF)) <$> [24; 16; 8; 0])).

(** [[int(x) for x in mask.split('.')]]: the first part that is no integer
    ends the comprehension with a [ValueError]. *)
Fixpoint int_parts (parts : list string) : option (outcome (list Z)) :=
  match parts with
  | [] => Some (Return [])
  | x :: rest =>
      match py_int x with
      | Outside => None
      | NotInt => Some (Raise ValueError)
      | Int z =>
          match int_parts rest with
          | Some (Return zs) => Some (Return (z :: zs))
          | other => other
          end
      end
  end.

(** [sum(mask_parts[i] << (24 - i * 8) for i in range(4))]. *)
Definition binary_mask (mask_parts : list Z) : Z :=
  foldr Z.add 0
    ((fun i => Z.shiftl (nth (Z.to_nat i) mask_parts 0) (24 - i * 8)) <$> seqZ 0 4).

(** [get_prefix_length]; [None] where [py_int] does not reach. *)
Definition get_prefix_length (mask : string) : option (outcome Z) :=
  match int_parts (split_dot mask "") with
  | None => None
  | Some (Raise _) => Some (Raise ValueError)
  | Some (Return mask_parts) =>
      if negb (length mask_parts =? 4)%nat then Some (Raise ValueError)
      else Some (Return (count_ones (binary_mask mask_parts)))
  end.

(** [format_cidr]. *)
Definition format_cidr (ip mask : string) : option (outcome string) :=
  match get_prefix_length mask with
  | None => None
  | Some (Return prefix_length) => Some (Return (ip +:+ "/" +:+ pretty prefix_length))
  | Some (Raise _) => Some (Raise ValueError)
  end.

End Helpers.
Export Helpers.

Module Merge.

(** ** [DataManager.merge_projects]

    The call works on three dictionaries: its two arguments and [merged],
    the shallow copy of the first.  The copy shares the node list, the
    connection list and the metadata dictionary with [project1], so what is
    appended to or stored in them shows in both; the node dictionaries of
    [project2] that are renumbered are changed in [project2] as well.  The
    two arguments are taken to share no object.

    Node ids are covered when they are integers: a run that meets another
    id ends in [Beyond]. *)

Record projects := mkProjects {
  project1 : dict;
  project2 : dict;
  merged : dict
}.

Inductive run (A : Type) :=
| Ran (r : outcome A) (s : projects)
| Beyond.
Arguments Ran {A} r s.
Arguments Beyond {A}.

Definition R (A : Type) : Type := projects -> run A.

Definition done {A} (a : A) : R A := fun s => Ran (Return a) s.
Definition fail {A} (e : exn) : R A := fun s => Ran (Raise e) s.
Definition beyond {A} : R A := fun _ => Beyond.

Definition and_then {A B} (m : R A) (k : A -> R B) : R B :=
  fun s =>
    match m s with
    | Ran (Return a) s' => k a s'
    | Ran (Raise e) s' => Ran (Raise e) s'
    | Beyond => Beyond
    end.

Notation "x <~ m ;; k" := (and_then m (fun x => k))
  (at level 20, m at level 99, k at level 200, only parsing).

Definition read : R projects := fun s => Ran (Return s) s.
Definition write (s : projects) : R unit := fun _ => Ran (Return tt) s.

(** [for x in v]. *)
Definition items (v : value) : R (list value) :=
  match v with
  | VList l => done l
  | VDict d => done (map (fun kv => VStr kv.1) d)
  | VStr s => done (chars s)
  | _ => fail TypeError
  end.

(** A loop that collects a value for every item, in order. *)
Fixpoint each {A B} (xs : list A) (f : A -> R B) : R (list B) :=
  match xs with
  | [] => done []
  | x :: xs' =>
      y <~ f x ;;
      ys <~ each xs' f ;;
      done (y :: ys)
  end.

(** [node["id"]], with the dictionary it was read from. *)
Definition node_entry (node : value) : R (dict * Z) :=
  match node with
  | VDict d =>
      match dict_get d "id" with
      | None => fail (KeyError "id")
      | Some (VInt z) => done (d, z)
      | Some _ => beyond
      end
  | _ => fail TypeError
  end.

(** [max(existing_ids) if existing_ids else 0]. *)
Definition greatest (ids : list Z) : Z :=
  match ids with
  | [] => 0
  | z :: zs => foldl Z.max z zs
  end.

(** [merged[key].append(v)]. *)
Definition append_to (key : string) (v : value) : R unit :=
  s <~ read ;;
  match dict_get (merged s) key with
  | None => fail (KeyError key)
  | Some (VList l) =>
      write (mkProjects (dict_set (project1 s) key (VList (l ++ [v])))
                        (project2 s)
                        (dict_set (merged s) key (VList (l ++ [v]))))
  | Some _ => fail AttributeError
  end.

(** [node["id"] = new_id] for the node at place [i] of [project2["nodes"]]. *)
Definition set_node_id (i : nat) (d : dict) (new_id : Z) : R unit :=
  s <~ read ;;
  match dict_get (project2 s) "nodes" with
  | Some (VList l) =>
      write (mkProjects (project1 s)
               (dict_set (project2 s) "nodes"
                  (VList (<[i := VDict (dict_set d "id" (VInt new_id))]> l)))
               (merged s))
  | _ => done tt
  end.

(** The loop over the nodes of [project2], from place [i] on. *)
Fixpoint merge_nodes (existing_ids : list Z) (max_id : Z) (i : nat)
    (nodes2 : list value) : R unit :=
  match nodes2 with
  | [] => done tt
  | node :: rest =>
      entry <~ node_entry node ;;
      if negb (existsb (Z.eqb entry.2) existing_ids)
      then
        ok <~ set_node_id i entry.1 (max_id + 1) ;;
        ok <~ append_to "nodes" (VDict (dict_set entry.1 "id" (VInt (max_id + 1)))) ;;
        merge_nodes existing_ids (max_id + 1) (S i) rest
      else merge_nodes existing_ids max_id (S i) rest
  end.

(** [(conn["source"], conn["target"])], hashed as a member of a set. *)
Definition conn_tuple (conn : value) : R (value * value) :=
  match conn with
  | VDict cd =>
      match dict_get cd "source" with
      | None => fail (KeyError "source")
      | Some a =>
          match dict_get cd "target" with
          | None => fail (KeyError "target")
          | Some b =>
              if hashable a && hashable b then done (a, b) else fail TypeError
          end
      end
  | _ => fail TypeError
  end.

Definition tuple_eqb (t u : value * value) : bool :=
  py_eqb t.1 u.1 && py_eqb t.2 u.2.

(** The loop over the connections of [project2]. *)
Fixpoint merge_connections (existing_connections : list (value * value))
    (connections2 : list value) : R unit :=
  match connections2 with
  | [] => done tt
  | connection :: rest =>
      t <~ conn_tuple connection ;;
      ok <~ (if negb (existsb (tuple_eqb t) existing_connections)
            then append_to "connections" connection
            else done tt) ;;
      merge_connections existing_connections rest
  end.

(** [merged["metadata"][field] = v]. *)
Definition set_metadata (field : string) (v : value) : R unit :=
  s <~ read ;;
  match dict_get (merged s) "metadata" with
  | None => fail (KeyError "metadata")
  | Some (VDict md) =>
      write (mkProjects
               (dict_set (project1 s) "metadata" (VDict (dict_set md field v)))
               (project2 s)
               (dict_set (merged s) "metadata" (VDict (dict_set md field v))))
  | Some _ => fail TypeError
  end.

(** [project.get("metadata", {}).get("name", default)]. *)
Definition project_name (project : dict) (default : string) : R value :=
  match dict_get_default project "metadata" (VDict []) with
  | VDict md => done (dict_get_default md "name" (VStr default))
  | _ => fail AttributeError
  end.

Definition merge_body (now : string) : R dict :=
  s <~ read ;;
  nodes1 <~ items (dict_get_default (merged s) "nodes" (VList [])) ;;
  entries <~ each nodes1 node_entry ;;
  let existing_ids := snd <$> entries in
  let max_id := greatest existing_ids in
  nodes2 <~ items (dict_get_default (project2 s) "nodes" (VList [])) ;;
  ok <~ merge_nodes existing_ids max_id 0 nodes2 ;;
  s <~ read ;;
  connections1 <~ items (dict_get_default (merged s) "connections" (VList [])) ;;
  existing_connections <~ each connections1 conn_tuple ;;
  connections2 <~ items (dict_get_default (project2 s) "connections" (VList [])) ;;
  ok <~ merge_connections existing_connections connections2 ;;
  ok <~ set_metadata "merged" (VStr now) ;;
  s <~ read ;;
  name1 <~ project_name (project1 s) "Проект 1" ;;
  name2 <~ project_name (project2 s) "Проект 2" ;;
  ok <~ set_metadata "source_projects" (VList [name1; name2]) ;;
  s <~ read ;;
  done (merged s).

(** [DataManager.merge_projects]; [now] is [datetime.now().isoformat()]. *)
Definition merge_projects (p1 p2 : dict) (now : string) : run dict :=
  merge_body now (mkProjects p1 p2 p1).

End Merge.

(** ** Definitions used to state the properties *)



(** The shape of a persisted document: the four sections, with
    [metadata] and [settings] objects, a node list, and a connection list
    for each of the three layers. *)
Definition has_connection_list (topologies : dict) (layer : string) : bool :=
  match dict_get topologies layer with
  | Some (VDict t) =>
      match dict_get t "connections" with Some (VList _) => true | _ => false end
  | _ => false
  end.

Definition well_formed_document (d : dict) : bool :=
  match dict_get d "metadata", dict_get d "nodes",
        dict_get d "topologies", dict_get d "settings" with
  | Some (VDict _), Some (VList _), Some (VDict t), Some (VDict _) =>
      has_connection_list t "l1" && has_connection_list t "l2"
      && has_connection_list t "l3"
  | _, _, _, _ => false
  end.

Definition no_faults (w : world) : Prop := forall call, fails w call = false.

(** A session of calls on one canvas, and the ids [add_node] returned. *)
Inductive canvas_op :=
| OpAddNode (node_data : option dict)
| OpClear.

Fixpoint run_ops (ops : list canvas_op) : M session (list Z) :=
  match ops with
  | [] => ret []
  | OpAddNode nd :: ops' =>
      id <- add_node nd ;;
      ids <- run_ops ops' ;;
      ret (id :: ids)
  | OpClear :: ops' => clear ;;; run_ops ops'
  end.

(** What building or refreshing the item of a node raises for its data,
    if anything: [TypeError] for a device type that cannot be hashed,
    [AttributeError] for an [l3] entry that is no dictionary, [ValueError]
    for a status, name or address with an integer too long to format. *)
Definition item_error (node_data : dict) : option exn :=
  if negb (hashable (dict_get_default node_data "type" (VStr "host")))
  then Some TypeError
  else if negb (within_digit_limit
                  (dict_get_default node_data "status" (VStr "online")))
  then Some ValueError
  else match dict_get_default node_data "l3" (VDict []) with
       | VDict l3 =>
           if within_digit_limit (dict_get_default node_data "name" (VStr "Unknown"))
              && within_digit_limit (dict_get_default l3 "ip" (VStr "No IP"))
           then None
           else Some ValueError
       | _ => Some AttributeError
       end.

(** What placing an item at [(x, y)] raises. *)
Definition position_error (x y : value) : option exn :=
  if is_real x && is_real y then None else Some TypeError.

(** What [add_node] raises for the data it is given: the error of the
    item, else the error of a position the data brings. *)
Definition input_error (node_data : option dict) : option exn :=
  match node_data with
  | Some d =>
      match item_error d with
      | Some e => Some e
      | None => position_error (dict_get_default d "x" (VInt 0))
                               (dict_get_default d "y" (VInt 0))
      end
  | None => None
  end.

(** Node data that [add_node] accepts. *)
Definition displayable (node_data : dict) : bool :=
  match input_error (Some node_data) with None => true | Some _ => false end.

(** The node data [add_node] stores for counter value [new_id] and draws
    [rx], [ry]. *)
Definition filled_node_data (new_id rx ry : Z) (node_data : option dict) : dict :=
  let d0 := match node_data with
            | None => [("id", VInt new_id)]
            | Some d => dict_set d "id" (VInt new_id)
            end in
  let d1 := dict_setdefault d0 "name" (VStr ("Device-" +:+ pretty new_id)) in
  let d2 := dict_setdefault d1 "type" (VStr "host") in
  let d3 := dict_setdefault d2 "x" (VInt rx) in
  let d4 := dict_setdefault d3 "y" (VInt ry) in
  let d5 := dict_setdefault d4 "status" (VStr "online") in
  let d6 := dict_setdefault d5 "l1"
    (VDict [("ports", VList []); ("location", VStr "")]) in
  let d7 := dict_setdefault d6 "l2" (VDict [("mac", VStr ""); ("vlan", VInt 1)]) in
  dict_setdefault d7 "l3"
    (VDict [("ip", VStr ("192.168.1." +:+ pretty new_id));
            ("mask", VStr "255.255.255.0"); ("gateway", VStr "")]).

Definition new_node_item (new_id rx ry : Z) (node_data : option dict) : NetworkNode :=
  let d := filled_node_data new_id rx ry node_data in
  mkNode d (dict_get_default d "x" VNone, dict_get_default d "y" VNone).

Definition empty_session (lvl : string) : session :=
  mkSession (new_canvas lvl) (Rng (fun n => 17 * Z.of_nat n + 5) 0).

(** Every key of [self.connections] is a pair in increasing order: the
    shape [add_connection] gives its keys. *)
Definition keys_ordered (c : NetworkCanvas) : Prop :=
  map_Forall (fun k _ => k.1 < k.2) (connections c).

(** The number of connections stored for the unordered pair of [a], [b]. *)
Definition pair_count (c : NetworkCanvas) (a b : Z) : nat :=
  size (filter (fun kv => kv.1 = (a, b) \/ kv.1 = (b, a)) (connections c)).

(** A canvas with two nodes, 1 and 2, and no connection. *)
Definition two_nodes (lvl : string) : session :=
  snd (run_ops [OpAddNode None; OpAddNode None] (empty_session lvl)).

(** An edit that names node 1 and supplies an [l3] group with one field. *)
Definition l3_edit : dict :=
  [("id", VInt 1); ("l3", VDict [("ip", VStr "10.0.0.9")])].

(** [pos[node_id]] for the items of the layout dictionary. *)
Fixpoint layout_get (layout : list (Z * (float * float))) (node_id : Z)
    : option (float * float) :=
  match layout with
  | [] => None
  | (id, p) :: rest => if (node_id =? id)%Z then Some p else layout_get rest node_id
  end.

(** A node item after one step of the position loop of [auto_layout]. *)
Definition moved (node_item : NetworkNode) (position : float * float) : NetworkNode :=
  mkNode (dict_set (dict_set (node_data node_item) "x" (VFloat (screen_x position.1)))
                   "y" (VFloat (screen_y position.2)))
         (VFloat (screen_x position.1), VFloat (screen_y position.2)).

Definition place (ns : gmap Z NetworkNode) (entry : Z * (float * float))
    : gmap Z NetworkNode :=
  match ns !! entry.1 with
  | Some node_item => <[entry.1 := moved node_item entry.2]> ns
  | None => ns
  end.

(** A layout for the two-node canvas. *)
Definition sample_layout : list (Z * (float * float)) :=
  [(1, (0.5, -1)%float); (2, (-0.25, 1)%float)].


(** A document whose stored node ids are 1 and 3, joined by a connection. *)
Definition gapped_document : dict :=
  [("nodes", VList [VDict [("id", VInt 1); ("name", VStr "core")];
                    VDict [("id", VInt 3); ("name", VStr "edge")]]);
   ("connections", VList [VDict [("source", VInt 1); ("target", VInt 3)]])].

(** Every node id is below the id counter: what [add_node] and [clear]
    maintain. *)
Definition ids_below (c : NetworkCanvas) : Prop :=
  map_Forall (fun id _ => id < next_node_id c) (nodes c).

(** A discovery record that carries its address as a string. *)
Definition has_address (node_info : dict) : bool :=
  match dict_get node_info "ip" with Some (VStr _) => true | _ => false end.

(** A discovery record a node can be made of: its address is a string,
    and the item of the node accepts its device type, status and name. *)
Definition addable_record (node_info : dict) : bool :=
  has_address node_info
  && hashable (dict_get_default node_info "type" (VStr "host"))
  && within_digit_limit (dict_get_default node_info "status" (VStr "online"))
  && within_digit_limit (dict_get_default node_info "name" (VStr "")).

(** [node_data["l3"]["ip"]] and [node_data["ip"]] of a node of the canvas. *)
Definition l3_ip (c : NetworkCanvas) (node_id : Z) : option value :=
  match nodes c !! node_id with
  | Some node_item =>
      match dict_get (node_data node_item) "l3" with
      | Some (VDict group) => dict_get group "ip"
      | _ => None
      end
  | None => None
  end.

Definition flat_ip (c : NetworkCanvas) (node_id : Z) : option value :=
  match nodes c !! node_id with
  | Some node_item => dict_get (node_data node_item) "ip"
  | None => None
  end.

(** The discovery result of scenario B. *)
Definition host_10_0_0_5 : dict := [("ip", VStr "10.0.0.5")].

(** [metadata] is missing or a dictionary: what [save_project] needs to
    get as far as the file system. *)
Definition metadata_ok (d : dict) : bool :=
  match dict_get d "metadata" with
  | None | Some (VDict _) => true
  | Some _ => false
  end.

(** The metadata dictionary [stamp_metadata] starts from. *)
Definition metadata_of (d : dict) : dict :=
  match dict_get d "metadata" with
  | Some (VDict md) => md
  | _ => []
  end.

(** A run in which the file can be neither created nor emptied. *)
Definition cannot_open (call : syscall) : bool :=
  match call with OpenWrite _ => true | _ => false end.

Definition sample_document : dict :=
  create_new_project "demo" "2024-01-01T00:00:00".

Definition sample_disk : gmap string content :=
  {[ "net.json" := JsonText (VDict sample_document) ]}.

(** The caller's dictionary after [save_project] stamped it, and the
    files after the backup block. *)
Definition stamped (d : dict) (field stamp : string) : dict :=
  dict_set d "metadata" (VDict (dict_set (metadata_of d) field (VStr stamp))).


(** The default [_validate_project_data] gives a missing [topologies]. *)
Definition empty_topologies : value :=
  VDict [("l1", VDict [("connections", VList [])]);
         ("l2", VDict [("connections", VList [])]);
         ("l3", VDict [("connections", VList [])])].

Definition healthy_world : world := mkWorld ∅ (fun _ => false) None [].

(** I3: both ends of every connection are nodes of the canvas. *)
Definition endpoints_present (c : NetworkCanvas) : Prop :=
  map_Forall (fun k _ => has_node c k.1 = true /\ has_node c k.2 = true)
             (connections c).

Definition canvas_invariant (c : NetworkCanvas) : Prop :=
  keys_ordered c /\ ids_below c /\ endpoints_present c.

(** A command keeps a property of the state, whether it returns or raises. *)
Definition preserves {St A} (P : St -> Prop) (m : M St A) : Prop :=
  forall s, P s -> P (snd (m s)).

(** The calls a client of a canvas can make, and the canvases they lead
    to from a new one. *)
Inductive call :=
| CallAddNode (node_data : option dict)
| CallAddDiscoveredNodes (discovered_nodes : list dict)
| CallUpdateNode (node_data : dict)
| CallDeleteNode (node_id : Z)
| CallDeleteConnection (connection : Z * Z)
| CallAddConnection (source_id target_id : Z) (connection_data : option dict)
| CallAutoLayout (layout : list (Z * (float * float)))
| CallClear
| CallLoadData (data : dict)
| CallAddNodeAtPosition (x y : float)
| CallUpdateConnection (connection_data : dict).

Definition perform (c : call) : M session unit :=
  match c with
  | CallAddNode nd => add_node nd ;;; ret tt
  | CallAddDiscoveredNodes l => add_discovered_nodes l
  | CallUpdateNode d => update_node d
  | CallDeleteNode id => delete_node id
  | CallDeleteConnection k => delete_connection k
  | CallAddConnection a b cd => add_connection a b cd ;;; ret tt
  | CallAutoLayout layout => auto_layout layout
  | CallClear => clear
  | CallLoadData data => load_data data
  | CallAddNodeAtPosition x y => add_node_at_position x y ;;; ret tt
  | CallUpdateConnection cd => update_connection cd
  end.

Inductive reachable : session -> Prop :=
| reachable_new (lvl : string) (g : rng) :
    reachable (mkSession (new_canvas lvl) g)
| reachable_step (s : session) (c : call) :
    reachable s -> reachable (snd (perform c s)).


(** The id a call hands back to its client: [add_node] and
    [add_node_at_position] return one, unless they raise. *)
Definition returned_id (c : call) (s : session) : option Z :=
  match c with
  | CallAddNode nd =>
      match fst (add_node nd s) with Return id => Some id | Raise _ => None end
  | CallAddNodeAtPosition x y =>
      match fst (add_node_at_position x y s) with
      | Return id => Some id
      | Raise _ => None
      end
  | _ => None
  end.


Fixpoint returned_ids (cs : list call) (s : session) : list Z :=
  match cs with
  | [] => []
  | c :: cs' =>
      match returned_id c s with
      | Some id => id :: returned_ids cs' (snd (perform c s))
      | None => returned_ids cs' (snd (perform c s))
      end
  end.


(** Every address stored on the canvas can be put in a set. *)
Definition addresses_hashable (c : NetworkCanvas) : Prop :=
  forall id node v,
    nodes c !! id = Some node -> dict_get (node_data node) "ip" = Some v ->
    hashable v = true.

(** Some node of the canvas carries the address [ip] under the key the
    scanner looks at. *)
Definition shows_address (c : NetworkCanvas) (ip : string) : Prop :=
  exists id node,
    nodes c !! id = Some node /\ dict_get (node_data node) "ip" = Some (VStr ip).

(** A connection entry whose two ends are integers. *)
Definition int_ended (cd : dict) : bool :=
  match dict_get cd "source", dict_get cd "target" with
  | Some (VInt _), Some (VInt _) => true
  | _, _ => false
  end.

(** An edit of the connection 1-2 that names its ends in the other order. *)
Definition port_edit : dict :=
  [("source", VInt 2); ("target", VInt 1);
   ("l1", VDict [("source_port", VStr "Gi0/1"); ("target_port", VStr "Gi0/2")])].

(** The name [get_isolated_nodes] reports for a node. *)
Definition reported_name (node_item : NetworkNode) (node_id : Z) : value :=
  dict_get_default (node_data node_item) "name" (VStr ("ID: " +:+ pretty node_id)).

(** What a call that works on [file_path] leaves alone: the fault plan
    and every file other than [file_path] and its backup. *)
Definition untouched_elsewhere (file_path : string) (w w' : world) : Prop :=
  fails w' = fails w
  /\ forall p, p <> file_path -> p <> file_path +:+ ".backup" ->
               disk w' !! p = disk w !! p.

(** The same, for a step that also leaves the manager's current project
    and the caller's dictionary alone. *)
Definition contained (file_path : string) (w w' : world) : Prop :=
  untouched_elsewhere file_path w w'
  /\ current_project w' = current_project w /\ data w' = data w.

(** The calls a client of the state manager can make, and the managers
    they lead to from a new one. *)
Inductive manager_call :=
| ManagerLoad (path : string) (d : dict) (now : string)
| ManagerSave (path : string) (d : dict) (now : string)
| ManagerMarkAsModified
| ManagerClearProject
| ManagerNewProject (now later : string).

Definition manager_perform (c : manager_call) (m : AppState.AppStateManager)
  : AppState.AppStateManager :=
  match c with
  | ManagerLoad path d now => AppState.load_project path d now m
  | ManagerSave path d now => AppState.save_project path d now m
  | ManagerMarkAsModified => AppState.mark_as_modified m
  | ManagerClearProject => AppState.clear_project m
  | ManagerNewProject now later => AppState.new_project now later m
  end.

Inductive manager_reachable : AppState.AppStateManager -> Prop :=
| manager_reachable_new : manager_reachable AppState.new_manager
| manager_reachable_step (m : AppState.AppStateManager) (c : manager_call) :
    manager_reachable m -> manager_reachable (manager_perform c m).

(** The list of recent files names no file twice, is no longer than the
    limit of ten, and starts with the file of the open project. *)
Definition recent_files_ok (m : AppState.AppStateManager) : Prop :=
  AppState.max_recent_files m = 10%nat
  /\ NoDup (AppState.recent_files m)
  /\ (length (AppState.recent_files m) <= 10)%nat
  /\ forall path, AppState.file_path (AppState.project_state m) = Some path ->
                  head (AppState.recent_files m) = Some path.

(** A controller at start, over given files. *)
Definition new_controller (w : world) : FileController.FileController :=
  FileController.mkController AppState.new_manager w 0.

(** The connections of a canvas after the connection between [a] and [b],
    when there is one, took the fields of [cd]. *)
Definition with_fields (c : NetworkCanvas) (a b : Z) (cd : dict)
  : gmap (Z * Z) NetworkConnection :=
  match connections c !! conn_key a b with
  | Some conn =>
      <[conn_key a b := mkConn (source_node conn) (target_node conn)
                          (dict_update (connection_data conn) cd)]> (connections c)
  | None => connections c
  end.

(** Three canvases with nodes 1 and 2 each, joined on the first two. *)
Definition two_linked_layers : ANMPApp :=
  snd ((on_l1 (add_node None) ;;; on_l1 (add_node None) ;;;
        on_l2 (add_node None) ;;; on_l2 (add_node None) ;;;
        on_l3 (add_node None) ;;; on_l3 (add_node None) ;;;
        on_l1 (add_connection 1 2 None) ;;; on_l2 (add_connection 1 2 None))
         (new_app (Rng (fun n => 17 * Z.of_nat n + 5) 0))).

(** The document [on_project_loaded] hands to a canvas. *)
Definition layer_document (ns cs : list dict) : dict :=
  [("nodes", VList (VDict <$> ns)); ("connections", VList (VDict <$> cs))].

(** The node dictionaries after canvas [c] loaded them. *)
Definition refreshed_dicts (c : NetworkCanvas) (ns : list dict) : list dict :=
  imap (fun i d => match nodes c !! (Z.of_nat i + 1) with
                   | Some node_item => node_data node_item
                   | None => d
                   end) ns.

(** Canvas [c] holds the nodes that loading the list [ns] makes: node
    [i + 1] was made from the [i]-th dictionary and two random draws, and
    there is no other node. *)
Definition loaded_from (c : NetworkCanvas) (ns : list dict) : Prop :=
  (forall (i : nat) d, ns !! i = Some d ->
     exists rx ry,
       50 <= rx <= 400 /\ 50 <= ry <= 300
       /\ nodes c !! (Z.of_nat i + 1)
          = Some (new_node_item (Z.of_nat i + 1) rx ry (Some d)))
  /\ (forall id, id < 1 \/ Z.of_nat (length ns) + 1 <= id -> nodes c !! id = None).

(** Every connection of the canvas carries one of the given entries. *)
Definition connections_among (cs : list dict) (c : NetworkCanvas) : Prop :=
  forall key conn, connections c !! key = Some conn -> connection_data conn ∈ cs.

(** A project with two nodes, joined on the first and the third layer. *)
Definition linked_project : dict :=
  [("nodes", VList (VDict <$> [[("name", VStr "core")]; [("name", VStr "edge")]]));
   ("topologies",
    VDict [("l1", VDict [("connections",
                          VList [VDict [("source", VInt 1); ("target", VInt 2)]])]);
           ("l2", VDict [("connections", VList [])]);
           ("l3", VDict [("connections",
                          VList [VDict [("source", VInt 2); ("target", VInt 1);
                                        ("type", VStr "routed")]])])])].

(** The entries [topologies] holds for a layer. *)
Definition layer_entries (t : dict) (level : string) (cs : list dict) : Prop :=
  exists g, dict_get t level = Some (VDict g)
            /\ dict_get g "connections" = Some (VList (VDict <$> cs)).

(** The application after a canvas method ran on one of its canvases. *)
Definition with_canvas (a : ANMPApp) (which : layer) (s : session) : ANMPApp :=
  match which with
  | L1 => mkApp (self s) (l2 a) (l3 a) (has_unsaved_changes a) (random s)
  | L2 => mkApp (l1 a) (self s) (l3 a) (has_unsaved_changes a) (random s)
  | L3 => mkApp (l1 a) (l2 a) (self s) (has_unsaved_changes a) (random s)
  end.

(** A scan result whose second record has lost its address. *)
Definition broken_scan : list dict :=
  [host_10_0_0_5; [("name", VStr "printer")]; [("ip", VStr "10.0.0.7")]].

(** Whether [for x in v] can start. *)
Definition iterable (v : value) : bool :=
  match v with
  | VList _ | VDict _ | VStr _ => true
  | _ => false
  end.

(** The integer a node dictionary carries as its id. *)
Definition int_id (d : dict) : option Z :=
  match dict_get d "id" with
  | Some (VInt z) => Some z
  | _ => None
  end.

(** The nodes [merge_projects] takes over from the second project: those
    whose id the first project does not use, numbered on from [max_id]. *)
Fixpoint renumbered (existing_ids : list Z) (max_id : Z) (ns : list dict) : list dict :=
  match ns with
  | [] => []
  | d :: rest =>
      match int_id d with
      | Some z =>
          if existsb (Z.eqb z) existing_ids
          then renumbered existing_ids max_id rest
          else dict_set d "id" (VInt (max_id + 1))
               :: renumbered existing_ids (max_id + 1) rest
      | None => []
      end
  end.

(** Two projects as the canvases number them: three nodes and two nodes. *)
Definition numbered_project (title : string) (names : list string) : dict :=
  [("metadata", VDict [("name", VStr title)]);
   ("nodes", VList (imap (fun i n => VDict [("id", VInt (Z.of_nat i + 1));
                                            ("name", VStr n)]) names));
   ("topologies", empty_topologies)].

(** * Properties *)

(** Closes a decidable closed goal by evaluating its decision procedure. *)
Ltac by_decision := apply (bool_decide_unpack _); vm_compute; exact I.

(** ** Dictionaries *)

Lemma dict_get_set_eq (d : dict) k v : dict_get (dict_set d k v) k = Some v.
Proof.
  induction d as [|[k' v'] d IH]; cbn.
  - now rewrite String.eqb_refl.
  - destruct (String.eqb k k') eqn:E; cbn; rewrite E; [reflexivity|exact IH].
Qed.

Lemma dict_get_set_ne (d : dict) k k' v :
  k <> k' -> dict_get (dict_set d k v) k' = dict_get d k'.
Proof.
  intros Hne. induction d as [|[k0 v0] d IH]; cbn.
  - apply String.eqb_neq in Hne. rewrite String.eqb_sym in Hne. now rewrite Hne.
  - destruct (String.eqb k k0) eqn:E; cbn.
    + apply String.eqb_eq in E. subst k0.
      replace (String.eqb k' k) with false; [reflexivity|].
      symmetry. apply String.eqb_neq. congruence.
    + now rewrite IH.
Qed.

Lemma dict_get_setdefault_ne (d : dict) k k' v :
  k <> k' -> dict_get (dict_setdefault d k v) k' = dict_get d k'.
Proof.
  intros Hne. unfold dict_setdefault.
  destruct (dict_get d k); [reflexivity|]. now apply dict_get_set_ne.
Qed.

Lemma dict_get_setdefault_Some (d : dict) k k' v v' :
  dict_get d k' = Some v' -> dict_get (dict_setdefault d k v) k' = Some v'.
Proof.
  intros H. destruct (String.eqb_spec k k') as [->|Hne].
  - unfold dict_setdefault. now rewrite H.
  - now rewrite dict_get_setdefault_ne.
Qed.

Lemma dict_get_setdefault_eq (d : dict) k v :
  dict_get (dict_setdefault d k v) k
  = Some (match dict_get d k with Some v' => v' | None => v end).
Proof.
  unfold dict_setdefault. destruct (dict_get d k) eqn:E; [exact E|].
  apply dict_get_set_eq.
Qed.

Lemma dict_get_None_notin (d : dict) k : k ∉ d.*1 -> dict_get d k = None.
Proof.
  induction d as [|[k' v'] d IH]; cbn; [reflexivity|].
  intros Hn. apply not_elem_of_cons in Hn as [Hne Hn].
  apply String.eqb_neq in Hne. rewrite Hne. now apply IH.
Qed.

(** [d.update(other)] takes [other]'s value where [other] has the key and
    keeps [d]'s value elsewhere. *)
Lemma dict_get_update (other d : dict) k :
  NoDup other.*1 ->
  dict_get (dict_update d other) k
  = match dict_get other k with Some v => Some v | None => dict_get d k end.
Proof.
  unfold dict_update. revert d.
  induction other as [|[k0 v0] other IH]; intros d Hnd; cbn; [reflexivity|].
  apply NoDup_cons in Hnd as [Hnotin Hnd].
  rewrite IH by exact Hnd.
  destruct (String.eqb_spec k k0) as [->|Hne].
  - rewrite (dict_get_None_notin other k0 Hnotin). apply dict_get_set_eq.
  - destruct (dict_get other k); [reflexivity|].
    apply dict_get_set_ne. congruence.
Qed.

Create Rewrite HintDb pydict.
#[local] Hint Rewrite dict_get_set_eq : pydict.
#[local] Hint Rewrite dict_get_set_ne using congruence : pydict.
#[local] Hint Rewrite dict_get_setdefault_ne using congruence : pydict.

(** ** Node identifiers *)

Lemma NetworkNode_init_run {St} (d : dict) (s : St) :
  NetworkNode_init d s
  = match item_error d with
    | None => (Return tt, s)
    | Some e => (Raise e, s)
    end.
Proof.
  unfold NetworkNode_init, update_appearance, update_text, item_error, bind.
  destruct (hashable _); [|reflexivity]. cbn [negb].
  destruct (within_digit_limit (dict_get_default d "status" _)); [|reflexivity].
  cbn [negb raise ret].
  destruct (dict_get_default d "l3" (VDict [])); try reflexivity.
  now destruct (_ && _).
Qed.

Lemma setPos_run {St} (x y : value) (s : St) :
  setPos x y s
  = match position_error x y with
    | None => (Return tt, s)
    | Some e => (Raise e, s)
    end.
Proof. unfold setPos, position_error. now destruct (_ && _). Qed.

(** [random.randint(a, b)] draws from [a..b]. *)
Lemma randint_value_range (a b : Z) (g : rng) :
  a <= b -> a <= randint_value a b g <= b.
Proof.
  intros Hab. unfold randint_value.
  pose proof (Z.mod_pos_bound (entropy g (cursor g)) (b - a + 1) ltac:(lia)). lia.
Qed.

(** Small integers are numbers a position accepts. *)
Lemma is_real_small (z : Z) : 0 <= z <= 1000 -> is_real (VInt z) = true.
Proof.
  intros Hz. unfold is_real. apply Z.ltb_lt.
  assert (Hbig : 1000 < 2 ^ 1024 - 2 ^ 970) by (vm_compute; reflexivity).
  lia.
Qed.

Lemma randint_value_real (a b : Z) (g : rng) :
  0 <= a -> a <= b -> b <= 1000 -> is_real (VInt (randint_value a b g)) = true.
Proof.
  intros Ha Hab Hb. apply is_real_small.
  pose proof (randint_value_range a b g Hab). lia.
Qed.

Ltac filled_key :=
  unfold filled_node_data; cbv zeta;
  repeat first [ rewrite dict_get_setdefault_eq
               | rewrite dict_get_setdefault_ne by discriminate ];
  rewrite ?dict_get_set_ne by discriminate;
  reflexivity.

Section Filled.
Variables (n rx ry : Z) (d : dict).

Lemma filled_get_type :
  dict_get (filled_node_data n rx ry (Some d)) "type"
  = Some (dict_get_default d "type" (VStr "host")).
Proof. filled_key. Qed.

Lemma filled_get_status :
  dict_get (filled_node_data n rx ry (Some d)) "status"
  = Some (dict_get_default d "status" (VStr "online")).
Proof. filled_key. Qed.

Lemma filled_get_name :
  dict_get (filled_node_data n rx ry (Some d)) "name"
  = Some (dict_get_default d "name" (VStr ("Device-" +:+ pretty n))).
Proof. filled_key. Qed.

Lemma filled_get_l3 :
  dict_get (filled_node_data n rx ry (Some d)) "l3"
  = Some (dict_get_default d "l3"
            (VDict [("ip", VStr ("192.168.1." +:+ pretty n));
                    ("mask", VStr "255.255.255.0"); ("gateway", VStr "")])).
Proof. filled_key. Qed.

Lemma filled_get_x :
  dict_get (filled_node_data n rx ry (Some d)) "x"
  = Some (dict_get_default d "x" (VInt rx)).
Proof. filled_key. Qed.

Lemma filled_get_y :
  dict_get (filled_node_data n rx ry (Some d)) "y"
  = Some (dict_get_default d "y" (VInt ry)).
Proof. filled_key. Qed.

(** Filling in the defaults changes nothing of what the item reads from
    the data it came with. *)
Lemma item_error_filled :
  item_error (filled_node_data n rx ry (Some d)) = item_error d.
Proof.
  unfold item_error. unfold dict_get_default at 1 2 3 4.
  rewrite filled_get_type, filled_get_status, filled_get_name, filled_get_l3.
  destruct (hashable _); [|reflexivity]. cbn [negb].
  destruct (within_digit_limit (dict_get_default d "status" _)); [|reflexivity].
  cbn [negb].
  unfold dict_get_default.
  destruct (dict_get d "l3") as [[]|], (dict_get d "name"); reflexivity.
Qed.

Lemma input_error_filled :
  is_real (VInt rx) = true -> is_real (VInt ry) = true ->
  input_error (Some (filled_node_data n rx ry (Some d))) = input_error (Some d).
Proof.
  intros Hx Hy. cbn [input_error]. rewrite item_error_filled.
  destruct (item_error d); [reflexivity|].
  unfold dict_get_default at 1 2. rewrite filled_get_x, filled_get_y.
  unfold position_error, dict_get_default.
  destruct (dict_get d "x") as [x|], (dict_get d "y") as [y|];
    rewrite ?Hx, ?Hy, ?andb_true_r; reflexivity.
Qed.

End Filled.

Lemma filled_node_data_None (n rx ry : Z) :
  filled_node_data n rx ry None = filled_node_data n rx ry (Some []).
Proof. reflexivity. Qed.

(** What [add_node] raises is told by the data it is given. *)
Lemma add_node_error (n rx ry : Z) (nd : option dict) :
  is_real (VInt rx) = true -> is_real (VInt ry) = true ->
  input_error (Some (filled_node_data n rx ry nd)) = input_error nd.
Proof.
  intros Hx Hy. destruct nd as [d|]; [now apply input_error_filled|].
  rewrite filled_node_data_None, input_error_filled by assumption.
  vm_compute. reflexivity.
Qed.

Lemma add_node_run (nd : option dict) (s : session) :
  add_node nd s =
  match input_error nd with
  | None =>
      (Return (next_node_id (self s)),
       mkSession
         (mkCanvas (level (self s))
            (<[next_node_id (self s) :=
                 new_node_item (next_node_id (self s))
                   (randint_value 50 400 (random s))
                   (randint_value 50 300 (advance (random s))) nd]> (nodes (self s)))
            (connections (self s))
            (next_node_id (self s) + 1))
         (advance (advance (random s))))
  | Some e => (Raise e, mkSession (self s) (advance (advance (random s))))
  end.
Proof.
  rewrite <- (add_node_error (next_node_id (self s))
                (randint_value 50 400 (random s))
                (randint_value 50 300 (advance (random s))) nd)
    by (apply randint_value_real; lia).
  destruct s as [[lvl ns cs n] g].
  unfold add_node, bind at 1, get_self. cbn [self next_node_id random].
  unfold bind at 1, randint at 1. cbn [self random].
  unfold bind at 1, randint at 1. cbn [self random].
  unfold bind at 1. rewrite NetworkNode_init_run.
  fold (filled_node_data n (randint_value 50 400 g)
          (randint_value 50 300 (advance g)) nd).
  cbn [input_error].
  destruct (item_error _); [reflexivity|].
  unfold bind at 1. cbn [fst snd]. rewrite setPos_run.
  set (fd := filled_node_data _ _ _ _).
  replace (dict_get_default fd "x" (VInt 0)) with (dict_get_default fd "x" VNone).
  2:{ unfold dict_get_default. subst fd.
      destruct nd; [|rewrite filled_node_data_None]; now rewrite filled_get_x. }
  replace (dict_get_default fd "y" (VInt 0)) with (dict_get_default fd "y" VNone).
  2:{ unfold dict_get_default. subst fd.
      destruct nd; [|rewrite filled_node_data_None]; now rewrite filled_get_y. }
  destruct (position_error _ _); reflexivity.
Qed.

(** [add_node] for data an item can be built from. *)
Lemma add_node_ok (nd : option dict) (s : session) :
  input_error nd = None ->
  add_node nd s =
  (Return (next_node_id (self s)),
   mkSession
     (mkCanvas (level (self s))
        (<[next_node_id (self s) :=
             new_node_item (next_node_id (self s))
               (randint_value 50 400 (random s))
               (randint_value 50 300 (advance (random s))) nd]> (nodes (self s)))
        (connections (self s))
        (next_node_id (self s) + 1))
     (advance (advance (random s)))).
Proof. intros H. rewrite add_node_run. now rewrite H. Qed.

(** Data the item refuses: a device type that is a list cannot be looked
    up in the icon table; the node is not stored and the counter stays,
    though both coordinates were drawn. *)
Example add_node_refuses_unhashable_type :
  (fun r => (fst r, get_node_count (self (snd r)), next_node_id (self (snd r)),
             cursor (random (snd r))))
    (add_node (Some [("type", VList [VStr "router"])]) (empty_session "l1"))
  = (Raise TypeError, 0%nat, 1, 2%nat).
Proof. vm_compute. reflexivity. Qed.

(** A coordinate that is no number is refused by [setPos], after the item
    was built and before it is stored. *)
Example add_node_refuses_text_position :
  (fun r => (fst r, get_node_count (self (snd r)), next_node_id (self (snd r))))
    (add_node (Some [("x", VStr "left"); ("y", VInt 10)]) (empty_session "l1"))
  = (Raise TypeError, 0%nat, 1).
Proof. vm_compute. reflexivity. Qed.


(** ** Running canvas methods *)

Lemma session_eta (s : session) :
  mkSession (mkCanvas (level (self s)) (nodes (self s)) (connections (self s))
                      (next_node_id (self s))) (random s) = s.
Proof. now destruct s as [[] ?]. Qed.

Lemma add_connection_run (a b : Z) (cd : option dict) (s : session) :
  add_connection a b cd s =
  (Return VNone,
   if has_node (self s) a && has_node (self s) b && negb (a =? b)%Z
      && negb (has_connection (self s) (conn_key a b))
   then mkSession
          (set_connections (self s)
             (<[conn_key a b :=
                  mkConn a b
                    (match cd with
                     | None => [("source", VInt a); ("target", VInt b);
                                ("type", VStr "ethernet")]
                     | Some d => d
                     end)]> (connections (self s))))
          (random s)
   else s).
Proof.
  unfold add_connection, bind, get_self, put_self, ret.
  destruct (has_node (self s) a), (has_node (self s) b); cbn; try reflexivity.
  destruct (a =? b)%Z; cbn; try reflexivity.
  destruct (has_connection (self s) (conn_key a b)); reflexivity.
Qed.

Lemma keys_ordered_new lvl : keys_ordered (new_canvas lvl).
Proof. apply map_Forall_empty. Qed.

Lemma add_connection_keys_ordered a b cd s :
  keys_ordered (self s) -> keys_ordered (self (snd (add_connection a b cd s))).
Proof.
  intros H. rewrite add_connection_run. cbn [snd].
  destruct (has_node (self s) a && has_node (self s) b && negb (a =? b)%Z
            && negb (has_connection (self s) (conn_key a b))) eqn:E; [|exact H].
  cbn. apply map_Forall_insert_2; [|exact H].
  repeat (apply andb_prop in E as [E ?]).
  apply negb_true_iff, Z.eqb_neq in H1. cbn. lia.
Qed.

Lemma pair_count_one (c : NetworkCanvas) (a b : Z) conn :
  keys_ordered c -> a <> b ->
  connections c !! conn_key a b = Some conn ->
  pair_count c a b = 1%nat.
Proof.
  intros Hord Hne Hk. unfold pair_count.
  replace (filter (fun kv => kv.1 = (a, b) \/ kv.1 = (b, a)) (connections c))
    with ({[conn_key a b := conn]} : gmap (Z * Z) NetworkConnection);
    [apply map_size_singleton|].
  apply map_eq. intros k. apply option_eq. intros x.
  rewrite map_lookup_filter_Some, lookup_singleton_Some. cbn. split.
  - intros [<- <-]. split; [exact Hk|]. unfold conn_key.
    destruct (Z.min_spec a b) as [[? ->]|[? ->]], (Z.max_spec a b) as [[? ->]|[? ->]];
      try lia; auto.
  - intros [Hx Hor]. pose proof (Hord k x Hx) as Hlt. cbn in Hlt.
    assert (k = conn_key a b) as ->.
    { unfold conn_key. destruct Hor as [-> | ->]; cbn in Hlt; f_equal; lia. }
    split; [reflexivity|congruence].
Qed.

(** C2, as stated, fails: [add_connection] has no return value.  With
    nodes 1 and 2 present and no connection yet, the first call returns
    [None], which is not [True] and not even a true value, and the second
    returns [None], not [False]. *)
Lemma C2_add_connection_returns_None :
  has_node (self (two_nodes "l2")) 1 = true
  /\ has_node (self (two_nodes "l2")) 2 = true
  /\ fst (add_connection 1 2 None (two_nodes "l2")) = Return VNone
  /\ truthy VNone = false
  /\ fst (add_connection 1 2 None (two_nodes "l2")) <> Return (VBool true)
  /\ fst (add_connection 1 2 None (snd (add_connection 1 2 None (two_nodes "l2"))))
     <> Return (VBool false).
Proof.
  repeat split; try (vm_compute; reflexivity); rewrite add_connection_run; discriminate.
Qed.

(** C2, amended: for distinct node ids [a], [b] present in a layer whose
    connection keys are ordered pairs, two calls of [add_connection] for
    them leave exactly one connection for the unordered pair, the second
    call changes nothing, and both calls return [None]. *)
Theorem C2_add_connection_twice (s : session) (a b : Z) (cd1 cd2 : option dict) :
  has_node (self s) a = true ->
  has_node (self s) b = true ->
  a <> b ->
  keys_ordered (self s) ->
  let s1 := snd (add_connection a b cd1 s) in
  let s2 := snd (add_connection a b cd2 s1) in
  pair_count (self s2) a b = 1%nat
  /\ s2 = s1
  /\ fst (add_connection a b cd1 s) = Return VNone
  /\ fst (add_connection a b cd2 s1) = Return VNone.
Proof.
  intros Ha Hb Hne Hord s1 s2.
  assert (Hord1 : keys_ordered (self s1)) by now apply add_connection_keys_ordered.
  assert (Hin : exists conn, connections (self s1) !! conn_key a b = Some conn).
  { subst s1. rewrite add_connection_run. cbn [snd].
    rewrite Ha, Hb. apply Z.eqb_neq in Hne. rewrite Hne. cbn [andb negb].
    unfold has_connection.
    destruct (connections (self s) !! conn_key a b) as [conn|] eqn:E; cbn [negb].
    - exists conn. exact E.
    - eexists. cbn. apply lookup_insert_eq. }
  destruct Hin as [conn Hconn].
  assert (Hs2 : s2 = s1).
  { subst s2. rewrite add_connection_run. cbn [snd].
    unfold has_connection at 1. rewrite Hconn.
    now rewrite andb_false_r. }
  split; [rewrite Hs2; now apply (pair_count_one _ _ _ conn)|].
  split; [exact Hs2|].
  split; now rewrite add_connection_run.
Qed.

(** The theorem at nodes 1 and 2 of a two-node canvas. *)
Lemma C2_add_connection_twice_witness :
  pair_count
    (self (snd (add_connection 1 2 None
                  (snd (add_connection 1 2 None (two_nodes "l2")))))) 1 2 = 1%nat.
Proof.
  refine (proj1 (C2_add_connection_twice (two_nodes "l2") 1 2 None None _ _ _ _)).
  - vm_compute. reflexivity.
  - vm_compute. reflexivity.
  - lia.
  - by_decision.
Defined.

(** ** Deleting connections and nodes *)

Lemma delete_connection_run (k : Z * Z) (s : session) :
  delete_connection k s =
  (Return tt,
   mkSession (set_connections (self s) (delete k (connections (self s)))) (random s)).
Proof.
  unfold delete_connection, bind, get_self, put_self, ret, has_connection.
  destruct (connections (self s) !! k) eqn:E; [reflexivity|].
  rewrite delete_id by exact E. unfold set_connections. now rewrite session_eta.
Qed.

Lemma for_each_delete_connection_run (ks : list (Z * Z)) (s : session) :
  for_each ks delete_connection s =
  (Return tt,
   mkSession
     (set_connections (self s) (foldl (fun m k => delete k m) (connections (self s)) ks))
     (random s)).
Proof.
  revert s. induction ks as [|k ks IH]; intros s; cbn [for_each foldl].
  - unfold ret, set_connections. now rewrite session_eta.
  - unfold bind. rewrite delete_connection_run, IH. reflexivity.
Qed.

Lemma lookup_foldl_delete {V} (ks : list (Z * Z)) (m : gmap (Z * Z) V) (k : Z * Z) :
  foldl (fun m k => delete k m) m ks !! k = if decide (k ∈ ks) then None else m !! k.
Proof.
  revert m. induction ks as [|k0 ks IH]; intros m; cbn [foldl].
  - rewrite decide_False; [reflexivity|]. apply not_elem_of_nil.
  - rewrite IH. destruct (decide (k ∈ ks)) as [Hin|Hnin].
    + rewrite decide_True; [reflexivity|]. now right.
    + destruct (decide (k = k0)) as [->|Hne].
      * rewrite decide_True by left. apply lookup_delete_eq.
      * rewrite decide_False by (rewrite elem_of_cons; tauto).
        apply lookup_delete_ne. congruence.
Qed.

(** What the cascade of [delete_node] leaves in [self.connections]. *)
Lemma delete_node_connections_run (x : Z) (s : session) :
  exists cs,
    delete_node_connections x s
    = (Return tt, mkSession (set_connections (self s) cs) (random s))
    /\ (forall k, k.1 = x \/ k.2 = x -> cs !! k = None)
    /\ (forall k, k.1 <> x -> k.2 <> x -> cs !! k = connections (self s) !! k).
Proof.
  eexists. unfold delete_node_connections, bind at 1, get_self.
  rewrite for_each_delete_connection_run. split; [reflexivity|].
  split; intros k Hk; [|intros Hk2]; rewrite lookup_foldl_delete.
  - destruct (decide _) as [|Hnin]; [reflexivity|].
    destruct (connections (self s) !! k) as [conn|] eqn:E; [|reflexivity].
    exfalso. apply Hnin. apply list_elem_of_In, filter_In. split.
    + apply list_elem_of_In. unfold connection_keys.
      apply list_elem_of_fmap. exists (k, conn). split; [reflexivity|].
      now apply elem_of_map_to_list.
    + apply orb_true_iff. rewrite !Z.eqb_eq. exact Hk.
  - destruct (decide _) as [Hin|]; [|reflexivity].
    exfalso. apply list_elem_of_In, filter_In in Hin as [_ Hin].
    apply orb_true_iff in Hin. rewrite !Z.eqb_eq in Hin. tauto.
Qed.

(** C3: [delete_node x] on a canvas that has node [x] first reaches a state
    where [x] is still a node and no connection has [x] at either end, and
    only then removes [x]; afterwards no connection refers to [x], every
    other node is as before, and so is every connection between other
    nodes. *)
Theorem C3_delete_node_cascade (s : session) (x : Z) :
  has_node (self s) x = true ->
  exists s1 : session,
    delete_node_connections x s = (Return tt, s1)
    /\ nodes (self s1) = nodes (self s)
    /\ (forall k, k.1 = x \/ k.2 = x -> connections (self s1) !! k = None)
    /\ delete_node x s
       = (Return tt,
          mkSession (set_nodes (self s1) (delete x (nodes (self s1)))) (random s1))
    /\ (forall k, k.1 = x \/ k.2 = x ->
          connections (self (snd (delete_node x s))) !! k = None)
    /\ has_node (self (snd (delete_node x s))) x = false
    /\ (forall y, y <> x ->
          nodes (self (snd (delete_node x s))) !! y = nodes (self s) !! y)
    /\ (forall k, k.1 <> x -> k.2 <> x ->
          connections (self (snd (delete_node x s))) !! k = connections (self s) !! k).
Proof.
  intros Hx.
  destruct (delete_node_connections_run x s) as (cs & Hrun & Hgone & Hkept).
  eexists. split; [exact Hrun|].
  assert (Hdel : delete_node x s
                 = (Return tt,
                    mkSession (set_nodes (set_connections (self s) cs)
                                 (delete x (nodes (self s)))) (random s))).
  { unfold delete_node, bind at 1, get_self. rewrite Hx.
    unfold bind at 1. rewrite Hrun. reflexivity. }
  rewrite Hdel. cbn.
  repeat split; try assumption; try reflexivity.
  - unfold has_node. cbn. now rewrite lookup_delete_eq.
  - intros y Hy. apply lookup_delete_ne. congruence.
Qed.

(** The theorem at node 1 of a two-node canvas with the connection 1-2. *)
Lemma C3_delete_node_cascade_witness :
  has_node
    (self (snd (delete_node 1 (snd (add_connection 1 2 None (two_nodes "l1")))))) 1
  = false.
Proof.
  destruct (C3_delete_node_cascade (snd (add_connection 1 2 None (two_nodes "l1"))) 1)
    as (s1 & _ & _ & _ & _ & _ & H & _).
  - vm_compute. reflexivity.
  - exact H.
Defined.

(** ** Updating a node *)

Lemma refresh_run {St A} (d : dict) (k : M St A) (s : St) :
  (update_appearance d ;;; update_text d ;;; k) s
  = match item_error d with
    | None => k s
    | Some e => (Raise e, s)
    end.
Proof.
  unfold update_appearance, update_text, item_error, bind.
  destruct (hashable _); [|reflexivity]. cbn [negb].
  destruct (within_digit_limit (dict_get_default d "status" _)); [|reflexivity].
  cbn [negb raise ret].
  destruct (dict_get_default d "l3" (VDict [])); try reflexivity.
  now destruct (_ && _).
Qed.

Lemma update_node_run (s : session) (new_data : dict) (id : Z) :
  dict_get new_data "id" = Some (VInt id) ->
  update_node new_data s =
  match nodes (self s) !! id with
  | None => (Return tt, s)
  | Some node_item =>
      let d := dict_update (node_data node_item) new_data in
      let p := (dict_get_default new_data "x" VNone,
                dict_get_default new_data "y" VNone) in
      let kept :=
        mkSession
          (set_nodes (self s) (<[id := mkNode d (pos node_item)]> (nodes (self s))))
          (random s) in
      match item_error d with
      | Some e => (Raise e, kept)
      | None =>
          if dict_has new_data "x" && dict_has new_data "y"
          then match position_error p.1 p.2 with
               | Some e => (Raise e, kept)
               | None =>
                   (Return tt,
                    mkSession
                      (set_nodes (self s) (<[id := mkNode d p]> (nodes (self s))))
                      (random s))
               end
          else (Return tt, kept)
      end
  end.
Proof.
  intros Hid. unfold update_node. rewrite Hid. cbn [hash_key].
  unfold bind at 1, get_self. cbv beta iota.
  destruct (nodes (self s) !! id) as [node_item|]; [|reflexivity].
  cbv zeta. unfold bind at 1, put_self at 1. cbn [self random].
  rewrite refresh_run.
  destruct (item_error _); [reflexivity|].
  destruct (dict_has new_data "x" && dict_has new_data "y"); [|reflexivity].
  unfold bind at 1. rewrite setPos_run. cbn [fst snd].
  destruct (position_error _ _); [reflexivity|].
  unfold bind, get_self, put_self, set_nodes.
  cbn [self random level nodes connections next_node_id].
  now rewrite insert_insert_eq.
Qed.

(** C7, as stated, fails: for an id the canvas does not have,
    [update_node] returns normally and changes nothing; no error is
    raised. *)
Lemma C7_update_absent_node_is_silent :
  nodes (self (empty_session "l1")) !! 7 = None
  /\ update_node [("id", VInt 7); ("name", VStr "core")] (empty_session "l1")
     = (Return tt, empty_session "l1")
  /\ forall e, fst (update_node [("id", VInt 7); ("name", VStr "core")]
                                (empty_session "l1")) <> Raise e.
Proof.
  split; [reflexivity|]. split; [reflexivity|]. intros e. discriminate.
Qed.

(** C7, amended: given node data whose ["id"] is the integer [id],
    [update_node] is a silent no-op when the canvas has no such node.
    When it has one, the data is merged into the node whatever happens
    next: every supplied field replaces the stored one, a supplied group
    such as ["l3"] becomes the stored group as a whole, and the fields not
    supplied are kept.  The node is then refreshed: when the merged data
    is refused, the call raises that error with the position as it was;
    otherwise the call returns, the node at the supplied position when
    both coordinates are supplied and are numbers, at its old position
    when they are not both supplied, and it raises with the position as it
    was when they are supplied and no numbers. *)
Theorem C7_update_node_merges (s : session) (new_data : dict) (id : Z) :
  dict_get new_data "id" = Some (VInt id) ->
  NoDup new_data.*1 ->
  match nodes (self s) !! id with
  | None => update_node new_data s = (Return tt, s)
  | Some node_item =>
      exists node_item',
        snd (update_node new_data s)
        = mkSession (set_nodes (self s) (<[id := node_item']> (nodes (self s))))
                    (random s)
        /\ (forall k v, dict_get new_data k = Some v ->
              dict_get (node_data node_item') k = Some v)
        /\ (forall group, dict_get new_data "l3" = Some group ->
              dict_get (node_data node_item') "l3" = Some group)
        /\ (forall k, dict_get new_data k = None ->
              dict_get (node_data node_item') k = dict_get (node_data node_item) k)
        /\ match item_error (node_data node_item') with
           | Some e =>
               fst (update_node new_data s) = Raise e
               /\ pos node_item' = pos node_item
           | None =>
               match dict_get new_data "x", dict_get new_data "y" with
               | Some x, Some y =>
                   if is_real x && is_real y
                   then fst (update_node new_data s) = Return tt
                        /\ pos node_item' = (x, y)
                   else (exists e, fst (update_node new_data s) = Raise e)
                        /\ pos node_item' = pos node_item
               | _, _ =>
                   fst (update_node new_data s) = Return tt
                   /\ pos node_item' = pos node_item
               end
           end
  end.
Proof.
  intros Hid Hnd. rewrite (update_node_run s new_data id Hid).
  destruct (nodes (self s) !! id) as [node_item|]; [|reflexivity].
  cbv zeta.
  assert (Hmerge : forall p,
    (forall k v, dict_get new_data k = Some v ->
       dict_get (node_data (mkNode (dict_update (node_data node_item) new_data) p)) k
       = Some v)
    /\ (forall group, dict_get new_data "l3" = Some group ->
       dict_get (node_data (mkNode (dict_update (node_data node_item) new_data) p)) "l3"
       = Some group)
    /\ (forall k, dict_get new_data k = None ->
       dict_get (node_data (mkNode (dict_update (node_data node_item) new_data) p)) k
       = dict_get (node_data node_item) k)).
  { intros p. cbn [node_data].
    repeat split; intros *; intros H; rewrite dict_get_update by exact Hnd;
      now rewrite H. }
  unfold dict_has, dict_get_default, position_error. cbn [fst snd].
  destruct (item_error (dict_update (node_data node_item) new_data)) as [e|] eqn:Herr.
  { eexists. split; [reflexivity|].
    destruct (Hmerge (pos node_item)) as (H1 & H2 & H3).
    repeat split; try assumption. cbn [node_data pos]. rewrite Herr. now split. }
  destruct (dict_get new_data "x") as [x|], (dict_get new_data "y") as [y|];
    cbn [andb].
  1: destruct (is_real x && is_real y) eqn:Hreal.
  all: eexists; (split; [reflexivity|]).
  1: destruct (Hmerge (x, y)) as (H1 & H2 & H3).
  2-5: destruct (Hmerge (pos node_item)) as (H1 & H2 & H3).
  all: repeat split; try assumption; cbn [node_data pos fst]; rewrite Herr.
  2: split; [eexists; reflexivity | reflexivity].
  all: now split.
Qed.

(** The theorem at the edit of node 1 of a two-node canvas. *)
Lemma C7_update_node_merges_witness :
  match nodes (self (two_nodes "l3")) !! 1 with
  | None => update_node l3_edit (two_nodes "l3") = (Return tt, two_nodes "l3")
  | Some node_item =>
      exists node_item',
        snd (update_node l3_edit (two_nodes "l3"))
        = mkSession (set_nodes (self (two_nodes "l3"))
                       (<[1 := node_item']> (nodes (self (two_nodes "l3")))))
                    (random (two_nodes "l3"))
        /\ (forall k v, dict_get l3_edit k = Some v ->
              dict_get (node_data node_item') k = Some v)
        /\ (forall group, dict_get l3_edit "l3" = Some group ->
              dict_get (node_data node_item') "l3" = Some group)
        /\ (forall k, dict_get l3_edit k = None ->
              dict_get (node_data node_item') k = dict_get (node_data node_item) k)
        /\ match item_error (node_data node_item') with
           | Some e =>
               fst (update_node l3_edit (two_nodes "l3")) = Raise e
               /\ pos node_item' = pos node_item
           | None =>
               match dict_get l3_edit "x", dict_get l3_edit "y" with
               | Some x, Some y =>
                   if is_real x && is_real y
                   then fst (update_node l3_edit (two_nodes "l3")) = Return tt
                        /\ pos node_item' = (x, y)
                   else (exists e, fst (update_node l3_edit (two_nodes "l3")) = Raise e)
                        /\ pos node_item' = pos node_item
               | _, _ =>
                   fst (update_node l3_edit (two_nodes "l3")) = Return tt
                   /\ pos node_item' = pos node_item
               end
           end
  end.
Proof.
  apply (C7_update_node_merges (two_nodes "l3") l3_edit 1).
  - reflexivity.
  - by_decision.
Defined.

(** An edit that puts [None] in place of the [l3] group is written into
    the node before the refresh of its label raises: the call fails and
    the node keeps the broken group, at its old position. *)
Example update_node_keeps_refused_data :
  let r := update_node [("id", VInt 1); ("l3", VNone); ("x", VInt 5); ("y", VInt 5)]
                       (two_nodes "l3") in
  fst r = Raise AttributeError
  /\ (node_data <$> nodes (self (snd r)) !! 1) ≫= (fun d => dict_get d "l3")
     = Some VNone
  /\ pos <$> nodes (self (snd r)) !! 1 = pos <$> nodes (self (two_nodes "l3")) !! 1.
Proof. vm_compute. repeat split. Qed.

(** The stored [l3] group after the edit is the supplied one: the mask and
    gateway of the old group are gone. *)
Example update_node_replaces_l3 :
  (fun s => (node_data <$> nodes (self s) !! 1) ≫= (fun d => dict_get d "l3"))
    (snd (update_node l3_edit (two_nodes "l3")))
  = Some (VDict [("ip", VStr "10.0.0.9")]).
Proof. vm_compute. reflexivity. Qed.

(** ** Automatic layout *)

Lemma foldl_place_empty layout : foldl place ∅ layout = ∅.
Proof. induction layout as [|e layout IH]; [reflexivity|exact IH]. Qed.

Lemma auto_layout_run (layout : list (Z * (float * float))) (s : session) :
  auto_layout layout s =
  (Return tt,
   mkSession (set_nodes (self s) (foldl place (nodes (self s)) layout)) (random s)).
Proof.
  unfold auto_layout, bind at 1, get_self.
  destruct (decide (nodes (self s) = ∅)) as [He|_].
  - rewrite He, foldl_place_empty, <- He. unfold ret, set_nodes.
    now rewrite session_eta.
  - revert s. induction layout as [|[id [nx ny]] layout IH]; intros s;
      cbn [for_each foldl].
    + unfold ret, set_nodes. now rewrite session_eta.
    + unfold bind at 1, bind at 1, get_self, place. cbn [fst snd].
      destruct (nodes (self s) !! id) as [node_item|] eqn:E.
      * unfold put_self. rewrite IH. reflexivity.
      * unfold ret. apply IH.
Qed.

Lemma layout_get_notin layout id : id ∉ layout.*1 -> layout_get layout id = None.
Proof.
  induction layout as [|[i p] layout IH]; cbn; [reflexivity|].
  intros Hn. apply not_elem_of_cons in Hn as [Hne Hn].
  apply Z.eqb_neq in Hne. rewrite Hne. now apply IH.
Qed.

Lemma lookup_foldl_place layout (ns : gmap Z NetworkNode) (id : Z) :
  NoDup layout.*1 ->
  foldl place ns layout !! id
  = (fun node_item =>
       match layout_get layout id with
       | Some p => moved node_item p
       | None => node_item
       end) <$> ns !! id.
Proof.
  revert ns. induction layout as [|[i p] layout IH]; intros ns Hnd; cbn [foldl].
  - cbn. now destruct (ns !! id).
  - cbn in Hnd. apply NoDup_cons in Hnd as [Hnotin Hnd].
    rewrite IH by exact Hnd. cbn [layout_get]. unfold place. cbn [fst snd].
    destruct (Z.eqb_spec id i) as [->|Hne].
    + rewrite (layout_get_notin layout i Hnotin).
      destruct (ns !! i) as [node_item|] eqn:E.
      * now rewrite lookup_insert_eq.
      * now rewrite E.
    + destruct (ns !! i) as [node_item|] eqn:E; [|reflexivity].
      rewrite lookup_insert_ne by congruence. reflexivity.
Qed.

(** C9: [auto_layout] returns normally and leaves the connections, the id
    counter and the set of node ids as they were; a node keeps every
    attribute other than ["x"] and ["y"]; a node the layout places at
    [(nx, ny)] gets x = nx * 300 + 400 and y = ny * 300 + 300, as stored
    attributes and as item position; a node the layout does not mention is
    untouched. *)
Theorem C9_auto_layout_moves_only (layout : list (Z * (float * float))) (s : session) :
  NoDup layout.*1 ->
  fst (auto_layout layout s) = Return tt
  /\ connections (self (snd (auto_layout layout s))) = connections (self s)
  /\ next_node_id (self (snd (auto_layout layout s))) = next_node_id (self s)
  /\ forall id,
       match nodes (self s) !! id with
       | None => nodes (self (snd (auto_layout layout s))) !! id = None
       | Some node_item =>
           exists node_item',
             nodes (self (snd (auto_layout layout s))) !! id = Some node_item'
             /\ (forall k, k <> "x" -> k <> "y" ->
                   dict_get (node_data node_item') k = dict_get (node_data node_item) k)
             /\ match layout_get layout id with
                | Some (nx, ny) =>
                    dict_get (node_data node_item') "x" = Some (VFloat (nx * 300 + 400))
                    /\ dict_get (node_data node_item') "y" = Some (VFloat (ny * 300 + 300))
                    /\ pos node_item' = (VFloat (nx * 300 + 400), VFloat (ny * 300 + 300))
                | None => node_item' = node_item
                end
       end.
Proof.
  intros Hnd. rewrite auto_layout_run. cbn [fst snd self set_nodes connections
    next_node_id nodes].
  repeat split. intros id. rewrite lookup_foldl_place by exact Hnd.
  destruct (nodes (self s) !! id) as [node_item|]; [|reflexivity].
  eexists. split; [reflexivity|].
  destruct (layout_get layout id) as [[nx ny]|].
  - cbn [moved node_data pos fst snd]. split.
    + intros k Hx Hy. now autorewrite with pydict.
    + split; [|split; [|reflexivity]]; now autorewrite with pydict.
  - split; [reflexivity|reflexivity].
Qed.

(** The theorem at a layout of the two-node canvas with the connection 1-2. *)
Lemma C9_auto_layout_moves_only_witness :
  connections (self (snd (auto_layout sample_layout
                             (snd (add_connection 1 2 None (two_nodes "l1"))))))
  = connections (self (snd (add_connection 1 2 None (two_nodes "l1")))).
Proof.
  refine (proj1 (proj2 (C9_auto_layout_moves_only sample_layout
                          (snd (add_connection 1 2 None (two_nodes "l1"))) _))).
  by_decision.
Defined.

Example auto_layout_sample :
  (fun s => pos <$> nodes (self s) !! 1)
    (snd (auto_layout sample_layout (two_nodes "l1")))
  = Some (VFloat 550, VFloat 0).
Proof. vm_compute. reflexivity. Qed.

(** ** Loading a document into a canvas *)

Lemma filled_node_data_id (n rx ry : Z) (nd : option dict) :
  dict_get (filled_node_data n rx ry nd) "id" = Some (VInt n).
Proof.
  unfold filled_node_data. repeat apply dict_get_setdefault_Some.
  destruct nd; [apply dict_get_set_eq|reflexivity].
Qed.

Lemma filled_node_data_keeps (n rx ry : Z) (d : dict) k v :
  k <> "id" -> dict_get d k = Some v ->
  dict_get (filled_node_data n rx ry (Some d)) k = Some v.
Proof.
  intros Hk Hv. unfold filled_node_data. repeat apply dict_get_setdefault_Some.
  rewrite dict_get_set_ne by congruence. exact Hv.
Qed.

Lemma displayable_ok (d : dict) :
  displayable d = true -> input_error (Some d) = None.
Proof. unfold displayable. now destruct (input_error (Some d)). Qed.

Lemma load_node_run (d : dict) (s : session) :
  displayable d = true ->
  load_node (VDict d) s = (Return tt, snd (add_node (Some d) s)).
Proof.
  intros Hd. cbn [load_node]. unfold bind.
  now rewrite (add_node_ok _ _ (displayable_ok d Hd)).
Qed.

(** A node dictionary the item refuses stops the loop where it stands. *)
Lemma load_node_refused (d : dict) (s : session) (e : exn) :
  input_error (Some d) = Some e ->
  load_node (VDict d) s
  = (Raise e, mkSession (self s) (advance (advance (random s)))).
Proof.
  intros Hd. cbn [load_node]. unfold bind. rewrite add_node_run. now rewrite Hd.
Qed.

(** The first loop of [load_data]: each dictionary of the list gets the
    next counter value, in list order. *)
Lemma load_nodes_spec (ns : list dict) (s : session) :
  forallb displayable ns = true ->
  let r := for_each (VDict <$> ns) load_node s in
  fst r = Return tt
  /\ next_node_id (self (snd r)) = next_node_id (self s) + Z.of_nat (length ns)
  /\ connections (self (snd r)) = connections (self s)
  /\ (forall id, id < next_node_id (self s)
                 \/ next_node_id (self s) + Z.of_nat (length ns) <= id ->
        nodes (self (snd r)) !! id = nodes (self s) !! id)
  /\ (forall (i : nat) d, ns !! i = Some d ->
        exists node_item,
          nodes (self (snd r)) !! (next_node_id (self s) + Z.of_nat i) = Some node_item
          /\ dict_get (node_data node_item) "id"
             = Some (VInt (next_node_id (self s) + Z.of_nat i))
          /\ forall k v, k <> "id" -> dict_get d k = Some v ->
               dict_get (node_data node_item) k = Some v).
Proof.
  revert s. induction ns as [|d ns IH]; intros s Hns.
  - cbn. repeat split; try lia. intros i d H. discriminate.
  - cbn [forallb] in Hns. apply andb_true_iff in Hns as [Hd Hns].
    cbn [fmap list_fmap for_each length]. unfold bind.
    rewrite load_node_run by exact Hd. cbn [fst snd].
    set (s1 := snd (add_node (Some d) s)).
    assert (Hs1 : next_node_id (self s1) = next_node_id (self s) + 1
                  /\ connections (self s1) = connections (self s)
                  /\ nodes (self s1)
                     = <[next_node_id (self s) :=
                           new_node_item (next_node_id (self s))
                             (randint_value 50 400 (random s))
                             (randint_value 50 300 (advance (random s))) (Some d)]>
                         (nodes (self s))).
    { subst s1. rewrite (add_node_ok _ _ (displayable_ok d Hd)). repeat split. }
    destruct Hs1 as (Hs1n & Hs1c & Hs1m).
    destruct (IH s1 Hns) as (Hr & Hn & Hc & Hout & Hin).
    rewrite Hs1n in Hn, Hout, Hin. rewrite Hs1c in Hc.
    cbv zeta. split; [exact Hr|]. split; [lia|]. split; [exact Hc|]. split.
    + intros id Hid. rewrite Hout by lia. rewrite Hs1m. apply lookup_insert_ne. lia.
    + intros [|i] d' Hd'.
      * injection Hd' as <-. eexists. rewrite Z.add_0_r.
        rewrite Hout by lia. rewrite Hs1m, lookup_insert_eq. split; [reflexivity|].
        cbn [new_node_item node_data]. split.
        -- apply filled_node_data_id.
        -- intros k v. apply filled_node_data_keeps.
      * destruct (Hin i d' Hd') as (node_item & H1 & H2 & H3).
        exists node_item.
        replace (next_node_id (self s) + Z.of_nat (S i))
          with (next_node_id (self s) + 1 + Z.of_nat i) by lia.
        auto.
Qed.

Lemma add_connection_obj_frame (a b : value) (cd : dict) (s : session) :
  nodes (self (snd (add_connection_obj a b cd s))) = nodes (self s)
  /\ next_node_id (self (snd (add_connection_obj a b cd s))) = next_node_id (self s).
Proof.
  unfold add_connection_obj.
  destruct (hash_key a) as [|x|]; try (split; reflexivity).
  unfold bind, get_self. destruct (has_node (self s) x); cbn [negb];
    try (split; reflexivity).
  destruct (hash_key b) as [|y|]; try (split; reflexivity).
  rewrite add_connection_run. cbn [snd].
  destruct (_ && _); split; reflexivity.
Qed.

Lemma load_connection_frame (v : value) (s : session) :
  nodes (self (snd (load_connection v s))) = nodes (self s)
  /\ next_node_id (self (snd (load_connection v s))) = next_node_id (self s).
Proof.
  destruct v; try (split; reflexivity). cbn [load_connection].
  destruct (_ && _); try (split; reflexivity).
  unfold bind.
  pose proof (add_connection_obj_frame (dict_get_default d "source" VNone)
                (dict_get_default d "target" VNone) d s) as H.
  destruct (add_connection_obj _ _ d s) as [[r|e] s']; exact H.
Qed.

Lemma load_connections_frame (vs : list value) (s : session) :
  nodes (self (snd (for_each vs load_connection s))) = nodes (self s)
  /\ next_node_id (self (snd (for_each vs load_connection s))) = next_node_id (self s).
Proof.
  revert s. induction vs as [|v vs IH]; intros s; [split; reflexivity|].
  cbn [for_each]. unfold bind.
  pose proof (load_connection_frame v s) as H.
  destruct (load_connection v s) as [[r|e] s']; cbn [snd] in *; [|exact H].
  destruct (IH s') as [H1 H2]. destruct H as [H3 H4]. split; congruence.
Qed.



Lemma for_each_returns {St A} (xs : list A) (body : A -> M St unit) :
  (forall x s, x ∈ xs -> fst (body x s) = Return tt) ->
  forall s, fst (for_each xs body s) = Return tt.
Proof.
  induction xs as [|x xs IH]; intros Hbody s; [reflexivity|].
  cbn [for_each]. unfold bind.
  pose proof (Hbody x s (list_elem_of_here x xs)) as Hx.
  destruct (body x s) as [[[]|e] s']; [|discriminate].
  apply IH. intros y s0 Hy. apply Hbody. now right.
Qed.

(** An entry with integer ends raises nothing, whether it is added or not. *)
Lemma load_connection_int_ended (cd : dict) (s : session) :
  int_ended cd = true -> fst (load_connection (VDict cd) s) = Return tt.
Proof.
  unfold int_ended. cbn [load_connection]. unfold dict_get_default.
  destruct (dict_get cd "source") as [[| | a | | | |]|]; try discriminate.
  destruct (dict_get cd "target") as [[| | b | | | |]|]; try discriminate.
  intros _. destruct (_ && _); [|reflexivity].
  unfold add_connection_obj. cbn [hash_key]. unfold bind, get_self.
  destruct (has_node (self s) a); cbn [negb]; [|reflexivity].
  now rewrite add_connection_run.
Qed.

Lemma load_data_run (data : dict) (ns cs : list dict) (s : session) :
  dict_get data "nodes" = Some (VList (VDict <$> ns)) ->
  dict_get data "connections" = Some (VList (VDict <$> cs)) ->
  forallb displayable ns = true ->
  load_data data s
  = for_each (VDict <$> cs) load_connection
      (snd (for_each (VDict <$> ns) load_node (snd (clear s)))).
Proof.
  intros Hns Hcs Hok. unfold load_data, dict_get_default. rewrite Hns, Hcs.
  cbn [py_iter]. unfold bind at 1.
  destruct (clear s) as [[[]|e] s0] eqn:Hclear; [|discriminate].
  unfold bind at 1, ret at 1. unfold bind at 1. cbn [snd].
  destruct (load_nodes_spec ns s0 Hok) as (Hr & _).
  destruct (for_each (VDict <$> ns) load_node s0) as [[[]|e] s1]; [|discriminate].
  reflexivity.
Qed.




(** The document stores ids 1 and 3 and a connection between them; after
    loading, the nodes are 1 and 2 and the connection is gone. *)
Example load_data_gapped_document :
  (fun r => (fst r, has_node (self (snd r)) 1, has_node (self (snd r)) 2,
             has_node (self (snd r)) 3, get_connection_count (self (snd r))))
    (load_data gapped_document (empty_session "l1"))
  = (Return tt, true, true, false, 0%nat).
Proof. vm_compute. reflexivity. Qed.

(** ** Merging discovered hosts *)

Lemma add_node_count (nd : option dict) (s : session) :
  input_error nd = None ->
  ids_below (self s) ->
  get_node_count (self (snd (add_node nd s))) = S (get_node_count (self s))
  /\ ids_below (self (snd (add_node nd s))).
Proof.
  intros Hok Hb. rewrite (add_node_ok _ _ Hok).
  cbn [snd self]. unfold get_node_count, ids_below.
  cbn [nodes next_node_id].
  assert (Hfresh : nodes (self s) !! next_node_id (self s) = None).
  { destruct (nodes (self s) !! next_node_id (self s)) eqn:E; [|reflexivity].
    apply Hb in E. cbn in E. lia. }
  split.
  - now apply map_size_insert_None.
  - apply map_Forall_insert_2; [lia|].
    intros id x Hx. apply Hb in Hx. cbn in *. lia.
Qed.

(** The data built from a record a node can be made of is accepted. *)
Lemma discovered_node_data_ok (node_info : dict) (ip : string) (x y : Z) :
  addable_record node_info = true ->
  is_real (VInt x) = true -> is_real (VInt y) = true ->
  input_error (Some (discovered_node_data node_info ip x y)) = None.
Proof.
  unfold addable_record. intros H Hx Hy.
  apply andb_true_iff in H as [H Hname]. apply andb_true_iff in H as [H Hstatus].
  apply andb_true_iff in H as [_ Htype].
  cbn [input_error]. unfold item_error.
  change (dict_get_default (discovered_node_data node_info ip x y) "type" (VStr "host"))
    with (dict_get_default node_info "type" (VStr "host")).
  change (dict_get_default (discovered_node_data node_info ip x y) "status"
            (VStr "online"))
    with (dict_get_default node_info "status" (VStr "online")).
  change (dict_get_default (discovered_node_data node_info ip x y) "l3" (VDict []))
    with (VDict []).
  change (dict_get_default (discovered_node_data node_info ip x y) "name"
            (VStr "Unknown"))
    with (dict_get_default node_info "name"
            (VStr ("Host-" +:+ last_item (split_dot ip "")))).
  change (dict_get_default (discovered_node_data node_info ip x y) "x" (VInt 0))
    with (VInt x).
  change (dict_get_default (discovered_node_data node_info ip x y) "y" (VInt 0))
    with (VInt y).
  rewrite Htype, Hstatus. cbn [negb].
  replace (within_digit_limit
             (dict_get_default node_info "name"
                (VStr ("Host-" +:+ last_item (split_dot ip "")))))
    with true.
  2:{ revert Hname. unfold dict_get_default.
      now destruct (dict_get node_info "name"). }
  cbn [andb dict_get_default dict_get within_digit_limit].
  unfold position_error. now rewrite Hx, Hy.
Qed.

Lemma addable_record_address (node_info : dict) :
  addable_record node_info = true -> has_address node_info = true.
Proof.
  unfold addable_record. intros H.
  now repeat (apply andb_true_iff in H as [H _]).
Qed.

(** One record: the address goes under the top-level key ["ip"], and the
    data handed to [add_node] has no ["l3"] group. *)
Lemma add_discovered_node_run (node_info : dict) (ip : string) (s : session) :
  addable_record node_info = true ->
  dict_get node_info "ip" = Some (VStr ip) ->
  add_discovered_node node_info s
  = (Return tt,
     snd (add_node
            (Some (discovered_node_data node_info ip
                     (randint_value 50 600 (random s))
                     (randint_value 50 400 (advance (random s)))))
            (mkSession (self s) (advance (advance (random s)))))).
Proof.
  intros Hok Hip. unfold add_discovered_node. rewrite Hip.
  unfold bind, randint, ret. cbn [self random].
  now rewrite add_node_ok
    by (apply discovered_node_data_ok;
        [exact Hok | apply randint_value_real; lia | apply randint_value_real; lia]).
Qed.

(** [add_discovered_nodes] adds one node for every record. *)
Lemma add_discovered_nodes_count (discovered : list dict) (s : session) :
  forallb addable_record discovered = true ->
  ids_below (self s) ->
  fst (add_discovered_nodes discovered s) = Return tt
  /\ get_node_count (self (snd (add_discovered_nodes discovered s)))
     = (get_node_count (self s) + length discovered)%nat
  /\ ids_below (self (snd (add_discovered_nodes discovered s))).
Proof.
  unfold add_discovered_nodes.
  revert s. induction discovered as [|node_info discovered IH]; intros s Hall Hb.
  - cbn. repeat split; [lia|exact Hb].
  - cbn [forallb] in Hall. apply andb_prop in Hall as [Hinfo Hall].
    pose proof (addable_record_address _ Hinfo) as Haddr.
    unfold has_address in Haddr.
    destruct (dict_get node_info "ip") as [[| | | |ip| |]|] eqn:Hip; try discriminate.
    cbn [for_each length]. unfold bind.
    rewrite (add_discovered_node_run node_info ip s Hinfo Hip).
    match goal with |- context [add_node ?nd ?s1] =>
      destruct (add_node_count nd s1) as [Hc Hb1];
        [apply discovered_node_data_ok;
           [exact Hinfo | apply randint_value_real; lia
            | apply randint_value_real; lia]
        | exact Hb |]
    end.
    destruct (IH _ Hall Hb1) as (Hr & Hn & Hb2).
    split; [exact Hr|]. split; [|exact Hb2].
    rewrite Hn, Hc. cbn [self]. lia.
Qed.

(** The node made for a record with address [ip] has [ip] under the
    top-level key ["ip"]; its ["l3"] group is the default one, whose address
    is built from the node id. *)
Lemma add_discovered_node_l3 (node_info : dict) (ip : string) (s : session) :
  addable_record node_info = true ->
  dict_get node_info "ip" = Some (VStr ip) ->
  l3_ip (self (snd (add_discovered_node node_info s))) (next_node_id (self s))
  = Some (VStr ("192.168.1." +:+ pretty (next_node_id (self s))))
  /\ flat_ip (self (snd (add_discovered_node node_info s))) (next_node_id (self s))
     = Some (VStr ip).
Proof.
  intros Hok Hip. rewrite (add_discovered_node_run node_info ip s Hok Hip).
  rewrite add_node_ok
    by (apply discovered_node_data_ok;
        [exact Hok | apply randint_value_real; lia | apply randint_value_real; lia]).
  cbn [snd self nodes next_node_id].
  unfold l3_ip, flat_ip. cbn [nodes]. rewrite lookup_insert_eq.
  split; reflexivity.
Qed.

(** C4 fails on the code: [add_discovered_nodes] never looks at the
    addresses already on the canvas.  Merging a list of records a node can
    be made of (the address a string; device type, status and name
    accepted by the item of the node) once adds one node per record, and
    merging the same list again adds as many again. *)
Theorem C4_merge_twice_adds_twice (discovered : list dict) (s : session) :
  forallb addable_record discovered = true ->
  ids_below (self s) ->
  let once := snd (add_discovered_nodes discovered s) in
  let twice := snd (add_discovered_nodes discovered once) in
  fst (add_discovered_nodes discovered s) = Return tt
  /\ fst (add_discovered_nodes discovered once) = Return tt
  /\ get_node_count (self once) = (get_node_count (self s) + length discovered)%nat
  /\ get_node_count (self twice)
     = (get_node_count (self s) + 2 * length discovered)%nat.
Proof.
  intros Hall Hb once twice.
  destruct (add_discovered_nodes_count discovered s Hall Hb) as (Hr1 & Hn1 & Hb1).
  destruct (add_discovered_nodes_count discovered once Hall Hb1) as (Hr2 & Hn2 & _).
  fold once in Hn1. fold twice in Hn2.
  repeat split; try assumption. lia.
Qed.

(** The theorem at the one-record list on an empty canvas. *)
Lemma C4_merge_twice_adds_twice_witness :
  get_node_count
    (self (snd (add_discovered_nodes [host_10_0_0_5]
                  (snd (add_discovered_nodes [host_10_0_0_5] (empty_session "l1"))))))
  = 2%nat.
Proof.
  refine (proj2 (proj2 (proj2
    (C4_merge_twice_adds_twice [host_10_0_0_5] (empty_session "l1") _ _)))).
  - reflexivity.
  - by_decision.
Defined.

(** The same at the level of the main window: after the discovery signal
    is handled twice with the same one-record list, each of the three
    canvases has two nodes. *)
Example on_nodes_discovered_twice :
  (fun a => (get_node_count (l1 a), get_node_count (l2 a), get_node_count (l3 a)))
    (snd (on_nodes_discovered [host_10_0_0_5]
            (snd (on_nodes_discovered [host_10_0_0_5]
                    (new_app (random (empty_session "l1")))))))
  = (2%nat, 2%nat, 2%nat).
Proof. vm_compute. reflexivity. Qed.

Lemma existing_ips_hashable (c : NetworkCanvas) :
  addresses_hashable c ->
  forallb hashable (List.filter truthy (canvas_ips c)) = true.
Proof.
  intros Hh. apply forallb_forall. intros v Hv.
  apply filter_In in Hv as [Hv _]. apply list_elem_of_In in Hv.
  unfold canvas_ips in Hv. apply list_elem_of_omap in Hv as ([id node] & Hin & Hget).
  apply elem_of_map_to_list in Hin. exact (Hh id node v Hin Hget).
Qed.

Lemma known_address_found (c : NetworkCanvas) (ip : string) (id : Z) node :
  ip <> "" ->
  nodes c !! id = Some node ->
  dict_get (node_data node) "ip" = Some (VStr ip) ->
  existsb (py_eqb (VStr ip)) (List.filter truthy (canvas_ips c)) = true.
Proof.
  intros Hne Hnode Hget. apply existsb_exists. exists (VStr ip).
  split; [|cbn; apply String.eqb_refl].
  apply filter_In. split.
  - apply list_elem_of_In. unfold canvas_ips. apply list_elem_of_omap.
    exists (id, node). split; [now apply elem_of_map_to_list|exact Hget].
  - cbn. apply negb_true_iff. now apply String.eqb_neq.
Qed.

Lemma add_unless_known_known (node_info : dict) (ip : string) (s : session) :
  dict_get node_info "ip" = Some (VStr ip) ->
  ip <> "" ->
  addresses_hashable (self s) ->
  shows_address (self s) ip ->
  add_unless_known node_info s = (Return tt, s).
Proof.
  intros Hip Hne Hh (id & node & Hnode & Hget).
  unfold add_unless_known, bind, get_self.
  rewrite existing_ips_hashable by exact Hh. cbn [negb].
  unfold dict_get_default. rewrite Hip. cbn [hashable negb].
  now rewrite (known_address_found _ ip id node).
Qed.

Lemma add_unless_known_new (node_info : dict) (ip : string) (s : session) :
  addable_record node_info = true ->
  dict_get node_info "ip" = Some (VStr ip) ->
  addresses_hashable (self s) ->
  ~ shows_address (self s) ip ->
  add_unless_known node_info s
  = (Return tt,
     snd (add_node
            (Some (discovered_node_data node_info ip
                     (randint_value 50 600 (random s))
                     (randint_value 50 400 (advance (random s)))))
            (mkSession (self s) (advance (advance (random s)))))).
Proof.
  intros Hok Hip Hh Hnew. unfold add_unless_known, bind at 1, get_self.
  rewrite existing_ips_hashable by exact Hh. cbn [negb].
  unfold dict_get_default. rewrite Hip. cbn [hashable negb].
  destruct (existsb _ _) eqn:E.
  - exfalso. apply Hnew. apply existsb_exists in E as (v & Hv & Heq).
    apply filter_In in Hv as [Hv _]. apply list_elem_of_In in Hv.
    unfold canvas_ips in Hv.
    apply list_elem_of_omap in Hv as ([id node] & Hin & Hget).
    apply elem_of_map_to_list in Hin. exists id, node. split; [exact Hin|].
    destruct v; try discriminate Heq. cbn in Heq. apply String.eqb_eq in Heq.
    now subst.
  - unfold add_discovered_nodes. cbn [for_each]. unfold bind.
    now rewrite (add_discovered_node_run node_info ip s Hok Hip).
Qed.

Lemma on_node_discovered_run (node_info : dict) (sc : NetworkScanner)
    (c : NetworkCanvas) :
  canvas sc = Some c ->
  on_node_discovered node_info sc
  = (fst (add_unless_known node_info (mkSession c (scanner_random sc))),
     mkScanner (discovered_nodes sc ++ [node_info])%list
       (Some (self (snd (add_unless_known node_info
                           (mkSession c (scanner_random sc))))))
       (random (snd (add_unless_known node_info
                       (mkSession c (scanner_random sc)))))).
Proof.
  intros Hc. unfold on_node_discovered, bind, get. rewrite Hc.
  unfold on_canvas. cbn [discovered_nodes scanner_random].
  now destruct (add_unless_known _ _).
Qed.

(** X20: the sibling path.  The scanner's own handler notes the record
    and then looks its address up among the nodes of its canvas before it
    adds the record.  For a record a node can be made of, the first
    handling returns and leaves the address on the canvas: the canvas is
    untouched if it showed the address before, and has one new node with
    that address, under the next id, if it did not.  Handling the same
    record again returns and changes neither the canvas nor the random
    generator; the list of records seen grows by the record each time. *)
Theorem scanner_path_skips_known_address (node_info : dict) (ip : string)
    (sc : NetworkScanner) (c : NetworkCanvas) :
  canvas sc = Some c ->
  addable_record node_info = true ->
  dict_get node_info "ip" = Some (VStr ip) ->
  ip <> "" ->
  addresses_hashable c ->
  let once := snd (on_node_discovered node_info sc) in
  let twice := snd (on_node_discovered node_info once) in
  fst (on_node_discovered node_info sc) = Return tt
  /\ fst (on_node_discovered node_info once) = Return tt
  /\ discovered_nodes once = (discovered_nodes sc ++ [node_info])%list
  /\ discovered_nodes twice = (discovered_nodes sc ++ [node_info; node_info])%list
  /\ (exists c1,
        canvas once = Some c1
        /\ shows_address c1 ip
        /\ ((shows_address c ip /\ c1 = c
             /\ scanner_random once = scanner_random sc)
            \/ (~ shows_address c ip
                /\ exists node,
                     dict_get (node_data node) "ip" = Some (VStr ip)
                     /\ nodes c1 = <[next_node_id c := node]> (nodes c)
                     /\ connections c1 = connections c
                     /\ next_node_id c1 = next_node_id c + 1)))
  /\ canvas twice = canvas once
  /\ scanner_random twice = scanner_random once.
Proof.
  intros Hc Hok Hip Hne Hh.
  assert (Hdec : shows_address c ip \/ ~ shows_address c ip).
  { destruct (existsb (py_eqb (VStr ip)) (List.filter truthy (canvas_ips c))) eqn:E.
    - left. apply existsb_exists in E as (v & Hv & Heq).
      apply filter_In in Hv as [Hv _]. apply list_elem_of_In in Hv.
      unfold canvas_ips in Hv.
      apply list_elem_of_omap in Hv as ([id node] & Hin & Hget).
      apply elem_of_map_to_list in Hin. exists id, node. split; [exact Hin|].
      destruct v; try discriminate Heq. cbn in Heq. apply String.eqb_eq in Heq.
      now subst.
    - right. intros (id & node & Hnode & Hget).
      now rewrite (known_address_found c ip id node Hne Hnode Hget) in E. }
  assert (Hfirst : exists c1 g1,
    on_node_discovered node_info sc
    = (Return tt, mkScanner (discovered_nodes sc ++ [node_info])%list (Some c1) g1)
    /\ shows_address c1 ip
    /\ addresses_hashable c1
    /\ ((shows_address c ip /\ c1 = c /\ g1 = scanner_random sc)
        \/ (~ shows_address c ip
            /\ exists node,
                 dict_get (node_data node) "ip" = Some (VStr ip)
                 /\ nodes c1 = <[next_node_id c := node]> (nodes c)
                 /\ connections c1 = connections c
                 /\ next_node_id c1 = next_node_id c + 1))).
  { rewrite (on_node_discovered_run node_info sc c Hc).
    destruct Hdec as [Hknown|Hnew].
    - rewrite (add_unless_known_known node_info ip
                 (mkSession c (scanner_random sc)) Hip Hne Hh Hknown).
      exists c, (scanner_random sc). cbn [fst snd self random].
      split; [reflexivity|]. split; [exact Hknown|]. split; [exact Hh|].
      left. now repeat split.
    - rewrite (add_unless_known_new node_info ip
                 (mkSession c (scanner_random sc)) Hok Hip Hh Hnew).
      rewrite add_node_ok
        by (apply discovered_node_data_ok;
            [exact Hok | apply randint_value_real; lia
             | apply randint_value_real; lia]).
      cbn [fst snd self random next_node_id level nodes connections].
      eexists _, _. split; [reflexivity|].
      assert (Hget : dict_get
                (node_data
                   (new_node_item (next_node_id c)
                      (randint_value 50 400 (advance (advance (scanner_random sc))))
                      (randint_value 50 300
                         (advance (advance (advance (scanner_random sc)))))
                      (Some (discovered_node_data node_info ip
                               (randint_value 50 600 (scanner_random sc))
                               (randint_value 50 400 (advance (scanner_random sc)))))))
                "ip" = Some (VStr ip)).
      { cbn [new_node_item node_data].
        apply filled_node_data_keeps; [discriminate|reflexivity]. }
      split; [|split].
      + eexists _, _. cbn [nodes]. split; [apply lookup_insert_eq|exact Hget].
      + intros id node v Hnode Hv. cbn [nodes] in Hnode.
        apply lookup_insert_Some in Hnode as [[<- <-]|[_ Hnode]];
          [|exact (Hh id node v Hnode Hv)].
        rewrite Hget in Hv. now injection Hv as <-.
      + right. split; [exact Hnew|]. eexists. split; [exact Hget|].
        now repeat split. }
  destruct Hfirst as (c1 & g1 & Hrun1 & Hshow & Hh1 & Hhow).
  cbv zeta. rewrite Hrun1. cbn [fst snd].
  rewrite (on_node_discovered_run node_info
             (mkScanner (discovered_nodes sc ++ [node_info])%list (Some c1) g1)
             c1 eq_refl).
  cbn [discovered_nodes scanner_random].
  rewrite (add_unless_known_known node_info ip (mkSession c1 g1) Hip Hne Hh1 Hshow).
  cbn [fst snd self random discovered_nodes canvas scanner_random].
  split; [reflexivity|]. split; [reflexivity|]. split; [reflexivity|].
  split; [now rewrite <- app_assoc|].
  split; [|now split].
  exists c1. split; [reflexivity|]. split; [exact Hshow|].
  destruct Hhow as [(H1 & H2 & H3)|H]; [left|right; exact H].
  now repeat split.
Qed.

(** The theorem at the record of one host and a scanner whose canvas is
    empty. *)
Lemma scanner_path_skips_known_address_witness :
  fst (on_node_discovered host_10_0_0_5
         (mkScanner [] (Some (new_canvas "l1")) (random (empty_session "l1"))))
  = Return tt.
Proof.
  refine (proj1 (scanner_path_skips_known_address host_10_0_0_5 "10.0.0.5"
                   (mkScanner [] (Some (new_canvas "l1")) (random (empty_session "l1")))
                   (new_canvas "l1") _ _ _ _ _)).
  - reflexivity.
  - vm_compute. reflexivity.
  - reflexivity.
  - discriminate.
  - intros id node v Hnode. cbn in Hnode. rewrite lookup_empty in Hnode.
    discriminate Hnode.
Defined.

(** Handled twice on an empty canvas, the record is noted twice and shown
    once. *)
Example scanner_path_twice :
  (fun sc => (length (discovered_nodes sc),
              get_node_count <$> canvas sc))
    (snd (on_node_discovered host_10_0_0_5
            (snd (on_node_discovered host_10_0_0_5
                    (mkScanner [] (Some (new_canvas "l1"))
                               (random (empty_session "l1")))))))
  = (2%nat, Some 1%nat).
Proof. vm_compute. reflexivity. Qed.

(** C8 fails on the code at the input of scenario B: merging the record
    with address 10.0.0.5 twice into an empty canvas makes two nodes, and
    neither has 10.0.0.5 as its [l3] address: the address is stored under
    the top-level key ["ip"] and the [l3] group holds the default built from
    the node id. *)
Theorem C8_discovered_address_outside_l3 :
  let r := add_discovered_nodes [host_10_0_0_5; host_10_0_0_5] (empty_session "l1") in
  fst r = Return tt
  /\ get_node_count (self (snd r)) = 2%nat
  /\ l3_ip (self (snd r)) 1 = Some (VStr "192.168.1.1")
  /\ l3_ip (self (snd r)) 2 = Some (VStr "192.168.1.2")
  /\ flat_ip (self (snd r)) 1 = Some (VStr "10.0.0.5")
  /\ flat_ip (self (snd r)) 2 = Some (VStr "10.0.0.5").
Proof. vm_compute. repeat split. Qed.

(** ** Saving and loading a project *)

Lemma string_length_app (s t : string) :
  String.length (s +:+ t) = (String.length s + String.length t)%nat.
Proof. induction s as [|c s IH]; [reflexivity|]. simpl. f_equal. exact IH. Qed.

Lemma backup_path_ne (path : string) : path +:+ ".backup" <> path.
Proof.
  intros H. apply (f_equal String.length) in H.
  rewrite string_length_app in H. cbn in H. lia.
Qed.

Lemma dict_set_set (d : dict) k v v' :
  dict_set (dict_set d k v) k v' = dict_set d k v'.
Proof.
  induction d as [|[k0 v0] d IH]; cbn.
  - now rewrite String.eqb_refl.
  - destruct (String.eqb k k0) eqn:E; cbn; rewrite E; [reflexivity|now rewrite IH].
Qed.


Lemma stamp_metadata_run (field stamp : string) (w : world) :
  metadata_ok (data w) = true ->
  stamp_metadata field stamp w
  = (Return tt,
     mkWorld (disk w) (fails w) (current_project w)
       (dict_set (data w) "metadata"
          (VDict (dict_set (metadata_of (data w)) field (VStr stamp))))).
Proof.
  unfold metadata_ok, metadata_of, stamp_metadata, bind, get_data, put_data, ret,
    dict_has.
  destruct (dict_get (data w) "metadata") as [[| | | | | |md]|] eqn:Hmd;
    try discriminate; intros _; cbn.
  - rewrite Hmd. reflexivity.
  - rewrite dict_get_set_eq. now rewrite dict_set_set.
Qed.


Lemma write_json_run (path : string) (d : dict) (w : world) :
  write_json path d w
  = if fails w (OpenWrite path) then (Raise OSError, w)
    else if negb (within_digit_limit (VDict d))
         then (Raise ValueError,
               mkWorld (<[path := Malformed]> (disk w)) (fails w)
                       (current_project w) (data w))
    else if fails w (WriteText path)
         then (Raise OSError,
               mkWorld (<[path := Malformed]> (disk w)) (fails w)
                       (current_project w) (data w))
         else (Return tt,
               mkWorld (<[path := JsonText (VDict d)]> (disk w)) (fails w)
                       (current_project w) (data w)).
Proof.
  unfold write_json, bind, failing, get, put_disk, raise.
  destruct (fails w (OpenWrite path)); [reflexivity|]. cbn [disk fails].
  destruct (negb (within_digit_limit (VDict d))); [reflexivity|].
  cbn [disk fails current_project data].
  destruct (fails w (WriteText path)); [reflexivity|].
  cbn [disk fails current_project data].
  now rewrite insert_insert_eq.
Qed.











(** C5 also fails for a document [json.dump] cannot write: with an
    integer of 4301 digits in a node, [save_project] returns [False] and
    leaves a cut-off file, which [load_project] cannot read. *)
Example save_refuses_long_integer :
  let D := dict_set sample_document "nodes"
             (VList [VDict [("id", VInt 1); ("serial", VInt (10 ^ 4300))]]) in
  let r := save_project D "net.json" "2024-02-02T00:00:00" healthy_world in
  well_formed_document D = true
  /\ fst r = Return false
  /\ disk (snd r) !! "net.json" = Some Malformed
  /\ fst (load_project "net.json" "2024-03-03T00:00:00" (snd r)) = Raise TypeError.
Proof. vm_compute. repeat split. Qed.



(** ** Invariants of the canvases a client can reach *)

Section Preservation.
Context {St : Type} (P : St -> Prop).

Lemma preserves_ret {A} (a : A) : preserves P (ret a).
Proof. intros s H. exact H. Qed.

Lemma preserves_raise {A} (e : exn) : preserves P (@raise St A e).
Proof. intros s H. exact H. Qed.

Lemma preserves_bind {A B} (m : M St A) (k : A -> M St B) :
  preserves P m -> (forall a, preserves P (k a)) -> preserves P (bind m k).
Proof.
  intros Hm Hk s H. unfold bind. specialize (Hm s H).
  destruct (m s) as [[a|e] s']; cbn [snd] in *; [now apply Hk|exact Hm].
Qed.

Lemma preserves_for_each {A} (xs : list A) (body : A -> M St unit) :
  (forall x, preserves P (body x)) -> preserves P (for_each xs body).
Proof.
  intros Hbody. induction xs as [|x xs IH]; cbn [for_each].
  - apply preserves_ret.
  - apply preserves_bind; [apply Hbody|intros _; exact IH].
Qed.
End Preservation.

(** A state with the same connections and counter and the same node ids. *)
Lemma canvas_invariant_same_ids (c c' : NetworkCanvas) :
  connections c' = connections c ->
  next_node_id c' = next_node_id c ->
  (forall id, has_node c' id = has_node c id) ->
  canvas_invariant c -> canvas_invariant c'.
Proof.
  intros Hc Hn Hids (Hk & Hb & He). unfold canvas_invariant, keys_ordered,
    ids_below, endpoints_present in *. rewrite Hc, Hn.
  split; [exact Hk|]. split.
  - intros id x Hx. specialize (Hids id). unfold has_node in Hids.
    rewrite Hx in Hids. destruct (nodes c !! id) as [y|] eqn:E; [|discriminate].
    exact (Hb id y E).
  - intros k x Hx. rewrite !Hids. exact (He k x Hx).
Qed.

Lemma has_node_insert (c : NetworkCanvas) (i : Z) (x : NetworkNode) (j : Z) :
  has_node (set_nodes c (<[i := x]> (nodes c))) j
  = if decide (i = j) then true else has_node c j.
Proof.
  unfold has_node. cbn [set_nodes nodes]. rewrite lookup_insert.
  now destruct (decide (i = j)).
Qed.

Lemma add_node_invariant nd : preserves (fun s => canvas_invariant (self s)) (add_node nd).
Proof.
  intros s (Hk & Hb & He).
  destruct (input_error nd) as [e|] eqn:Herr.
  { rewrite add_node_run, Herr. exact (conj Hk (conj Hb He)). }
  destruct (add_node_count nd s Herr Hb) as [_ Hb'].
  split; [|split; [exact Hb'|]]; rewrite (add_node_ok _ _ Herr); cbn [snd self].
  - exact Hk.
  - intros k x Hx. destruct (He k x Hx) as [H1 H2].
    unfold has_node in *. cbn [nodes connections] in *.
    rewrite !lookup_insert. split; case_decide; auto.
Qed.

Lemma clear_invariant : preserves (fun s => canvas_invariant (self s)) clear.
Proof.
  intros s _. unfold canvas_invariant, keys_ordered, ids_below, endpoints_present.
  split; [|split]; apply map_Forall_empty.
Qed.

Lemma add_connection_invariant a b cd :
  preserves (fun s => canvas_invariant (self s)) (add_connection a b cd).
Proof.
  intros s Hinv. pose proof (add_connection_keys_ordered a b cd s (proj1 Hinv)) as Hk.
  split; [exact Hk|]. clear Hk. destruct Hinv as (_ & Hb & He).
  rewrite add_connection_run. cbn [snd].
  destruct (has_node (self s) a) eqn:Ha, (has_node (self s) b) eqn:Hb0;
    cbn [andb]; try (split; assumption).
  destruct (negb (a =? b)%Z && negb (has_connection (self s) (conn_key a b)));
    [|split; assumption].
  split; [exact Hb|]. apply map_Forall_insert_2; [|exact He].
  unfold conn_key. cbn [fst snd].
  destruct (Z.min_spec a b) as [[_ ->]|[_ ->]], (Z.max_spec a b) as [[_ ->]|[_ ->]];
    split; assumption.
Qed.

Lemma delete_connection_invariant k :
  preserves (fun s => canvas_invariant (self s)) (delete_connection k).
Proof.
  intros s (Hk & Hb & He). rewrite delete_connection_run. cbn [snd self].
  split; [|split]; [|exact Hb|]; now apply map_Forall_delete.
Qed.

Lemma delete_node_run (x : Z) (s : session) :
  if has_node (self s) x then
    exists cs,
      delete_node x s
      = (Return tt,
         mkSession (set_nodes (set_connections (self s) cs) (delete x (nodes (self s))))
                   (random s))
      /\ (forall k v, cs !! k = Some v ->
            k.1 <> x /\ k.2 <> x /\ connections (self s) !! k = Some v)
  else delete_node x s = (Return tt, s).
Proof.
  destruct (has_node (self s) x) eqn:Hx.
  - destruct (delete_node_connections_run x s) as (cs & Hrun & Hgone & Hkept).
    exists cs. split.
    + unfold delete_node, bind at 1, get_self. rewrite Hx.
      unfold bind at 1. rewrite Hrun. reflexivity.
    + intros k v Hkv.
      destruct (decide (k.1 = x)) as [H1|H1];
        [rewrite Hgone in Hkv by auto; discriminate|].
      destruct (decide (k.2 = x)) as [H2|H2];
        [rewrite Hgone in Hkv by auto; discriminate|].
      rewrite Hkept in Hkv by assumption. auto.
  - unfold delete_node, bind, get_self. now rewrite Hx.
Qed.

Lemma delete_node_invariant x :
  preserves (fun s => canvas_invariant (self s)) (delete_node x).
Proof.
  intros s (Hk & Hb & He). pose proof (delete_node_run x s) as Hrun.
  destruct (has_node (self s) x).
  - destruct Hrun as (cs & -> & Hcs). cbn [snd self].
    split; [|split].
    + intros k v Hkv. destruct (Hcs k v Hkv) as (_ & _ & H). exact (Hk k v H).
    + intros id y Hy. cbn [set_nodes nodes] in Hy.
      apply lookup_delete_Some in Hy as [_ Hy]. exact (Hb id y Hy).
    + intros k v Hkv. destruct (Hcs k v Hkv) as (H1 & H2 & H).
      destruct (He k v H) as [E1 E2]. unfold has_node in *.
      cbn [set_nodes set_connections nodes].
      rewrite !lookup_delete_ne by congruence. auto.
  - rewrite Hrun. exact (conj Hk (conj Hb He)).
Qed.

Lemma randint_invariant a b :
  preserves (fun s => canvas_invariant (self s)) (randint a b).
Proof. intros s H. exact H. Qed.

Lemma add_discovered_nodes_invariant l :
  preserves (fun s => canvas_invariant (self s)) (add_discovered_nodes l).
Proof.
  apply preserves_for_each. intros node_info. unfold add_discovered_node.
  destruct (dict_get node_info "ip") as [[| | | |ip| |]|];
    try apply preserves_raise.
  repeat (apply preserves_bind; [apply randint_invariant|intros ?]).
  apply preserves_bind; [apply add_node_invariant|intros _; apply preserves_ret].
Qed.

Lemma update_node_invariant d :
  preserves (fun s => canvas_invariant (self s)) (update_node d).
Proof.
  unfold update_node.
  destruct (dict_get d "id") as [v|]; [|apply preserves_raise].
  destruct (hash_key v) as [|id|];
    [apply preserves_raise| |apply (preserves_ret _ tt)].
  intros s Hinv. unfold bind at 1, get_self. cbv beta iota.
  destruct (nodes (self s) !! id) as [node_item|] eqn:E; [|exact Hinv].
  assert (Hset : forall x,
            canvas_invariant (set_nodes (self s) (<[id := x]> (nodes (self s))))).
  { intros x. revert Hinv. apply canvas_invariant_same_ids; try reflexivity.
    intros j. rewrite has_node_insert. case_decide; [|reflexivity].
    subst j. unfold has_node. now rewrite E. }
  cbv zeta. unfold bind at 1, put_self at 1. cbn [self random].
  rewrite refresh_run.
  destruct (item_error _); [apply Hset|].
  destruct (dict_has d "x" && dict_has d "y"); [|apply Hset].
  unfold bind at 1. rewrite setPos_run.
  destruct (position_error _ _); [apply Hset|].
  unfold bind, get_self, put_self, set_nodes.
  cbn [snd self random level nodes connections next_node_id].
  rewrite insert_insert_eq. apply Hset.
Qed.

Lemma foldl_place_has_node layout (ns : gmap Z NetworkNode) (id : Z) :
  is_Some (foldl place ns layout !! id) <-> is_Some (ns !! id).
Proof.
  revert ns. induction layout as [|[i p] layout IH]; intros ns; [reflexivity|].
  cbn [foldl]. rewrite IH. unfold place. cbn [fst snd].
  destruct (ns !! i) as [x|] eqn:E; [|reflexivity].
  rewrite lookup_insert. case_decide; [|reflexivity].
  subst. rewrite E. split; intros _; eauto.
Qed.

Lemma auto_layout_invariant layout :
  preserves (fun s => canvas_invariant (self s)) (auto_layout layout).
Proof.
  intros s. rewrite auto_layout_run. cbn [snd self].
  apply canvas_invariant_same_ids; try reflexivity.
  intros id. unfold has_node. cbn [set_nodes nodes].
  pose proof (foldl_place_has_node layout (nodes (self s)) id) as [H1 H2].
  destruct (foldl place (nodes (self s)) layout !! id) eqn:E1,
           (nodes (self s) !! id) eqn:E2; try reflexivity.
  - destruct H1 as [? ?]; [eauto|discriminate].
  - destruct H2 as [? ?]; [eauto|discriminate].
Qed.

Lemma py_iter_invariant {St} (P : St -> Prop) v : preserves P (py_iter v).
Proof. destruct v; intros st H; exact H. Qed.

Lemma load_data_invariant data :
  preserves (fun s => canvas_invariant (self s)) (load_data data).
Proof.
  unfold load_data.
  apply preserves_bind; [apply clear_invariant|intros _].
  apply preserves_bind; [apply py_iter_invariant|intros node_list].
  apply preserves_bind.
  { apply preserves_for_each. intros [| | | | | |d]; try apply preserves_raise;
      (apply preserves_bind; [apply add_node_invariant|intros _; apply preserves_ret]). }
  intros _. apply preserves_bind; [apply py_iter_invariant|intros connection_list].
  apply preserves_for_each. intros [| | | | | |cd]; try apply preserves_raise.
  cbn [load_connection]. destruct (_ && _); [|apply preserves_ret].
  apply preserves_bind; [|intros _; apply preserves_ret].
  unfold add_connection_obj.
  destruct (hash_key _) as [|a|]; [apply preserves_raise| |apply preserves_ret].
  apply preserves_bind; [intros s H; exact H|intros c].
  destruct (negb _); [apply preserves_ret|].
  destruct (hash_key _) as [|b|]; [apply preserves_raise| |apply preserves_ret].
  apply add_connection_invariant.
Qed.

Lemma add_node_at_position_invariant x y :
  preserves (fun s => canvas_invariant (self s)) (add_node_at_position x y).
Proof.
  unfold add_node_at_position.
  apply preserves_bind; [intros s H; exact H|intros c]. apply add_node_invariant.
Qed.

Lemma update_connection_invariant cd :
  preserves (fun s => canvas_invariant (self s)) (update_connection cd).
Proof.
  unfold update_connection. cbv zeta.
  destruct (order_class (dict_get_default cd "source" VNone)) as [[a|]| |],
           (order_class (dict_get_default cd "target" VNone)) as [[b|]| |];
    try apply preserves_raise; try apply (preserves_ret _ tt).
  intros s Hinv. unfold bind, get_self.
  destruct (connections (self s) !! conn_key a b) as [conn|] eqn:E; [|exact Hinv].
  cbn [snd put_self self]. destruct Hinv as (Hk & Hb & He).
  split; [|split; [exact Hb|]].
  - apply map_Forall_insert_2; [exact (Hk _ _ E)|exact Hk].
  - apply map_Forall_insert_2; [exact (He _ _ E)|exact He].
Qed.

(** X1: I2 and I3 for every canvas a client can reach: connection keys
    are ordered pairs, so a pair of nodes has at most one connection; every
    node id is below the counter; both ends of a connection are nodes. *)
Theorem reachable_invariant (s : session) :
  reachable s -> canvas_invariant (self s).
Proof.
  induction 1 as [lvl g|s c _ IH].
  - unfold canvas_invariant, keys_ordered, ids_below, endpoints_present.
    split; [|split]; apply map_Forall_empty.
  - revert IH. generalize s. change (preserves (fun s => canvas_invariant (self s))
                                               (perform c)).
    destruct c; cbn [perform].
    + apply preserves_bind; [apply add_node_invariant|intros _; apply preserves_ret].
    + apply add_discovered_nodes_invariant.
    + apply update_node_invariant.
    + apply delete_node_invariant.
    + apply delete_connection_invariant.
    + apply preserves_bind; [apply add_connection_invariant|intros _; apply preserves_ret].
    + apply auto_layout_invariant.
    + apply clear_invariant.
    + apply load_data_invariant.
    + apply preserves_bind;
        [apply add_node_at_position_invariant|intros _; apply preserves_ret].
    + apply update_connection_invariant.
Qed.

(** ** The id counter over the calls of a client *)

Section Counter.
Variable n : Z.

Abbreviation counter_from := (fun s : session => n <= next_node_id (self s)).









End Counter.

Lemma add_node_at_position_run (x y : float) (s : session) :
  add_node_at_position x y s
  = add_node
      (Some [("name", VStr ("Node-" +:+ pretty (next_node_id (self s))));
             ("type", VStr "host");
             ("ip", VStr ("192.168.1." +:+ pretty (next_node_id (self s))));
             ("mask", VStr "255.255.255.0");
             ("x", VFloat x); ("y", VFloat y); ("status", VStr "online")]) s.
Proof. reflexivity. Qed.






(** In that run the ids handed out are 1, 2 and 3: the refused call gets
    none and uses none up, and the id of the deleted node is not issued
    again. *)
Example returned_ids_sample :
  returned_ids
    [CallAddNode None; CallAddNode None; CallAddConnection 1 2 None;
     CallDeleteNode 1; CallAddNode (Some [("l3", VNone)]);
     CallUpdateNode [("id", VInt 2); ("name", VStr "core")];
     CallAddNode None]
    (empty_session "l1")
  = [1; 2; 3].
Proof. vm_compute. reflexivity. Qed.

(** ** The end-to-end scenarios *)

(** Scenario A: with nodes 1 and 2, [add_connection 1 2] adds the
    connection and [add_connection 2 1] then adds nothing. *)
Example scenario_A :
  (fun s1 s2 =>
     (get_connection_count (self s1), has_connection (self s1) (1, 2),
      get_connection_count (self s2), pair_count (self s2) 1 2))
    (snd (add_connection 1 2 None (two_nodes "l2")))
    (snd (add_connection 2 1 None (snd (add_connection 1 2 None (two_nodes "l2")))))
  = (1%nat, true, 1%nat, 1%nat).
Proof. vm_compute. reflexivity. Qed.

(** Scenario C: two nodes, the connection 1-2, then [delete_node 1]: no
    connection is left and node 2 is still there. *)
Example scenario_C :
  (fun s => (get_connection_count (self s), has_node (self s) 1, has_node (self s) 2))
    (snd (delete_node 1 (snd (add_connection 1 2 None (two_nodes "l1")))))
  = (0%nat, false, true).
Proof. vm_compute. reflexivity. Qed.

(** Scenario D: after a second save over the same path, the backup holds
    the document the first save wrote. *)
Example scenario_D :
  (fun w1 =>
     (disk w1 !! "net.json",
      disk (snd (save_project sample_document "net.json" "2024-02-03T00:00:00" w1))
        !! "net.json.backup"))
    (snd (save_project sample_document "net.json" "2024-02-02T00:00:00" healthy_world))
  = (Some (JsonText (VDict (stamped sample_document "modified" "2024-02-02T00:00:00"))),
     Some (JsonText (VDict (stamped sample_document "modified" "2024-02-02T00:00:00")))).
Proof. vm_compute. reflexivity. Qed.

(** * Further properties of the canvas *)

(** The invariant theorem at a canvas reached by adding two nodes and
    joining them. *)
Lemma reachable_invariant_witness :
  canvas_invariant
    (self (snd (perform (CallAddConnection 1 2 None)
                  (snd (perform (CallAddNode None)
                          (snd (perform (CallAddNode None)
                                  (mkSession (new_canvas "l1")
                                     (random (empty_session "l1")))))))))).
Proof.
  apply reachable_invariant.
  repeat apply reachable_step. apply reachable_new.
Defined.

(** ** Connections *)

Lemma conn_key_comm (a b : Z) : conn_key a b = conn_key b a.
Proof. unfold conn_key. now rewrite Z.min_comm, Z.max_comm. Qed.

(** X2: what [add_connection] does in every case.  The nodes and every
    other connection are left alone; a connection for the pair exists
    afterwards exactly when one existed before or both ids are nodes and
    differ; a connection that existed is kept as it was; and the pairs that
    are connected afterwards do not depend on the order of the two ids. *)
Theorem add_connection_effect (s : session) (a b : Z) (cd : option dict) :
  nodes (self (snd (add_connection a b cd s))) = nodes (self s)
  /\ (forall k, k <> conn_key a b ->
        connections (self (snd (add_connection a b cd s))) !! k
        = connections (self s) !! k)
  /\ has_connection (self (snd (add_connection a b cd s))) (conn_key a b)
     = has_connection (self s) (conn_key a b)
       || (has_node (self s) a && has_node (self s) b && negb (a =? b)%Z)
  /\ (forall conn, connections (self s) !! conn_key a b = Some conn ->
        connections (self (snd (add_connection a b cd s))) !! conn_key a b = Some conn)
  /\ dom (connections (self (snd (add_connection b a cd s))))
     = dom (connections (self (snd (add_connection a b cd s)))).
Proof.
  rewrite !add_connection_run. cbn [snd]. rewrite <- (conn_key_comm a b).
  rewrite (Z.eqb_sym b a), (andb_comm (has_node (self s) b)).
  unfold has_connection.
  destruct (has_node (self s) a), (has_node (self s) b), (a =? b)%Z;
    cbn [andb negb orb];
    try (destruct (connections (self s) !! conn_key a b); now repeat split).
  destruct (connections (self s) !! conn_key a b) as [conn|] eqn:E; cbn [negb].
  - rewrite E. repeat split; auto.
  - cbn [self set_connections connections nodes]. rewrite lookup_insert_eq.
    repeat split; try discriminate.
    + intros k Hk. now rewrite lookup_insert_ne.
    + now rewrite !dom_insert_L.
Qed.

(** X3: deleting the connection that [add_connection] has just made gives
    back the canvas as it was. *)
Theorem add_then_delete_connection (s : session) (a b : Z) (cd : option dict) :
  has_connection (self s) (conn_key a b) = false ->
  delete_connection (conn_key a b) (snd (add_connection a b cd s)) = (Return tt, s).
Proof.
  intros Hno. rewrite delete_connection_run, add_connection_run. cbn [snd].
  rewrite Hno. unfold has_connection in Hno.
  destruct (connections (self s) !! conn_key a b) eqn:E; [discriminate|].
  destruct (has_node (self s) a && has_node (self s) b && negb (a =? b)%Z);
    cbn [andb negb]; unfold set_connections;
    cbn [self connections random level nodes next_node_id].
  - rewrite delete_insert_id by exact E. now rewrite session_eta.
  - rewrite delete_id by exact E. now rewrite session_eta.
Qed.

(** The theorem at nodes 1 and 2 of the two-node canvas. *)
Lemma add_then_delete_connection_witness :
  delete_connection (conn_key 1 2) (snd (add_connection 1 2 None (two_nodes "l1")))
  = (Return tt, two_nodes "l1").
Proof.
  apply (add_then_delete_connection (two_nodes "l1") 1 2 None).
  vm_compute. reflexivity.
Defined.

(** X4: [update_connection] for data that names its two ends by integers,
    in either order.  When the canvas has no connection for the pair
    nothing happens; when it has one, the supplied fields replace the
    stored ones, the others are kept, and no other connection and no node
    changes. *)
Theorem update_connection_merges (s : session) (cd : dict) (a b : Z) :
  dict_get cd "source" = Some (VInt a) ->
  dict_get cd "target" = Some (VInt b) ->
  NoDup cd.*1 ->
  conn_key a b = conn_key b a
  /\ match connections (self s) !! conn_key a b with
     | None => update_connection cd s = (Return tt, s)
     | Some conn =>
         exists conn',
           update_connection cd s
           = (Return tt,
              mkSession
                (set_connections (self s)
                   (<[conn_key a b := conn']> (connections (self s))))
                (random s))
           /\ source_node conn' = source_node conn
           /\ target_node conn' = target_node conn
           /\ forall k,
                dict_get (connection_data conn') k
                = match dict_get cd k with
                  | Some v => Some v
                  | None => dict_get (connection_data conn) k
                  end
     end.
Proof.
  intros Hs Ht Hnd. split; [apply conn_key_comm|].
  unfold update_connection, dict_get_default. rewrite Hs, Ht.
  cbn [order_class hash_key]. unfold bind, get_self.
  destruct (connections (self s) !! conn_key a b) as [conn|]; [|reflexivity].
  eexists. split; [reflexivity|]. cbn [source_node target_node connection_data].
  repeat split. intros k. now apply dict_get_update.
Qed.

(** The theorem at an edit of the connection 1-2 named as 2-1. *)
Lemma update_connection_merges_witness :
  conn_key 2 1 = conn_key 1 2.
Proof.
  refine (proj1 (update_connection_merges
                   (snd (add_connection 1 2 None (two_nodes "l1"))) port_edit 2 1 _ _ _)).
  - reflexivity.
  - reflexivity.
  - by_decision.
Defined.

Example update_connection_other_order :
  (fun s => connection_data <$> connections (self s) !! (1, 2))
    (snd (update_connection port_edit (snd (add_connection 1 2 None (two_nodes "l1")))))
  = Some [("source", VInt 2); ("target", VInt 1); ("type", VStr "ethernet");
          ("l1", VDict [("source_port", VStr "Gi0/1"); ("target_port", VStr "Gi0/2")])].
Proof. vm_compute. reflexivity. Qed.

(** X5: [update_connection] does not skip data that lacks an end: the pair
    key is built with [min] and [max] of the two ends, and [None] cannot be
    compared, so the call raises [TypeError] and changes nothing. *)
Theorem update_connection_missing_end (s : session) (cd : dict) :
  dict_get cd "source" = None \/ dict_get cd "target" = None ->
  update_connection cd s = (Raise TypeError, s).
Proof.
  intros H. unfold update_connection, dict_get_default. cbv zeta.
  destruct H as [-> | ->]; cbn [order_class]; [reflexivity|].
  destruct (order_class match dict_get cd "source" with
                        | Some v => v
                        | None => VNone
                        end) as [[?|]| |]; reflexivity.
Qed.

(** The theorem at data with a target and no source. *)
Lemma update_connection_missing_end_witness :
  update_connection [("target", VInt 2)] (two_nodes "l1")
  = (Raise TypeError, two_nodes "l1").
Proof.
  apply (update_connection_missing_end (two_nodes "l1") [("target", VInt 2)]).
  left. reflexivity.
Defined.

(** ** Deleting a node again *)

(** X6: [delete_node] never raises; for an id that is no node it changes
    nothing, so deleting the same node a second time changes nothing. *)
Theorem delete_node_idempotent (s : session) (x : Z) :
  fst (delete_node x s) = Return tt
  /\ (has_node (self s) x = false -> delete_node x s = (Return tt, s))
  /\ delete_node x (snd (delete_node x s)) = (Return tt, snd (delete_node x s)).
Proof.
  assert (Habsent : forall s0, has_node (self s0) x = false ->
                               delete_node x s0 = (Return tt, s0)).
  { intros s0 H0. pose proof (delete_node_run x s0) as Hrun. now rewrite H0 in Hrun. }
  pose proof (delete_node_run x s) as Hrun.
  destruct (has_node (self s) x) eqn:Hx.
  - destruct Hrun as (cs & Hrun & _). rewrite Hrun. cbn [fst snd].
    split; [reflexivity|]. split; [discriminate|].
    apply Habsent. unfold has_node. cbn [self set_nodes nodes].
    now rewrite lookup_delete_eq.
  - rewrite Hrun. cbn [fst snd]. split; [reflexivity|]. split; [auto|].
    now apply Habsent.
Qed.

(** ** Isolated nodes *)

Lemma elem_of_connected_node_ids (c : NetworkCanvas) (id : Z) :
  id ∈ connected_node_ids c
  <-> exists k conn, connections c !! k = Some conn /\ (k.1 = id \/ k.2 = id).
Proof.
  unfold connected_node_ids, connection_keys.
  assert (Hfold : forall ks : list (Z * Z),
            id ∈ foldr (fun k acc => {[k.1]} ∪ ({[k.2]} ∪ acc)) (∅ : gset Z) ks
            <-> exists k, k ∈ ks /\ (k.1 = id \/ k.2 = id)).
  { induction ks as [|k ks IH]; cbn [foldr].
    - split; [set_solver|]. intros (k & Hk & _). now apply elem_of_nil in Hk.
    - rewrite !elem_of_union, !elem_of_singleton, IH. split.
      + intros [->|[->|(k' & Hk' & Hor)]].
        * exists k. split; [left|auto].
        * exists k. split; [left|auto].
        * exists k'. split; [now right|exact Hor].
      + intros (k' & Hk' & Hor). apply elem_of_cons in Hk' as [->|Hk'].
        * destruct Hor as [<-|<-]; auto.
        * right. right. eauto. }
  rewrite Hfold. split.
  - intros (k & Hk & Hor). apply list_elem_of_fmap in Hk as ([k' conn] & -> & Hin).
    apply elem_of_map_to_list in Hin. eauto.
  - intros (k & conn & Hk & Hor). exists k. split; [|exact Hor].
    apply list_elem_of_fmap. exists (k, conn). split; [reflexivity|].
    now apply elem_of_map_to_list.
Qed.

(** X7: [get_isolated_nodes] reports a name exactly for the nodes that are
    at neither end of any connection, the stored name or ["ID: <id>"] when
    the node has none; on a canvas without connections it reports one name
    per node. *)
Theorem get_isolated_nodes_spec (c : NetworkCanvas) :
  (forall v, v ∈ get_isolated_nodes c
     <-> exists id node_item,
           nodes c !! id = Some node_item
           /\ (forall k conn, connections c !! k = Some conn -> k.1 <> id /\ k.2 <> id)
           /\ v = reported_name node_item id)
  /\ (connections c = ∅ -> length (get_isolated_nodes c) = get_node_count c).
Proof.
  unfold get_isolated_nodes. split.
  - intros v. rewrite list_elem_of_omap. split.
    + intros (id & Hid & Hname). apply elem_of_elements in Hid.
      apply elem_of_difference in Hid as [Hdom Hnot].
      unfold node_name in Hname.
      destruct (nodes c !! id) as [node_item|] eqn:E; [|discriminate].
      injection Hname as <-. exists id, node_item. split; [exact E|].
      split; [|reflexivity]. intros k conn Hk.
      split; intros Heq; apply Hnot, elem_of_connected_node_ids; eauto.
    + intros (id & node_item & Hnode & Hfree & ->). exists id. split.
      * apply elem_of_elements, elem_of_difference. split.
        -- apply elem_of_dom. eauto.
        -- intros Hin. apply elem_of_connected_node_ids in Hin
             as (k & conn & Hk & Hor).
           destruct (Hfree k conn Hk). tauto.
      * unfold node_name. now rewrite Hnode.
  - intros Hempty.
    assert (Hnone : connected_node_ids c = ∅).
    { unfold connected_node_ids, connection_keys. rewrite Hempty.
      now rewrite map_to_list_empty. }
    rewrite Hnone, difference_empty_L. unfold get_node_count.
    rewrite <- size_dom. unfold size, set_size. cbn [compose].
    assert (Hlen : forall ids : list Z,
              (forall id, id ∈ ids -> is_Some (nodes c !! id)) ->
              length (omap (node_name c) ids) = length ids).
    { induction ids as [|id ids IH]; intros Hall; [reflexivity|].
      cbn [omap list_omap]. unfold node_name at 1.
      destruct (Hall id (list_elem_of_here _ _)) as [node_item ->]. cbn.
      f_equal. apply IH. intros id' Hid'. apply Hall. now right. }
    apply Hlen. intros id Hid. apply elem_of_elements in Hid.
    now apply elem_of_dom in Hid.
Qed.

Lemma length_isolated_names (c : NetworkCanvas) (ids : list Z) :
  (forall id, id ∈ ids -> is_Some (nodes c !! id)) ->
  length (omap (node_name c) ids) = length ids.
Proof.
  induction ids as [|id ids IH]; intros Hall; [reflexivity|].
  cbn [omap list_omap]. unfold node_name at 1.
  destruct (Hall id (list_elem_of_here _ _)) as [node_item ->]. cbn.
  f_equal. apply IH. intros id' Hid'. apply Hall. now apply list_elem_of_further.
Qed.

(** X25: on a canvas where both ends of every connection are nodes, as on
    every canvas a client can reach, each node is counted once: the
    isolated nodes [get_isolated_nodes] reports and the nodes at an end of
    some connection add up to the number of nodes. *)
Theorem isolated_and_connected_partition (c : NetworkCanvas) :
  endpoints_present c ->
  (length (get_isolated_nodes c) + size (connected_node_ids c))%nat
  = get_node_count c.
Proof.
  intros Hends.
  assert (Hsub : connected_node_ids c ⊆ dom (nodes c)).
  { intros id Hid. apply elem_of_connected_node_ids in Hid as (k & conn & Hk & Hor).
    destruct (Hends k conn Hk) as [H1 H2]. unfold has_node in H1, H2.
    apply elem_of_dom. destruct Hor as [<-|<-].
    - destruct (nodes c !! k.1); [eauto|discriminate].
    - destruct (nodes c !! k.2); [eauto|discriminate]. }
  unfold get_isolated_nodes. rewrite length_isolated_names.
  - unfold get_node_count. rewrite <- size_dom.
    change (length (elements (dom (nodes c) ∖ connected_node_ids c)))
      with (size (dom (nodes c) ∖ connected_node_ids c)).
    rewrite size_difference by exact Hsub.
    apply subseteq_size in Hsub. lia.
  - intros id Hid. apply elem_of_elements, elem_of_difference in Hid as [Hid _].
    now apply elem_of_dom in Hid.
Qed.

(** The theorem at three nodes of which two are joined. *)
Lemma isolated_and_connected_partition_witness :
  (length (get_isolated_nodes (self (snd (add_node None
             (snd (add_connection 1 2 None (two_nodes "l1")))))))
   + size (connected_node_ids (self (snd (add_node None
             (snd (add_connection 1 2 None (two_nodes "l1"))))))))%nat
  = 3%nat.
Proof.
  apply (isolated_and_connected_partition
           (self (snd (add_node None (snd (add_connection 1 2 None (two_nodes "l1"))))))).
  by_decision.
Defined.

(** ** Placing a node, loading over a canvas *)

(** X8: [add_node_at_position] returns the counter value and stores under
    it a node at the given point, named ["Node-<id>"], whose top-level
    address and [l3] address are both 192.168.1.<id>; the other nodes and
    the connections are untouched.  Two random coordinates are still drawn,
    though neither is used. *)
Theorem add_node_at_position_spec (s : session) (x y : float) :
  let n := next_node_id (self s) in
  let s' := snd (add_node_at_position x y s) in
  fst (add_node_at_position x y s) = Return n
  /\ next_node_id (self s') = n + 1
  /\ connections (self s') = connections (self s)
  /\ random s' = advance (advance (random s))
  /\ (forall id, id <> n -> nodes (self s') !! id = nodes (self s) !! id)
  /\ exists node_item,
       nodes (self s') !! n = Some node_item
       /\ pos node_item = (VFloat x, VFloat y)
       /\ dict_get (node_data node_item) "id" = Some (VInt n)
       /\ dict_get (node_data node_item) "name" = Some (VStr ("Node-" +:+ pretty n))
       /\ flat_ip (self s') n = Some (VStr ("192.168.1." +:+ pretty n))
       /\ l3_ip (self s') n = Some (VStr ("192.168.1." +:+ pretty n)).
Proof.
  cbv zeta. rewrite add_node_at_position_run, add_node_ok by reflexivity.
  cbn [fst snd self nodes connections next_node_id random].
  split; [reflexivity|]. split; [reflexivity|]. split; [reflexivity|].
  split; [reflexivity|]. split.
  - intros id Hid. now rewrite lookup_insert_ne.
  - eexists. rewrite lookup_insert_eq. split; [reflexivity|].
    unfold flat_ip, l3_ip. cbn [nodes]. rewrite lookup_insert_eq.
    repeat split.
Qed.

(** X9: [load_data] replaces the content of the canvas: its result depends
    on the layer name and the random generator only, not on the nodes,
    connections or counter the canvas had.  The canvas is emptied before
    the document is looked at: when ["nodes"] holds something that cannot
    be iterated, [load_data] raises [TypeError] and leaves an empty canvas
    whose counter is 1. *)
Theorem load_data_replaces (data : dict) (s : session) :
  load_data data s
  = load_data data (mkSession (new_canvas (level (self s))) (random s))
  /\ (forall v, dict_get data "nodes" = Some v -> iterable v = false ->
        load_data data s
        = (Raise TypeError, mkSession (new_canvas (level (self s))) (random s))).
Proof.
  split.
  - unfold load_data, bind at 1. unfold bind at 3. reflexivity.
  - intros v Hv Hiter. unfold load_data, dict_get_default. rewrite Hv.
    unfold bind at 1, clear, bind at 1, get_self, put_self. cbn [self random].
    unfold bind at 1. destruct v; try discriminate Hiter; reflexivity.
Qed.

Example load_data_of_a_number :
  load_data [("nodes", VInt 3)] (two_nodes "l2")
  = (Raise TypeError, mkSession (new_canvas "l2") (random (two_nodes "l2"))).
Proof. reflexivity. Qed.

(** * Further properties of the project files *)

(** ** Saving under any failures *)

Lemma stamp_metadata_raises (field stamp : string) (w : world) :
  metadata_ok (data w) = false ->
  stamp_metadata field stamp w = (Raise TypeError, w).
Proof.
  unfold metadata_ok, stamp_metadata, bind, get_data, put_data, ret, raise, dict_has.
  destruct (dict_get (data w) "metadata") as [[| | | | | |md]|] eqn:Hmd;
    try discriminate; intros _; cbn; rewrite Hmd; reflexivity.
Qed.

Section Containment.
Variables (file_path : string) (w0 : world).

Abbreviation kept := (contained file_path w0).

Lemma os_path_exists_kept p : preserves kept (os_path_exists p).
Proof. intros w H. exact H. Qed.

Lemma os_remove_kept p :
  p = file_path \/ p = file_path +:+ ".backup" -> preserves kept (os_remove p).
Proof.
  intros Hp w ([Hf Hd] & Hc & Hdata). unfold contained, untouched_elsewhere, os_remove, bind, failing, get, put_disk, raise.
  destruct (fails w (Remove p)); [now repeat split|]. cbn.
  destruct (disk w !! p); [|now repeat split]. cbn.
  repeat split; try assumption. intros q Hq1 Hq2.
  rewrite lookup_delete_ne by (destruct Hp; congruence). now apply Hd.
Qed.

Lemma os_rename_kept p q :
  p = file_path \/ p = file_path +:+ ".backup" ->
  q = file_path \/ q = file_path +:+ ".backup" ->
  preserves kept (os_rename p q).
Proof.
  intros Hp Hq w ([Hf Hd] & Hc & Hdata). unfold contained, untouched_elsewhere, os_rename, bind, failing, get, put_disk, raise.
  destruct (fails w (Rename p q)); [now repeat split|]. cbn.
  destruct (disk w !! p); [|now repeat split]. cbn.
  repeat split; try assumption. intros r Hr1 Hr2.
  rewrite lookup_insert_ne by (destruct Hq; congruence).
  rewrite lookup_delete_ne by (destruct Hp; congruence). now apply Hd.
Qed.

Lemma rotate_backup_kept : preserves kept (rotate_backup file_path).
Proof.
  unfold rotate_backup. apply preserves_bind; [apply os_path_exists_kept|].
  intros [|]; [|apply preserves_ret].
  apply preserves_bind; [apply os_path_exists_kept|]. intros old.
  apply preserves_bind.
  - destruct old; [apply os_remove_kept; now right|apply preserves_ret].
  - intros _. apply os_rename_kept; [now left|now right].
Qed.

Lemma rotate_backup_contained (w : world) :
  w = w0 ->
  untouched_elsewhere file_path w0 (snd (rotate_backup file_path w))
  /\ current_project (snd (rotate_backup file_path w)) = current_project w0
  /\ data (snd (rotate_backup file_path w)) = data w0.
Proof.
  intros ->. apply rotate_backup_kept. unfold contained, untouched_elsewhere.
  now repeat split.
Qed.
End Containment.

(** X10: whatever fails and whatever the document holds, [save_project]
    returns a boolean and never raises; it touches no file other than
    [file_path] and its backup.  When it returns [True] the file holds the
    caller's dictionary as the call left it, stamped with the time of the
    save, and that dictionary is the current project; when it returns
    [False] the current project is the one from before. *)
Theorem save_project_contained (D : dict) (file_path now : string) (w : world) :
  exists (r : bool) (w' : world),
    save_project D file_path now w = (Return r, w')
    /\ untouched_elsewhere file_path w w'
    /\ if r
       then disk w' !! file_path = Some (JsonText (VDict (data w')))
            /\ current_project w' = Some (data w')
            /\ data w' = stamped D "modified" now
            /\ dict_get (metadata_of (data w')) "modified" = Some (VStr now)
       else current_project w' = current_project w.
Proof.
  unfold save_project. unfold bind at 1, put_data at 1, try_except.
  destruct (metadata_ok D) eqn:Hmd.
  - unfold bind at 1. rewrite stamp_metadata_run by exact Hmd.
    cbn [disk fails current_project data]. fold (stamped D "modified" now).
    set (w2 := mkWorld (disk w) (fails w) (current_project w) (stamped D "modified" now)).
    destruct (rotate_backup_contained file_path w2 w2 eq_refl) as ([Hf Hd] & Hc & Hdata).
    unfold bind at 1.
    destruct (rotate_backup file_path w2) as [[[]|e] w3]; cbn [snd] in *.
    + unfold bind at 1, get_data at 1. unfold bind at 1. rewrite write_json_run.
      destruct (fails w3 (OpenWrite file_path)).
      * exists false, w3. unfold ret. now repeat split.
      * assert (Hcut : exists w',
                  ret false
                    (mkWorld (<[file_path := Malformed]> (disk w3)) (fails w3)
                             (current_project w3) (data w3))
                  = (Return false, w')
                  /\ untouched_elsewhere file_path w w'
                  /\ current_project w' = current_project w).
        { eexists. unfold ret. split; [reflexivity|].
          unfold untouched_elsewhere.
          cbn [disk fails current_project data]. repeat split; try assumption.
          intros p Hp1 Hp2. rewrite lookup_insert_ne by congruence. now apply Hd. }
        destruct (negb (within_digit_limit (VDict (data w3)))).
        { destruct Hcut as (w' & Hrun & Hkeep & Hcur). now exists false, w'. }
        destruct (fails w3 (WriteText file_path)).
        -- destruct Hcut as (w' & Hrun & Hkeep & Hcur). now exists false, w'.
        -- eexists true, _. unfold bind, set_current_project, ret.
           cbn [disk fails current_project data]. split; [reflexivity|].
           unfold untouched_elsewhere.
           cbn [disk fails current_project data].
           rewrite Hdata. cbn [data]. repeat split; try assumption.
           ++ intros p Hp1 Hp2. rewrite lookup_insert_ne by congruence. now apply Hd.
           ++ now rewrite lookup_insert_eq.
           ++ subst w2. cbn [data]. unfold stamped at 1, metadata_of at 1.
              now autorewrite with pydict.
    + exists false, w3. unfold ret. now repeat split.
  - unfold bind at 1. rewrite stamp_metadata_raises by exact Hmd.
    eexists false, _. unfold ret. split; [reflexivity|]. now repeat split.
Qed.

(** ** Restoring the backup *)

Lemma string_app_inj (p a b : string) : p +:+ a = p +:+ b -> a = b.
Proof. induction p as [|c p IH]; simpl; [auto|]. intros H. injection H as H. auto. Qed.

Lemma temp_path_ne (path : string) : path +:+ ".temp" <> path.
Proof.
  intros H. apply (f_equal String.length) in H.
  rewrite string_length_app in H. cbn in H. lia.
Qed.

Lemma temp_backup_ne (path : string) : path +:+ ".temp" <> path +:+ ".backup".
Proof. intros H. apply string_app_inj in H. discriminate H. Qed.

Ltac paths_differ :=
  first [ apply backup_path_ne | apply temp_path_ne | apply temp_backup_ne
        | apply not_eq_sym;
          first [ apply backup_path_ne | apply temp_path_ne | apply temp_backup_ne ] ].

Lemma os_rename_run (src dst : string) (w : world) (c : content) :
  fails w (Rename src dst) = false ->
  disk w !! src = Some c ->
  os_rename src dst w
  = (Return tt,
     mkWorld (<[dst := c]> (delete src (disk w))) (fails w) (current_project w) (data w)).
Proof.
  intros Hf Hc. unfold os_rename, bind, failing, get, put_disk. cbn.
  rewrite Hf. cbn. now rewrite Hc.
Qed.

Lemma restore_backup_run (path : string) (w : world) :
  no_faults w ->
  restore_backup path w
  = match disk w !! (path +:+ ".backup") with
    | None => (Return false, w)
    | Some b =>
        (Return true,
         mkWorld
           (<[path := b]>
              (delete (path +:+ ".backup")
                 (match disk w !! path with
                  | Some c => <[path +:+ ".temp" := c]> (delete path (disk w))
                  | None => disk w
                  end)))
           (fails w) (current_project w) (data w))
    end.
Proof.
  intros Hnf. unfold restore_backup, bind at 1, os_path_exists at 1.
  destruct (disk w !! (path +:+ ".backup")) as [b|] eqn:Hb; [|reflexivity].
  cbn [negb]. unfold try_except, bind at 1, os_path_exists at 1.
  destruct (disk w !! path) as [c|] eqn:Hc.
  - unfold bind at 1. rewrite (os_rename_run _ _ _ c) by auto.
    unfold bind at 1. rewrite (os_rename_run _ _ _ b).
    + reflexivity.
    + apply Hnf.
    + cbn [disk]. rewrite lookup_insert_ne by paths_differ.
      rewrite lookup_delete_ne by paths_differ. exact Hb.
  - unfold bind at 1, ret at 1. unfold bind at 1.
    rewrite (os_rename_run _ _ _ b) by auto. reflexivity.
Qed.



(** ** Loading: the ways it ends *)

Lemma metadata_ok_topologies (d : dict) (v : value) :
  metadata_ok (dict_setdefault d "topologies" v) = metadata_ok d.
Proof. unfold metadata_ok. now rewrite dict_get_setdefault_ne by discriminate. Qed.

(** X12: [load_project] never changes a file.  It ends in one of four
    ways: with the document, which is then the current project and carries
    the time of the load; with [FileNotFoundError], when there is no such
    file; with [TypeError], when the file is text that is not JSON (the
    handler meant to re-raise [JSONDecodeError] builds it from a message
    alone); with [ValueError], when the file cannot be opened, holds bytes
    that are no UTF-8 text, or holds JSON with an integer of more than
    4300 digits, JSON that is no object, or an object whose [metadata] is
    no object.  When it raises, the current project is the one from
    before. *)
Theorem load_project_outcome (path now : string) (w : world) :
  let r := load_project path now w in
  disk (snd r) = disk w
  /\ fails (snd r) = fails w
  /\ match fst r with
     | Return d =>
         current_project (snd r) = Some d
         /\ dict_get (metadata_of d) "loaded" = Some (VStr now)
         /\ is_Some (dict_get d "topologies")
         /\ exists d0, disk w !! path = Some (JsonText (VDict d0))
                       /\ within_digit_limit (VDict d0) = true
                       /\ metadata_ok d0 = true
                       /\ fails w (OpenRead path) = false
     | Raise e =>
         current_project (snd r) = current_project w
         /\ (e = FileNotFoundError /\ disk w !! path = None
             \/ e = TypeError /\ disk w !! path = Some Malformed
                /\ fails w (OpenRead path) = false
             \/ e = ValueError
                /\ (fails w (OpenRead path) = true /\ is_Some (disk w !! path)
                    \/ disk w !! path = Some NotText
                    \/ exists v, disk w !! path = Some (JsonText v)
                         /\ (within_digit_limit v = false
                             \/ (forall d0, v <> VDict d0)
                             \/ exists d0, v = VDict d0 /\ metadata_ok d0 = false)))
     end.
Proof.
  cbv zeta. remember (load_project path now w) as r eqn:Hr.
  unfold load_project, bind at 1, os_path_exists at 1 in Hr.
  destruct (disk w !! path) as [c|] eqn:Hc; cbn [negb] in Hr.
  2:{ subst r. unfold raise. cbn. repeat split. left. now split. }
  unfold try_except, bind at 1, read_json, bind at 1, failing in Hr.
  destruct (fails w (OpenRead path)) eqn:Hrd.
  { subst r. unfold raise. cbn. repeat split. right. right.
    split; [reflexivity|]. left. split; [reflexivity|]. eauto. }
  unfold bind at 1, get in Hr. rewrite Hc in Hr. destruct c as [v| |].
  2:{ subst r. unfold raise. cbn. repeat split. right. left. now repeat split. }
  2:{ subst r. unfold raise. cbn. repeat split. right. right.
      split; [reflexivity|]. right. now left. }
  destruct (within_digit_limit v) eqn:Hlim.
  2:{ subst r. unfold raise. cbn. repeat split. right. right.
      split; [reflexivity|]. right. right. exists v. split; [reflexivity|].
      now left. }
  unfold ret at 1 in Hr.
  destruct v as [| | | | | |d];
    try (subst r; unfold bind at 1, raise; cbn; repeat split; right; right;
         split; [reflexivity|]; right; right; eexists; split; [reflexivity|];
         right; left; intros d0; discriminate).
  unfold bind at 1, put_data at 1 in Hr.
  unfold bind at 1, validate_project_data, bind at 1, get_data at 1, put_data at 1
    in Hr.
  cbn [data disk fails current_project] in Hr.
  set (d1 := dict_setdefault d "topologies" _) in Hr.
  set (w1 := mkWorld (disk w) (fails w) (current_project w) d1) in Hr.
  unfold bind at 1 in Hr.
  assert (Hsame : metadata_ok d1 = metadata_ok d) by apply metadata_ok_topologies.
  destruct (metadata_ok d1) eqn:Hmd.
  - rewrite (stamp_metadata_run "loaded" now w1) in Hr by exact Hmd.
    subst r. unfold bind, get_data, set_current_project, ret. cbn.
    repeat split.
    + unfold metadata_of at 1. now autorewrite with pydict.
    + rewrite dict_get_set_ne by discriminate. subst d1.
      unfold dict_setdefault. destruct (dict_get d "topologies") eqn:Ht.
      * rewrite Ht. eauto.
      * rewrite dict_get_set_eq. eauto.
    + exists d. now repeat split.
  - rewrite (stamp_metadata_raises "loaded" now w1) in Hr by exact Hmd.
    subst r. unfold raise. cbn. repeat split. right. right. split; [reflexivity|].
    right. right. eexists. split; [reflexivity|]. right. right.
    exists d. now split.
Qed.

(** A file cut inside a letter of two bytes is no text: loading it ends
    with [ValueError]. *)
Example load_project_not_text :
  fst (load_project "net.json" "2024-03-03T00:00:00"
         (mkWorld {[ "net.json" := NotText ]} (fun _ => false) None []))
  = Raise ValueError.
Proof. reflexivity. Qed.

Example load_project_malformed :
  fst (load_project "net.json" "2024-03-03T00:00:00"
         (mkWorld {[ "net.json" := Malformed ]} (fun _ => false) None []))
  = Raise TypeError.
Proof. reflexivity. Qed.

(** ** Export, import and backup copies *)



Lemma create_backup_run (path : string) (w : world) (text : content) :
  no_faults w ->
  disk w !! path = Some text ->
  create_backup path w
  = match text with
    | NotText =>
        (Raise UnicodeDecodeError,
         mkWorld (<[path +:+ ".backup" := Malformed]> (disk w)) (fails w)
                 (current_project w) (data w))
    | _ =>
        (Return (path +:+ ".backup"),
         mkWorld (<[path +:+ ".backup" := text]> (disk w)) (fails w)
                 (current_project w) (data w))
    end.
Proof.
  intros Hnf Hfile.
  unfold create_backup, copy_text, bind, os_path_exists, failing, get, put_disk, ret.
  destruct text;
    repeat first [ rewrite Hfile | rewrite Hnf
                 | rewrite lookup_insert_ne by paths_differ
                 | progress cbn [negb disk fails current_project data] ];
    unfold raise; rewrite ?insert_insert_eq; reflexivity.
Qed.

(** X14: [create_backup] of a missing file raises [FileNotFoundError] and
    changes nothing.  In a run without input/output failures,
    [create_backup] of an existing file of text returns the backup path
    and gives the backup the text of the file, replacing an older backup
    and touching nothing else; [restore_backup] right after it succeeds,
    leaves the file with the same text, and moves the copy it replaced to
    [file_path + ".temp"].  For a file whose bytes are no UTF-8 text,
    [create_backup] raises [UnicodeDecodeError] with the backup already
    emptied; the file itself is untouched. *)
Theorem create_backup_then_restore (path : string) (w : world) :
  match disk w !! path with
  | None => create_backup path w = (Raise FileNotFoundError, w)
  | Some NotText =>
      no_faults w ->
      fst (create_backup path w) = Raise UnicodeDecodeError
      /\ disk (snd (create_backup path w))
         = <[path +:+ ".backup" := Malformed]> (disk w)
      /\ disk (snd (create_backup path w)) !! path = Some NotText
  | Some text =>
      no_faults w ->
      let w1 := snd (create_backup path w) in
      let w2 := snd (restore_backup path w1) in
      fst (create_backup path w) = Return (path +:+ ".backup")
      /\ disk w1 = <[path +:+ ".backup" := text]> (disk w)
      /\ fst (restore_backup path w1) = Return true
      /\ disk w2 !! path = Some text
      /\ disk w2 !! (path +:+ ".temp") = Some text
      /\ disk w2 !! (path +:+ ".backup") = None
  end.
Proof.
  destruct (disk w !! path) as [text|] eqn:Hfile.
  - assert (Hcopy : text <> NotText -> no_faults w ->
      let w1 := snd (create_backup path w) in
      let w2 := snd (restore_backup path w1) in
      fst (create_backup path w) = Return (path +:+ ".backup")
      /\ disk w1 = <[path +:+ ".backup" := text]> (disk w)
      /\ fst (restore_backup path w1) = Return true
      /\ disk w2 !! path = Some text
      /\ disk w2 !! (path +:+ ".temp") = Some text
      /\ disk w2 !! (path +:+ ".backup") = None).
    { intros Htext Hnf w1 w2. subst w2 w1.
      rewrite (create_backup_run path w text Hnf Hfile).
      replace (match text with
               | NotText =>
                   (Raise UnicodeDecodeError,
                    mkWorld (<[path +:+ ".backup" := Malformed]> (disk w)) (fails w)
                            (current_project w) (data w))
               | _ =>
                   (Return (path +:+ ".backup"),
                    mkWorld (<[path +:+ ".backup" := text]> (disk w)) (fails w)
                            (current_project w) (data w))
               end)
        with (@Return string (path +:+ ".backup"),
              mkWorld (<[path +:+ ".backup" := text]> (disk w)) (fails w)
                      (current_project w) (data w))
        by (destruct text; try reflexivity; congruence).
      cbn [fst snd disk].
      split; [reflexivity|]. split; [reflexivity|].
      rewrite restore_backup_run by (intros call; apply Hnf). cbn [disk].
      rewrite lookup_insert_eq. rewrite lookup_insert_ne by paths_differ.
      rewrite Hfile. cbn [fst snd disk].
      split; [reflexivity|]. split; [apply lookup_insert_eq|]. split.
      + rewrite lookup_insert_ne by paths_differ.
        rewrite lookup_delete_ne by paths_differ. apply lookup_insert_eq.
      + rewrite lookup_insert_ne by paths_differ. apply lookup_delete_eq. }
    destruct text as [v| |]; try (apply Hcopy; discriminate).
    intros Hnf. rewrite (create_backup_run path w NotText Hnf Hfile).
    cbn [fst snd disk]. split; [reflexivity|]. split; [reflexivity|].
    rewrite lookup_insert_ne by paths_differ. exact Hfile.
  - unfold create_backup, bind, os_path_exists. now rewrite Hfile.
Qed.

(** A project file that is no text: the backup made before is lost to the
    failed copy. *)
Example create_backup_not_text :
  (fun r => (fst r, disk (snd r) !! "net.json.backup"))
    (create_backup "net.json"
       (mkWorld {[ "net.json" := NotText;
                   "net.json.backup" := JsonText (VDict sample_document) ]}
                (fun _ => false) None []))
  = (Raise UnicodeDecodeError, Some Malformed).
Proof. vm_compute. reflexivity. Qed.

(** The theorem at the sample file. *)
Lemma create_backup_then_restore_witness :
  fst (restore_backup "net.json"
         (snd (create_backup "net.json"
                 (mkWorld sample_disk (fun _ => false) None []))))
  = Return true.
Proof.
  refine (proj1 (proj2 (proj2
    (create_backup_then_restore "net.json"
       (mkWorld sample_disk (fun _ => false) None []) _)))).
  intros call. reflexivity.
Defined.

(** * Properties of the application state and the file controller *)

(** ** Recent files *)

Lemma list_remove_sub (x : string) (l : list string) (y : string) :
  y ∈ AppState.list_remove x l -> y ∈ l.
Proof.
  induction l as [|z l IH]; cbn [AppState.list_remove]; [auto|].
  destruct (String.eqb z x); intros H.
  - now apply list_elem_of_further.
  - apply elem_of_cons in H as [->|H].
    + apply list_elem_of_here.
    + apply list_elem_of_further. auto.
Qed.

Lemma list_remove_NoDup (x : string) (l : list string) :
  NoDup l -> NoDup (AppState.list_remove x l) /\ x ∉ AppState.list_remove x l.
Proof.
  induction 1 as [|z l Hz Hl IH]; cbn.
  - split; [constructor|]. apply not_elem_of_nil.
  - destruct (String.eqb z x) eqn:E.
    + apply String.eqb_eq in E as ->. auto.
    + apply String.eqb_neq in E. destruct IH as [IH1 IH2]. split.
      * constructor; [|exact IH1]. intros H. apply Hz. eapply list_remove_sub, H.
      * intros H. apply elem_of_cons in H as [->|H]; [congruence|auto].
Qed.

Lemma list_remove_length (x : string) (l : list string) :
  (length (AppState.list_remove x l) <= length l)%nat.
Proof.
  induction l as [|z l IH]; cbn; [lia|]. destruct (String.eqb z x); cbn; lia.
Qed.

Lemma existsb_eqb_false (x : string) (l : list string) :
  existsb (String.eqb x) l = false -> x ∉ l.
Proof.
  induction l as [|z l IH]; cbn; [intros _; apply not_elem_of_nil|].
  destruct (String.eqb x z) eqn:E; [discriminate|]. cbn. intros H Hin.
  apply String.eqb_neq in E. apply elem_of_cons in Hin as [->|Hin]; [congruence|].
  now apply IH.
Qed.

Lemma add_recent_file_ok (path : string) (m : AppState.AppStateManager) :
  AppState.max_recent_files m = 10%nat ->
  NoDup (AppState.recent_files m) ->
  AppState.max_recent_files (AppState.add_recent_file path m) = 10%nat
  /\ NoDup (AppState.recent_files (AppState.add_recent_file path m))
  /\ (length (AppState.recent_files (AppState.add_recent_file path m)) <= 10)%nat
  /\ head (AppState.recent_files (AppState.add_recent_file path m)) = Some path
  /\ AppState.project_state (AppState.add_recent_file path m)
     = AppState.project_state m.
Proof.
  intros Hmax Hnd. unfold AppState.add_recent_file.
  cbn [AppState.max_recent_files AppState.recent_files AppState.project_state].
  set (l := if existsb _ _ then _ else _).
  assert (Hl : NoDup (path :: l)).
  { subst l. destruct (existsb _ _) eqn:E.
    - destruct (list_remove_NoDup path _ Hnd). now constructor.
    - constructor; [now apply existsb_eqb_false|exact Hnd]. }
  rewrite Hmax. split; [reflexivity|].
  destruct (10 <? length (path :: l))%nat eqn:Hlen.
  - split; [|split; [|split]].
    + apply NoDup_ListNoDup. rewrite <- (take_drop 10 (path :: l)) in Hl.
      apply NoDup_app in Hl. now apply NoDup_ListNoDup.
    + rewrite length_take. lia.
    + reflexivity.
    + reflexivity.
  - apply Nat.ltb_ge in Hlen. now repeat split.
Qed.

(** X15: however the state manager is driven, its list of recent files
    names no file twice, holds at most ten entries, and starts with the
    file of the open project. *)
Theorem recent_files_invariant (m : AppState.AppStateManager) :
  manager_reachable m -> recent_files_ok m.
Proof.
  induction 1 as [|m c Hreach (Hmax & Hnd & Hlen & Hhead)].
  - repeat split; [constructor|cbn; lia|discriminate].
  - destruct c as [path d now|path d now| | |now later]; cbn [manager_perform].
    + destruct (add_recent_file_ok path
                  (AppState.set_project_state
                     (AppState.mkProjectState (Some path) false (Some d)
                        (AppState.name (AppState.project_state m))
                        (AppState.created (AppState.project_state m)) (Some now)) m)
                  Hmax Hnd) as (H1 & H2 & H3 & H4 & H5).
      unfold AppState.load_project, recent_files_ok, AppState.emit.
      cbn [AppState.max_recent_files AppState.recent_files AppState.project_state].
      rewrite H5. cbn. repeat split; try assumption. now intros ? [= <-].
    + destruct (add_recent_file_ok path
                  (AppState.set_project_state
                     (AppState.mkProjectState (Some path) false (Some d)
                        (AppState.name (AppState.project_state m))
                        (AppState.created (AppState.project_state m)) (Some now)) m)
                  Hmax Hnd) as (H1 & H2 & H3 & H4 & H5).
      unfold AppState.save_project, recent_files_ok, AppState.emit.
      cbn [AppState.max_recent_files AppState.recent_files AppState.project_state].
      rewrite H5. cbn. repeat split; try assumption. now intros ? [= <-].
    + repeat split; assumption.
    + repeat split; try assumption; discriminate.
    + repeat split; try assumption; discriminate.
Qed.

(** The theorem after two loads of the same file and one of another. *)
Lemma recent_files_invariant_witness :
  recent_files_ok
    (AppState.load_project "a.json" [] "t3"
       (AppState.load_project "b.json" [] "t2"
          (AppState.load_project "a.json" [] "t1" AppState.new_manager))).
Proof.
  apply recent_files_invariant.
  apply (manager_reachable_step _ (ManagerLoad "a.json" [] "t3")).
  apply (manager_reachable_step _ (ManagerLoad "b.json" [] "t2")).
  apply (manager_reachable_step _ (ManagerLoad "a.json" [] "t1")).
  apply manager_reachable_new.
Defined.

Example recent_files_most_recent_first :
  AppState.recent_files
    (AppState.load_project "a.json" [] "t3"
       (AppState.load_project "b.json" [] "t2"
          (AppState.load_project "a.json" [] "t1" AppState.new_manager)))
  = ["a.json"; "b.json"].
Proof. reflexivity. Qed.

(** ** The file controller *)

(** [save_project] catches whatever is raised and hands back a boolean. *)
Lemma save_project_returns (D : dict) (path now : string) (w : world) :
  exists (b : bool) (w' : world), save_project D path now w = (Return b, w').
Proof.
  unfold save_project, bind at 1, put_data at 1, try_except.
  match goal with
  | |- context [match ?m with _ => _ end] => destruct m as [[b|e] w']
  end; unfold ret; eauto.
Qed.

(** [load_project] changes no file; it makes the document it returns the
    current project and leaves the current project alone when it raises. *)
Lemma load_project_keeps (path now : string) (w : world) :
  disk (snd (load_project path now w)) = disk w
  /\ match fst (load_project path now w) with
     | Return d => current_project (snd (load_project path now w)) = Some d
     | Raise _ => current_project (snd (load_project path now w)) = current_project w
     end.
Proof.
  remember (load_project path now w) as r eqn:Hr.
  unfold load_project, bind at 1, os_path_exists at 1 in Hr.
  destruct (disk w !! path) as [c|] eqn:Hc; cbn [negb] in Hr.
  2:{ subst r. now split. }
  unfold try_except, bind at 1, read_json, bind at 1, failing in Hr.
  destruct (fails w (OpenRead path)).
  { subst r. now split. }
  unfold bind at 1, get in Hr. rewrite Hc in Hr.
  destruct c as [v| |]; try (subst r; now split).
  destruct (within_digit_limit v); [|subst r; now split].
  unfold ret at 1 in Hr.
  destruct v as [| | | | | |d]; try (subst r; now split).
  unfold bind at 1, put_data at 1 in Hr.
  unfold bind at 1, validate_project_data, bind at 1, get_data at 1, put_data at 1
    in Hr.
  cbn [data disk fails current_project] in Hr.
  set (d1 := dict_setdefault d "topologies" _) in Hr.
  set (w1 := mkWorld (disk w) (fails w) (current_project w) d1) in Hr.
  unfold bind at 1 in Hr.
  destruct (metadata_ok d1) eqn:Hmd.
  - rewrite (stamp_metadata_run "loaded" now w1) in Hr by exact Hmd.
    subst r. now split.
  - rewrite (stamp_metadata_raises "loaded" now w1) in Hr by exact Hmd.
    subst r. now split.
Qed.

(** X16: [_save_project_to_path] returns [True] whatever happened to the
    file: the result of [DataManager.save_project] is dropped.  It emits no
    error, and the state manager records the path as the file of the
    project, with no unsaved changes, also when the save returned [False]. *)
Theorem save_project_to_path_reports_success (path : string) (D : dict)
    (now later : string) (c : FileController.FileController) :
  let r := FileController.save_project_to_path path D now later c in
  fst r = Return true
  /\ FileController.error_occurred (snd r) = FileController.error_occurred c
  /\ FileController.data_manager (snd r)
     = snd (save_project D path now (FileController.data_manager c))
  /\ FileController.state_manager (snd r)
     = AppState.save_project path (data (FileController.data_manager (snd r))) later
         (FileController.state_manager c)
  /\ AppState.file_path (AppState.project_state (FileController.state_manager (snd r)))
     = Some path
  /\ AppState.has_unsaved_changes
       (AppState.project_state (FileController.state_manager (snd r))) = false.
Proof.
  destruct (save_project_returns D path now (FileController.data_manager c))
    as (b & w' & Hsave).
  cbv zeta.
  unfold FileController.save_project_to_path, try_except, bind,
    FileController.on_data_manager, FileController.get_caller_data,
    FileController.on_state_manager, ret.
  rewrite Hsave. cbn. repeat split.
Qed.

(** A save that cannot open the file for writing: the controller reports
    success and the project counts as saved, while no file is left under
    the name. *)
Example save_project_to_path_hides_failure :
  let c := new_controller (mkWorld sample_disk cannot_open None []) in
  let r := FileController.save_project_to_path "net.json" sample_document
             "2024-02-02T00:00:00" "2024-02-02T00:00:01" c in
  fst (save_project sample_document "net.json" "2024-02-02T00:00:00"
         (FileController.data_manager c)) = Return false
  /\ fst r = Return true
  /\ AppState.has_unsaved_changes
       (AppState.project_state (FileController.state_manager (snd r))) = false
  /\ disk (FileController.data_manager (snd r)) !! "net.json" = None.
Proof. vm_compute. repeat split. Qed.

(** X17: [_load_project_from_path] returns [True] exactly when
    [DataManager.load_project] returns a document, which the state manager
    then records.  When the load raises, it returns [False] and emits one
    error; the state manager, the files and the manager's current project
    are as before. *)
Theorem load_project_from_path_outcome (path now later : string)
    (c : FileController.FileController) :
  let r := FileController.load_project_from_path path now later c in
  match fst (load_project path now (FileController.data_manager c)) with
  | Return d =>
      fst r = Return true
      /\ FileController.error_occurred (snd r) = FileController.error_occurred c
      /\ FileController.state_manager (snd r)
         = AppState.load_project path d later (FileController.state_manager c)
      /\ current_project (FileController.data_manager (snd r)) = Some d
  | Raise _ =>
      fst r = Return false
      /\ FileController.error_occurred (snd r) = S (FileController.error_occurred c)
      /\ FileController.state_manager (snd r) = FileController.state_manager c
      /\ disk (FileController.data_manager (snd r))
         = disk (FileController.data_manager c)
      /\ current_project (FileController.data_manager (snd r))
         = current_project (FileController.data_manager c)
  end.
Proof.
  pose proof (load_project_keeps path now (FileController.data_manager c)) as H.
  cbv zeta in *.
  unfold FileController.load_project_from_path, try_except, bind,
    FileController.on_data_manager, FileController.on_state_manager,
    FileController.emit_error, ret.
  destruct (load_project path now (FileController.data_manager c)) as [[d|e] w'].
  - cbn in *. destruct H as (_ & Hc). now repeat split.
  - cbn in *. destruct H as (Hd & Hc). now repeat split.
Qed.

Example load_project_from_path_missing :
  let c := new_controller healthy_world in
  FileController.load_project_from_path "net.json" "2024-03-03T00:00:00"
    "2024-03-03T00:00:01" c
  = (Return false, FileController.mkController AppState.new_manager healthy_world 1).
Proof. reflexivity. Qed.

(** * Properties of the main window *)

(** X18: [add_node_action] adds a node to the open canvas only.  The
    value [add_node] returned, an integer, is what the loop hands to
    [add_node] of the next canvas, which raises [TypeError] before it
    changes anything: the other two canvases stay as they were, and the
    action marks nothing as modified. *)
Theorem add_node_action_raises (active : layer) (a : ANMPApp) :
  let r := add_node_action active a in
  let s := snd (add_node None (mkSession (canvas_of a active) (app_random a))) in
  fst r = Raise TypeError
  /\ canvas_of (snd r) active = self s
  /\ next_node_id (canvas_of (snd r) active) = next_node_id (canvas_of a active) + 1
  /\ (forall other, other <> active -> canvas_of (snd r) other = canvas_of a other)
  /\ has_unsaved_changes (snd r) = has_unsaved_changes a.
Proof.
  cbv zeta.
  destruct active;
    unfold add_node_action, on_layer, on_l1, on_l2, on_l3, bind; cbv beta;
    cbn [canvas_of];
    rewrite !(add_node_ok None _ eq_refl); cbn [for_each layer_eqb negb];
    unfold bind, ret, on_l1, on_l2, on_l3, add_node_obj, raise;
    cbn [fst snd canvas_of l1 l2 l3 has_unsaved_changes self next_node_id];
    (split; [reflexivity|]); (split; [reflexivity|]); (split; [reflexivity|]);
    (split; [|reflexivity]); intros [] H; first [reflexivity|congruence].
Qed.

Example add_node_action_on_l2 :
  let r := add_node_action L2 (new_app (Rng (fun n => 17 * Z.of_nat n + 5) 0)) in
  fst r = Raise TypeError
  /\ get_node_count (l1 (snd r)) = 0%nat
  /\ get_node_count (l2 (snd r)) = 1%nat
  /\ get_node_count (l3 (snd r)) = 0%nat.
Proof. vm_compute. repeat split. Qed.

(** X19: an edit applied in the connection editor goes to every canvas,
    not only to the one on which the connection was selected: with integer
    ends [x] and [y], each of the three canvases that has a connection
    between [x] and [y] takes the fields of the edit into it, and nothing
    else changes on any canvas. *)
Theorem connection_update_reaches_every_layer (cd : dict) (x y : Z) (a : ANMPApp) :
  dict_get cd "source" = Some (VInt x) ->
  dict_get cd "target" = Some (VInt y) ->
  on_connection_updated cd a
  = (Return tt,
     mkApp (set_connections (l1 a) (with_fields (l1 a) x y cd))
           (set_connections (l2 a) (with_fields (l2 a) x y cd))
           (set_connections (l3 a) (with_fields (l3 a) x y cd))
           (has_unsaved_changes a) (app_random a)).
Proof.
  intros Hs Ht.
  assert (Hrun : forall c g,
            update_connection cd (mkSession c g)
            = (Return tt, mkSession (set_connections c (with_fields c x y cd)) g)).
  { intros c g. unfold update_connection, dict_get_default, with_fields.
    rewrite Hs, Ht. cbn [order_class hash_key]. unfold bind, get_self, put_self, ret.
    cbn [self random]. destruct (connections c !! conn_key x y); [reflexivity|].
    now destruct c. }
  unfold on_connection_updated.
  unfold bind at 1, on_l1. rewrite Hrun.
  cbn [l1 l2 l3 app_random has_unsaved_changes self random].
  unfold bind at 1, on_l2. rewrite Hrun.
  cbn [l1 l2 l3 app_random has_unsaved_changes self random].
  unfold on_l3. rewrite Hrun.
  reflexivity.
Qed.

(** The theorem at an edit of the connection 1-2, which two of the three
    canvases have. *)
Lemma connection_update_reaches_every_layer_witness :
  on_connection_updated port_edit two_linked_layers
  = (Return tt,
     mkApp (set_connections (l1 two_linked_layers)
              (with_fields (l1 two_linked_layers) 2 1 port_edit))
           (set_connections (l2 two_linked_layers)
              (with_fields (l2 two_linked_layers) 2 1 port_edit))
           (set_connections (l3 two_linked_layers)
              (with_fields (l3 two_linked_layers) 2 1 port_edit))
           (has_unsaved_changes two_linked_layers) (app_random two_linked_layers)).
Proof.
  apply (connection_update_reaches_every_layer port_edit 2 1 two_linked_layers);
    reflexivity.
Defined.

Example connection_update_on_two_layers :
  let a := snd (on_connection_updated port_edit two_linked_layers) in
  (fun c => match connections c !! (1, 2) with
            | Some conn => dict_get (connection_data conn) "l1"
            | None => None
            end) <$> [l1 a; l2 a; l3 a]
  = [Some (VDict [("source_port", VStr "Gi0/1"); ("target_port", VStr "Gi0/2")]);
     Some (VDict [("source_port", VStr "Gi0/1"); ("target_port", VStr "Gi0/2")]);
     None].
Proof. vm_compute. reflexivity. Qed.

(** * Properties of the address helpers *)

Example get_subnet_mask_24 : get_subnet_mask 24 = Return "255.255.255.0".
Proof. vm_compute. reflexivity. Qed.

Example get_prefix_length_sparse_mask :
  get_prefix_length "255.0.255.0" = Some (Return 16).
Proof. vm_compute. reflexivity. Qed.

(** X21: [get_subnet_mask] raises [ValueError] outside 0..32 and returns a
    mask inside; [get_prefix_length] gives back the prefix length the mask
    was made from, and [format_cidr] writes the address with that
    length. *)
Theorem subnet_mask_round_trip (prefix_length : Z) (ip : string) :
  if ((0 <=? prefix_length)%Z && (prefix_length <=? 32)%Z)%bool
  then exists mask,
         get_subnet_mask prefix_length = Return mask
         /\ get_prefix_length mask = Some (Return prefix_length)
         /\ format_cidr ip mask = Some (Return (ip +:+ "/" +:+ pretty prefix_length))
  else get_subnet_mask prefix_length = Raise ValueError.
Proof.
  destruct ((0 <=? prefix_length)%Z && (prefix_length <=? 32)%Z) eqn:Hrange.
  - assert (Hall : forallb (fun n =>
                     match get_subnet_mask n with
                     | Return mask =>
                         match get_prefix_length mask with
                         | Some (Return m) => Z.eqb m n
                         | _ => false
                         end
                     | Raise _ => false
                     end) (seqZ 0 33) = true) by (vm_compute; reflexivity).
    rewrite forallb_forall in Hall.
    assert (Hin : In prefix_length (seqZ 0 33)).
    { apply list_elem_of_In, elem_of_seqZ. lia. }
    specialize (Hall _ Hin).
    destruct (get_subnet_mask prefix_length) as [mask|]; [|discriminate].
    exists mask. split; [reflexivity|]. unfold format_cidr.
    destruct (get_prefix_length mask) as [[m|]|]; try discriminate.
    apply Z.eqb_eq in Hall as ->. split; reflexivity.
  - unfold get_subnet_mask. now rewrite Hrange.
Qed.

(** * Loading a project onto the three canvases *)

Lemma dict_set_same (d : dict) k v : dict_get d k = Some v -> dict_set d k v = d.
Proof.
  induction d as [|[k' v'] d IH]; cbn; [discriminate|].
  destruct (String.eqb k k') eqn:E.
  - now intros [= ->].
  - intros H. now rewrite IH.
Qed.

Lemma dict_setdefault_has (d : dict) k v :
  is_Some (dict_get d k) -> dict_setdefault d k v = d.
Proof. intros [v' H]. unfold dict_setdefault. now rewrite H. Qed.

Ltac has_key :=
  repeat match goal with
         | |- is_Some (dict_get (dict_setdefault ?d ?k ?v) ?k') =>
             first [ rewrite (dict_get_setdefault_eq d k v); eexists; reflexivity
                   | rewrite (dict_get_setdefault_ne d k k' v) by discriminate ]
         end.

Lemma filled_node_data_has (n rx ry : Z) (nd : option dict) (k : string) :
  In k ["name"; "type"; "x"; "y"; "status"; "l1"; "l2"; "l3"] ->
  is_Some (dict_get (filled_node_data n rx ry nd) k).
Proof.
  intros Hk. unfold filled_node_data. cbv zeta.
  repeat (destruct Hk as [<-|Hk]; [has_key|]). destruct Hk.
Qed.

(** A dictionary [add_node] has filled comes out of a second filling
    under the same id as it went in. *)
Lemma filled_node_data_idem (n rx ry rx' ry' : Z) (nd : option dict) :
  filled_node_data n rx' ry' (Some (filled_node_data n rx ry nd))
  = filled_node_data n rx ry nd.
Proof.
  set (F := filled_node_data n rx ry nd).
  assert (Hid : dict_get F "id" = Some (VInt n)) by apply filled_node_data_id.
  assert (Hhas : forall k, In k ["name"; "type"; "x"; "y"; "status"; "l1"; "l2"; "l3"] ->
                           is_Some (dict_get F k)) by (intros k; apply filled_node_data_has).
  unfold filled_node_data. cbv zeta. rewrite (dict_set_same F "id" _ Hid).
  repeat rewrite (dict_setdefault_has F) by (apply Hhas; cbn; tauto).
  reflexivity.
Qed.

Lemma new_node_item_idem (n rx ry rx' ry' : Z) (nd : option dict) :
  new_node_item n rx' ry' (Some (node_data (new_node_item n rx ry nd)))
  = new_node_item n rx ry nd.
Proof.
  unfold new_node_item. cbv zeta. cbn [node_data].
  now rewrite filled_node_data_idem.
Qed.

(** Data [add_node] has accepted and filled is data it accepts again. *)
Lemma displayable_filled (n rx ry : Z) (d : dict) :
  50 <= rx <= 400 -> 50 <= ry <= 300 ->
  displayable d = true ->
  displayable (filled_node_data n rx ry (Some d)) = true.
Proof.
  intros Hx Hy Hd. unfold displayable in *.
  rewrite input_error_filled by (apply is_real_small; lia). exact Hd.
Qed.

Lemma load_nodes_items (ns : list dict) (s : session) (i : nat) (d : dict) :
  forallb displayable ns = true ->
  ns !! i = Some d ->
  exists rx ry,
    50 <= rx <= 400 /\ 50 <= ry <= 300
    /\ nodes (self (snd (for_each (VDict <$> ns) load_node s)))
         !! (next_node_id (self s) + Z.of_nat i)
       = Some (new_node_item (next_node_id (self s) + Z.of_nat i) rx ry (Some d)).
Proof.
  revert s i. induction ns as [|d0 ns IH]; intros s i Hok Hd; [discriminate|].
  cbn [forallb] in Hok. apply andb_true_iff in Hok as [Hd0 Hok].
  cbn [fmap list_fmap for_each]. unfold bind.
  rewrite load_node_run by exact Hd0. cbn [fst snd].
  set (s1 := snd (add_node (Some d0) s)).
  assert (Hs1 : next_node_id (self s1) = next_node_id (self s) + 1
                /\ nodes (self s1)
                   = <[next_node_id (self s) :=
                         new_node_item (next_node_id (self s))
                           (randint_value 50 400 (random s))
                           (randint_value 50 300 (advance (random s))) (Some d0)]>
                       (nodes (self s))).
  { subst s1. rewrite (add_node_ok _ _ (displayable_ok d0 Hd0)). split; reflexivity. }
  destruct Hs1 as [Hn Hm].
  destruct i as [|i].
  - injection Hd as <-. rewrite Z.add_0_r.
    destruct (load_nodes_spec ns s1 Hok) as (_ & _ & _ & Hout & _).
    rewrite Hout by lia. rewrite Hm, lookup_insert_eq.
    eexists _, _. split; [|split; [|reflexivity]]; apply randint_value_range; lia.
  - destruct (IH s1 i Hok Hd) as (rx & ry & Hx & Hy & H). exists rx, ry.
    rewrite Hn in H.
    replace (next_node_id (self s) + Z.of_nat (S i))
      with (next_node_id (self s) + 1 + Z.of_nat i) by lia.
    auto.
Qed.

Lemma load_nodes_level (ns : list dict) (s : session) :
  level (self (snd (for_each (VDict <$> ns) load_node s))) = level (self s).
Proof.
  revert s. induction ns as [|d ns IH]; intros s; [reflexivity|].
  cbn [fmap list_fmap for_each]. unfold bind. cbn [load_node]. unfold bind.
  rewrite add_node_run.
  destruct (input_error (Some d)); cbv beta iota; [reflexivity|].
  unfold ret. now rewrite IH.
Qed.

Lemma load_connection_cases (cd : dict) (s : session) :
  snd (load_connection (VDict cd) s) = s
  \/ exists a b,
       snd (load_connection (VDict cd) s)
       = mkSession
           (set_connections (self s)
              (<[conn_key a b := mkConn a b cd]> (connections (self s))))
           (random s).
Proof.
  cbn [load_connection]. destruct (_ && _); [|now left].
  unfold add_connection_obj.
  destruct (hash_key (dict_get_default cd "source" VNone)) as [|a|]; try now left.
  unfold bind, get_self. cbv beta.
  destruct (has_node (self s) a); cbn [negb]; [|now left].
  destruct (hash_key (dict_get_default cd "target" VNone)) as [|b|]; try now left.
  rewrite add_connection_run. cbn [snd]. destruct (_ && _); [|now left].
  right. now exists a, b.
Qed.

Lemma load_connections_among (all cs : list dict) (s : session) :
  (forall cd, cd ∈ cs -> cd ∈ all) ->
  connections_among all (self s) ->
  connections_among all (self (snd (for_each (VDict <$> cs) load_connection s)))
  /\ level (self (snd (for_each (VDict <$> cs) load_connection s))) = level (self s).
Proof.
  revert s. induction cs as [|cd cs IH]; intros s Hsub Hs; [now split|].
  cbn [fmap list_fmap for_each]. unfold bind.
  assert (Hstep : connections_among all (self (snd (load_connection (VDict cd) s)))
                  /\ level (self (snd (load_connection (VDict cd) s))) = level (self s)).
  { destruct (load_connection_cases cd s) as [->|(a & b & ->)]; [now split|].
    split; [|reflexivity]. intros key conn. cbn [self set_connections connections].
    intros H. apply lookup_insert_Some in H as [[_ <-]|[_ H]].
    - apply Hsub. apply list_elem_of_here.
    - exact (Hs key conn H). }
  destruct (load_connection (VDict cd) s) as [[[]|e] s']; cbn [snd] in *;
    [|exact Hstep].
  destruct Hstep as [H1 H2]. destruct (IH s') as [H3 H4]; [|exact H1|].
  - intros cd' Hcd'. apply Hsub. now apply list_elem_of_further.
  - split; [exact H3|congruence].
Qed.

(** What [load_data] of a document with node dictionaries [ns] and entries
    [cs] with integer ends leaves on a canvas. *)
Lemma load_data_loaded_from (ns cs : list dict) (s : session) :
  forallb displayable ns = true ->
  forallb int_ended cs = true ->
  let r := load_data (layer_document ns cs) s in
  fst r = Return tt
  /\ loaded_from (self (snd r)) ns
  /\ next_node_id (self (snd r)) = Z.of_nat (length ns) + 1
  /\ level (self (snd r)) = level (self s)
  /\ connections_among cs (self (snd r)).
Proof.
  intros Hok Hint. cbv zeta.
  rewrite (load_data_run (layer_document ns cs) ns cs s eq_refl eq_refl Hok).
  set (s0 := snd (clear s)).
  assert (Hs0 : self s0 = mkCanvas (level (self s)) ∅ ∅ 1) by reflexivity.
  set (s1 := snd (for_each (VDict <$> ns) load_node s0)).
  destruct (load_nodes_spec ns s0 Hok) as (_ & Hn & Hc & Hout & _).
  fold s1 in Hn, Hc, Hout. rewrite Hs0 in Hn, Hc, Hout.
  cbn [next_node_id connections nodes] in Hn, Hc, Hout.
  destruct (load_connections_frame (VDict <$> cs) s1) as [Hnodes Hnext].
  destruct (load_connections_among cs cs s1) as [Hamong Hlevel].
  { auto. }
  { intros key conn. rewrite Hc, lookup_empty. discriminate. }
  split; [|split; [|split; [|split]]].
  - apply for_each_returns. intros x s' Hx.
    apply list_elem_of_fmap in Hx as (cd & -> & Hcd).
    apply load_connection_int_ended.
    rewrite forallb_forall in Hint. apply Hint. now apply list_elem_of_In.
  - split.
    + intros i d Hd. rewrite Hnodes.
      destruct (load_nodes_items ns s0 i d Hok Hd) as (rx & ry & Hx & Hy & H).
      fold s1 in H. rewrite Hs0 in H. cbn [next_node_id] in H.
      exists rx, ry. rewrite Z.add_comm. auto.
    + intros id Hid. rewrite Hnodes, Hout by lia. apply lookup_empty.
  - rewrite Hnext, Hn. lia.
  - rewrite Hlevel. subst s1. rewrite load_nodes_level. now rewrite Hs0.
  - exact Hamong.
Qed.

Lemma length_refreshed_dicts (c : NetworkCanvas) (ns : list dict) :
  length (refreshed_dicts c ns) = length ns.
Proof. apply length_imap. Qed.

Lemma refreshed_dicts_spec (c : NetworkCanvas) (ns : list dict) :
  refreshed c (VList (VDict <$> ns)) = VList (VDict <$> refreshed_dicts c ns).
Proof.
  cbn [refreshed]. f_equal. unfold refreshed_dicts.
  rewrite imap_fmap, fmap_imap. apply imap_ext. intros i d _. cbn.
  now destruct (nodes c !! (Z.of_nat i + 1)).
Qed.

Lemma refreshed_dicts_ext (c c' : NetworkCanvas) (ns : list dict) :
  nodes c' = nodes c -> refreshed_dicts c' ns = refreshed_dicts c ns.
Proof. intros H. unfold refreshed_dicts. now rewrite H. Qed.

Lemma lookup_refreshed_dicts (c : NetworkCanvas) (ns : list dict) (i : nat) d' :
  loaded_from c ns ->
  refreshed_dicts c ns !! i = Some d' ->
  exists rx ry d,
    50 <= rx <= 400 /\ 50 <= ry <= 300
    /\ ns !! i = Some d
    /\ nodes c !! (Z.of_nat i + 1) = Some (new_node_item (Z.of_nat i + 1) rx ry (Some d))
    /\ d' = node_data (new_node_item (Z.of_nat i + 1) rx ry (Some d)).
Proof.
  intros [Hin _] H. unfold refreshed_dicts in H.
  apply list_lookup_imap_Some in H as (d & Hd & ->).
  destruct (Hin i d Hd) as (rx & ry & Hx & Hy & Hnode). exists rx, ry, d.
  rewrite Hnode. auto.
Qed.

(** The dictionaries a canvas has loaded and filled are accepted by the
    next canvas. *)
Lemma refreshed_dicts_displayable (c : NetworkCanvas) (ns : list dict) :
  loaded_from c ns ->
  forallb displayable ns = true ->
  forallb displayable (refreshed_dicts c ns) = true.
Proof.
  intros Hc Hok. apply forallb_forall. intros d' Hd'.
  apply list_elem_of_In, list_elem_of_lookup in Hd' as [i Hi].
  destruct (lookup_refreshed_dicts c ns i d' Hc Hi)
    as (rx & ry & d & Hx & Hy & Hd & _ & ->).
  cbn [new_node_item node_data]. apply displayable_filled; try assumption.
  rewrite forallb_forall in Hok. apply Hok, list_elem_of_In.
  apply list_elem_of_lookup. now exists i.
Qed.

(** Loading the refreshed list gives the nodes the first load gave. *)
Lemma loaded_from_refreshed (c c' : NetworkCanvas) (ns : list dict) :
  loaded_from c ns ->
  loaded_from c' (refreshed_dicts c ns) ->
  nodes c' = nodes c.
Proof.
  intros Hc [Hin' Hout']. apply map_eq. intros id.
  rewrite length_refreshed_dicts in Hout'.
  destruct (decide (1 <= id <= Z.of_nat (length ns))) as [Hid|Hid].
  - set (i := Z.to_nat (id - 1)).
    assert (Hi : id = Z.of_nat i + 1) by lia.
    assert (Hlt : (i < length (refreshed_dicts c ns))%nat)
      by (rewrite length_refreshed_dicts; lia).
    apply lookup_lt_is_Some in Hlt as [d' Hd'].
    destruct (Hin' i d' Hd') as (rx' & ry' & _ & _ & Hnode').
    destruct (lookup_refreshed_dicts c ns i d' Hc Hd')
      as (rx & ry & d & _ & _ & _ & Hnode & ->).
    rewrite Hi, Hnode', Hnode. f_equal. apply new_node_item_idem.
  - destruct Hc as [_ Hout]. rewrite Hout, Hout' by lia. reflexivity.
Qed.

Lemma loaded_from_refreshed_again (c : NetworkCanvas) (ns : list dict) :
  loaded_from c ns -> loaded_from c (refreshed_dicts c ns).
Proof.
  intros Hc. split.
  - intros i d' Hd'.
    destruct (lookup_refreshed_dicts c ns i d' Hc Hd')
      as (rx & ry & d & Hx & Hy & _ & Hnode & ->).
    exists rx, ry. split; [exact Hx|]. split; [exact Hy|].
    rewrite Hnode. f_equal. symmetry. apply new_node_item_idem.
  - rewrite length_refreshed_dicts. apply Hc.
Qed.

Lemma on_layer_run {A} (which : layer) (m : M session A) (a : ANMPApp) :
  on_layer which m a
  = (fst (m (mkSession (canvas_of a which) (app_random a))),
     with_canvas a which (snd (m (mkSession (canvas_of a which) (app_random a))))).
Proof.
  destruct which; unfold on_layer, on_l1, on_l2, on_l3, with_canvas, canvas_of;
    now destruct (m _).
Qed.

Lemma load_layer_run (which : layer) (lvl : string) (ns cs : list dict) (t : dict)
    (a : ANMPApp) :
  layer_entries t lvl cs ->
  load_layer which lvl (VList (VDict <$> ns)) (VDict t) a
  = on_layer which (load_data (layer_document ns cs)) a.
Proof.
  intros (g & Hg & Hcs). unfold load_layer, py_get, bind, ret, dict_get_default.
  now rewrite Hg, Hcs.
Qed.

Lemma on_project_loaded_run (d : dict) :
  d <> [] ->
  on_project_loaded (Some d)
  = (load_layer L1 "l1" (dict_get_default d "nodes" (VList []))
       (dict_get_default d "topologies" (VDict [])) ;;;
     a <- get ;;
     load_layer L2 "l2" (refreshed (l1 a) (dict_get_default d "nodes" (VList [])))
       (dict_get_default d "topologies" (VDict [])) ;;;
     a' <- get ;;
     load_layer L3 "l3"
       (refreshed (l2 a') (refreshed (l1 a) (dict_get_default d "nodes" (VList []))))
       (dict_get_default d "topologies" (VDict []))).
Proof. destruct d; [congruence|reflexivity]. Qed.

(** X22: [on_project_loaded] puts the same nodes on the three canvases.
    For a project whose node list holds dictionaries the item of a node
    accepts (a device type that can be hashed, an [l3] entry that is a
    dictionary, status, name and address without an integer too long to
    format, numbers as coordinates) and whose three topologies list
    entries with integer ends, it raises nothing; the first
    canvas is as [load_data] of the node list and its own entries leaves
    it; the second and third have the same nodes as the first, data and
    position, although each load draws its own random numbers: the first
    load has written the coordinates into the shared dictionaries.  Every
    canvas keeps its layer name, counts on from the number of nodes, and
    carries only connections made from the entries of its own layer. *)
Theorem on_project_loaded_same_nodes (d t : dict) (ns cs1 cs2 cs3 : list dict)
    (a : ANMPApp) :
  dict_get d "nodes" = Some (VList (VDict <$> ns)) ->
  dict_get d "topologies" = Some (VDict t) ->
  layer_entries t "l1" cs1 ->
  layer_entries t "l2" cs2 ->
  layer_entries t "l3" cs3 ->
  forallb displayable ns = true ->
  forallb int_ended (cs1 ++ cs2 ++ cs3) = true ->
  let r := on_project_loaded (Some d) a in
  fst r = Return tt
  /\ l1 (snd r)
     = self (snd (load_data (layer_document ns cs1)
                    (mkSession (l1 a) (app_random a))))
  /\ loaded_from (l1 (snd r)) ns
  /\ nodes (l2 (snd r)) = nodes (l1 (snd r))
  /\ nodes (l3 (snd r)) = nodes (l1 (snd r))
  /\ (forall which,
        next_node_id (canvas_of (snd r) which) = Z.of_nat (length ns) + 1
        /\ level (canvas_of (snd r) which) = level (canvas_of a which))
  /\ connections_among cs1 (l1 (snd r))
  /\ connections_among cs2 (l2 (snd r))
  /\ connections_among cs3 (l3 (snd r))
  /\ has_unsaved_changes (snd r) = has_unsaved_changes a.
Proof.
  intros Hns Ht He1 He2 He3 Hok Hint. cbv zeta.
  rewrite !forallb_app in Hint.
  apply andb_prop in Hint as [Hint1 Hint]. apply andb_prop in Hint as [Hint2 Hint3].
  set (s1 := snd (load_data (layer_document ns cs1) (mkSession (l1 a) (app_random a)))).
  set (a1 := with_canvas a L1 s1).
  set (ns1 := refreshed_dicts (self s1) ns).
  set (s2 := snd (load_data (layer_document ns1 cs2)
                    (mkSession (l2 a1) (app_random a1)))).
  set (a2 := with_canvas a1 L2 s2).
  set (ns2 := refreshed_dicts (self s2) ns1).
  set (s3 := snd (load_data (layer_document ns2 cs3)
                    (mkSession (l3 a2) (app_random a2)))).
  destruct (load_data_loaded_from ns cs1 (mkSession (l1 a) (app_random a)) Hok Hint1)
    as (Hr1 & Hl1 & Hn1 & Hv1 & Hc1).
  fold s1 in Hl1, Hn1, Hv1, Hc1.
  assert (Hok1 : forallb displayable ns1 = true)
    by (apply refreshed_dicts_displayable; assumption).
  destruct (load_data_loaded_from ns1 cs2 (mkSession (l2 a1) (app_random a1))
              Hok1 Hint2)
    as (Hr2 & Hl2 & Hn2 & Hv2 & Hc2).
  fold s2 in Hl2, Hn2, Hv2, Hc2.
  assert (Hok2 : forallb displayable ns2 = true)
    by (apply refreshed_dicts_displayable; assumption).
  destruct (load_data_loaded_from ns2 cs3 (mkSession (l3 a2) (app_random a2))
              Hok2 Hint3)
    as (Hr3 & Hl3 & Hn3 & Hv3 & Hc3).
  fold s3 in Hl3, Hn3, Hv3, Hc3.
  assert (Hrun : on_project_loaded (Some d) a = (Return tt, with_canvas a2 L3 s3)).
  { rewrite on_project_loaded_run by (intros ->; discriminate).
    unfold dict_get_default. rewrite Hns, Ht.
    unfold bind at 1. rewrite (load_layer_run L1 "l1" ns cs1 t a He1), on_layer_run.
    cbn [canvas_of]. rewrite Hr1. fold s1. fold a1.
    unfold bind at 1, get at 1.
    replace (l1 a1) with (self s1) by reflexivity.
    rewrite refreshed_dicts_spec. fold ns1.
    unfold bind at 1. rewrite (load_layer_run L2 "l2" ns1 cs2 t a1 He2), on_layer_run.
    cbn [canvas_of]. rewrite Hr2. fold s2. fold a2.
    unfold bind at 1, get at 1.
    replace (l2 a2) with (self s2) by reflexivity.
    rewrite refreshed_dicts_spec. fold ns2.
    rewrite (load_layer_run L3 "l3" ns2 cs3 t a2 He3), on_layer_run.
    cbn [canvas_of]. rewrite Hr3. reflexivity. }
  assert (Hsame2 : nodes (self s2) = nodes (self s1))
    by (apply (loaded_from_refreshed _ _ ns); assumption).
  assert (Hsame3 : nodes (self s3) = nodes (self s1)).
  { apply (loaded_from_refreshed _ _ ns1).
    - now apply loaded_from_refreshed_again.
    - unfold ns2 in Hl3.
      now rewrite (refreshed_dicts_ext (self s1) (self s2) ns1 Hsame2) in Hl3. }
  unfold ns2, ns1 in Hn3. unfold ns1 in Hn2.
  rewrite !length_refreshed_dicts in Hn3. rewrite length_refreshed_dicts in Hn2.
  rewrite Hrun. cbn [fst snd]. subst a2 a1.
  cbn [with_canvas l1 l2 l3 has_unsaved_changes].
  split; [reflexivity|]. split; [reflexivity|]. split; [exact Hl1|].
  split; [exact Hsame2|]. split; [exact Hsame3|]. split.
  - intros []; cbn [canvas_of l1 l2 l3]; split; assumption.
  - repeat split; assumption.
Qed.

(** The theorem at a project of two nodes joined on two layers. *)
Lemma on_project_loaded_same_nodes_witness :
  fst (on_project_loaded (Some linked_project)
         (new_app (Rng (fun n => 17 * Z.of_nat n + 5) 0)))
  = Return tt.
Proof.
  refine (proj1 (on_project_loaded_same_nodes linked_project
    [("l1", VDict [("connections",
                    VList [VDict [("source", VInt 1); ("target", VInt 2)]])]);
     ("l2", VDict [("connections", VList [])]);
     ("l3", VDict [("connections",
                    VList [VDict [("source", VInt 2); ("target", VInt 1);
                                  ("type", VStr "routed")]])])]
    [[("name", VStr "core")]; [("name", VStr "edge")]]
    [[("source", VInt 1); ("target", VInt 2)]]
    []
    [[("source", VInt 2); ("target", VInt 1); ("type", VStr "routed")]]
    (new_app (Rng (fun n => 17 * Z.of_nat n + 5) 0)) _ _ _ _ _ _ _)).
  - reflexivity.
  - reflexivity.
  - eexists. split; reflexivity.
  - eexists. split; reflexivity.
  - eexists. split; reflexivity.
  - vm_compute. reflexivity.
  - reflexivity.
Defined.

Example on_project_loaded_linked_project :
  let a := snd (on_project_loaded (Some linked_project)
                  (new_app (Rng (fun n => 17 * Z.of_nat n + 5) 0))) in
  (fun c => (get_node_count c, get_connection_count c)) <$> [l1 a; l2 a; l3 a]
  = [(2, 1); (2, 0); (2, 1)]%nat
  /\ (fun c => pos <$> nodes c !! 1) <$> [l2 a; l3 a]
     = (fun c => pos <$> nodes c !! 1) <$> [l1 a; l1 a].
Proof. vm_compute. split; reflexivity. Qed.

(** * Discovery results with a bad record *)

Lemma for_each_stops {St A} (xs rest : list A) (x : A) (body : A -> M St unit)
    (s : St) (e : exn) :
  fst (for_each xs body s) = Return tt ->
  fst (body x (snd (for_each xs body s))) = Raise e ->
  for_each (xs ++ x :: rest) body s = (Raise e, snd (body x (snd (for_each xs body s)))).
Proof.
  revert s. induction xs as [|y xs IH]; intros s Hxs Hx.
  - cbn in *. unfold bind. destruct (body x s) as [[[]|e'] s']; cbn in *; congruence.
  - cbn [app for_each] in *. unfold bind in *.
    destruct (body y s) as [[[]|e'] s']; cbn [fst snd] in *; [|discriminate].
    now apply IH.
Qed.

Lemma add_discovered_nodes_returns (discovered : list dict) (s : session) :
  forallb addable_record discovered = true ->
  fst (add_discovered_nodes discovered s) = Return tt.
Proof.
  intros Hall. apply for_each_returns. intros x s' Hx.
  rewrite forallb_forall in Hall. apply list_elem_of_In, Hall in Hx.
  pose proof (addable_record_address x Hx) as Haddr. unfold has_address in Haddr.
  destruct (dict_get x "ip") as [[| | | |ip| |]|] eqn:Hip; try discriminate.
  now rewrite (add_discovered_node_run x ip s' Hx Hip).
Qed.

(** X23: a record without ["ip"] stops [on_nodes_discovered] half way.  The
    records before it, when each is one a node can be made of (its address
    a string; its device type, status and name accepted by the item of the
    node), are added to the first canvas, one node each; then [KeyError]
    is raised: the records after it are dropped, the second and third
    canvas get nothing, and the project is not marked as modified. *)
Theorem discovery_stops_at_record_without_address (good rest : list dict) (bad : dict)
    (a : ANMPApp) :
  forallb addable_record good = true ->
  dict_get bad "ip" = None ->
  let r := on_nodes_discovered (good ++ bad :: rest) a in
  fst r = Raise (KeyError "ip")
  /\ l1 (snd r) = self (snd (add_discovered_nodes good (mkSession (l1 a) (app_random a))))
  /\ (ids_below (l1 a) ->
      get_node_count (l1 (snd r)) = (get_node_count (l1 a) + length good)%nat)
  /\ l2 (snd r) = l2 a
  /\ l3 (snd r) = l3 a
  /\ has_unsaved_changes (snd r) = has_unsaved_changes a.
Proof.
  intros Hgood Hbad. cbv zeta.
  assert (Hrun : add_discovered_nodes (good ++ bad :: rest)
                   (mkSession (l1 a) (app_random a))
                 = (Raise (KeyError "ip"),
                    snd (add_discovered_nodes good (mkSession (l1 a) (app_random a))))).
  { unfold add_discovered_nodes.
    assert (Hstop : forall s0, add_discovered_node bad s0 = (Raise (KeyError "ip"), s0)).
    { intros s0. unfold add_discovered_node. now rewrite Hbad. }
    rewrite (for_each_stops good rest bad add_discovered_node _ (KeyError "ip")).
    - now rewrite Hstop.
    - now apply add_discovered_nodes_returns.
    - now rewrite Hstop. }
  assert (Happ : on_nodes_discovered (good ++ bad :: rest) a
                 = (Raise (KeyError "ip"),
                    mkApp (self (snd (add_discovered_nodes good
                                        (mkSession (l1 a) (app_random a)))))
                          (l2 a) (l3 a) (has_unsaved_changes a)
                          (random (snd (add_discovered_nodes good
                                          (mkSession (l1 a) (app_random a))))))).
  { unfold on_nodes_discovered, bind at 1, on_l1. now rewrite Hrun. }
  rewrite Happ. cbn [fst snd l1 l2 l3 has_unsaved_changes].
  repeat split. intros Hb.
  now destruct (add_discovered_nodes_count good (mkSession (l1 a) (app_random a))
                  Hgood Hb) as (_ & -> & _).
Qed.

(** The theorem at a scan whose second record has no address. *)
Lemma discovery_stops_at_record_without_address_witness :
  fst (on_nodes_discovered broken_scan (new_app (Rng (fun n => 17 * Z.of_nat n + 5) 0)))
  = Raise (KeyError "ip").
Proof.
  refine (proj1 (discovery_stops_at_record_without_address
                   [host_10_0_0_5] [[("ip", VStr "10.0.0.7")]] [("name", VStr "printer")]
                   (new_app (Rng (fun n => 17 * Z.of_nat n + 5) 0)) _ _));
    reflexivity.
Defined.

Example discovery_broken_scan :
  let a := snd (on_nodes_discovered broken_scan
                  (new_app (Rng (fun n => 17 * Z.of_nat n + 5) 0))) in
  get_node_count <$> [l1 a; l2 a; l3 a] = [1; 0; 0]%nat
  /\ has_unsaved_changes a = false.
Proof. vm_compute. split; reflexivity. Qed.

(** * Merging two projects *)

Lemma node_entry_run (d : dict) (z : Z) (s : Merge.projects) :
  int_id d = Some z -> Merge.node_entry (VDict d) s = Merge.Ran (Return (d, z)) s.
Proof.
  unfold int_id, Merge.node_entry.
  destruct (dict_get d "id") as [[| |z'| | | |]|]; try discriminate.
  now intros [= ->].
Qed.

Lemma each_node_entry (ns : list dict) (ids : list Z) (s : Merge.projects) :
  Forall2 (fun d z => int_id d = Some z) ns ids ->
  exists entries,
    Merge.each (VDict <$> ns) Merge.node_entry s = Merge.Ran (Return entries) s
    /\ snd <$> entries = ids.
Proof.
  induction 1 as [|d z ns ids Hd _ IH].
  - exists []. split; reflexivity.
  - destruct IH as (entries & Hrun & Hids). exists ((d, z) :: entries).
    cbn [fmap list_fmap Merge.each]. unfold Merge.and_then.
    rewrite (node_entry_run d z s Hd), Hrun.
    split; [reflexivity|]. cbn. now rewrite Hids.
Qed.

Lemma append_to_nodes_run (v : value) (l0 : list value) (s : Merge.projects) :
  dict_get (Merge.merged s) "nodes" = Some (VList l0) ->
  Merge.append_to "nodes" v s
  = Merge.Ran (Return tt)
      (Merge.mkProjects
         (dict_set (Merge.project1 s) "nodes" (VList (l0 ++ [v])))
         (Merge.project2 s)
         (dict_set (Merge.merged s) "nodes" (VList (l0 ++ [v])))).
Proof.
  intros H. unfold Merge.append_to, Merge.and_then, Merge.read. now rewrite H.
Qed.

Lemma set_node_id_run (i : nat) (d : dict) (z : Z) (s : Merge.projects) :
  exists p2',
    Merge.set_node_id i d z s
    = Merge.Ran (Return tt) (Merge.mkProjects (Merge.project1 s) p2' (Merge.merged s))
    /\ forall k, k <> "nodes" -> dict_get p2' k = dict_get (Merge.project2 s) k.
Proof.
  unfold Merge.set_node_id, Merge.and_then, Merge.read.
  destruct (dict_get (Merge.project2 s) "nodes") as [[| | | | |l|]|];
    try (exists (Merge.project2 s); split; [now destruct s|reflexivity]).
  eexists. split; [reflexivity|]. intros k Hk. now apply dict_get_set_ne.
Qed.

Lemma merge_nodes_run (existing : list Z) (ns : list dict) (ids : list Z) :
  Forall2 (fun d z => int_id d = Some z) ns ids ->
  forall (s : Merge.projects) (i : nat) (max_id : Z) (l0 : list value),
    dict_get (Merge.merged s) "nodes" = Some (VList l0) ->
    dict_get (Merge.project1 s) "nodes" = Some (VList l0) ->
    exists p2',
      Merge.merge_nodes existing max_id i (VDict <$> ns) s
      = Merge.Ran (Return tt)
          (Merge.mkProjects
             (dict_set (Merge.project1 s) "nodes"
                (VList (l0 ++ (VDict <$> renumbered existing max_id ns))))
             p2'
             (dict_set (Merge.merged s) "nodes"
                (VList (l0 ++ (VDict <$> renumbered existing max_id ns)))))
      /\ forall k, k <> "nodes" -> dict_get p2' k = dict_get (Merge.project2 s) k.
Proof.
  induction 1 as [|d z ns ids Hd _ IH]; intros s i max_id l0 Hm Hp.
  - exists (Merge.project2 s). cbn. rewrite app_nil_r.
    rewrite !dict_set_same by assumption. split; [now destruct s|reflexivity].
  - cbn [fmap list_fmap Merge.merge_nodes renumbered]. unfold Merge.and_then at 1.
    rewrite (node_entry_run d z s Hd), Hd. cbn [fst snd].
    destruct (existsb (Z.eqb z) existing); cbn [negb].
    + apply IH; assumption.
    + unfold Merge.and_then at 1.
      destruct (set_node_id_run i d (max_id + 1) s) as (p2a & -> & Hp2a).
      unfold Merge.and_then at 1.
      rewrite (append_to_nodes_run _ l0) by exact Hm.
      set (v := VDict (dict_set d "id" (VInt (max_id + 1)))).
      destruct (IH (Merge.mkProjects
                      (dict_set (Merge.project1 s) "nodes" (VList (l0 ++ [v]))) p2a
                      (dict_set (Merge.merged s) "nodes" (VList (l0 ++ [v]))))
                   (S i) (max_id + 1) (l0 ++ [v])%list)
        as (p2' & Hrun & Hp2');
        [apply dict_get_set_eq|apply dict_get_set_eq|].
      exists p2'. cbn [Merge.project1 Merge.project2 Merge.merged] in *.
      rewrite Hrun. rewrite !dict_set_set. cbn [fmap list_fmap].
      rewrite <- !app_assoc. cbn [app]. split; [reflexivity|].
      intros k Hk. rewrite Hp2' by exact Hk. now apply Hp2a.
Qed.

Lemma renumbered_ids (existing : list Z) (ns : list dict) (max_id : Z) :
  omap int_id (renumbered existing max_id ns)
  = seqZ (max_id + 1) (Z.of_nat (length (renumbered existing max_id ns))).
Proof.
  revert max_id. induction ns as [|d ns IH]; intros max_id; [reflexivity|].
  cbn [renumbered]. destruct (int_id d) as [z|]; [|reflexivity].
  destruct (existsb (Z.eqb z) existing); [apply IH|].
  cbn [omap list_omap length]. unfold int_id at 1. rewrite dict_get_set_eq.
  fold (omap int_id (renumbered existing (max_id + 1) ns)). rewrite IH.
  rewrite Nat2Z.inj_succ, (seqZ_cons _ (Z.succ _)) by lia.
  now rewrite Z.pred_succ.
Qed.

Lemma renumbered_length (existing : list Z) (ns : list dict) (ids : list Z) (max_id : Z) :
  Forall2 (fun d z => int_id d = Some z) ns ids ->
  length (renumbered existing max_id ns)
  = length (List.filter (fun z => negb (existsb (Z.eqb z) existing)) ids).
Proof.
  intros H. revert max_id. induction H as [|d z ns ids Hd _ IH]; intros max_id.
  - reflexivity.
  - cbn [renumbered List.filter]. rewrite Hd.
    destruct (existsb (Z.eqb z) existing); cbn [negb length]; now rewrite IH.
Qed.

(** X24: [merge_projects] changes its first argument in place: what it
    returns is [project1] as the call leaves it.  For two projects in the
    format of [create_new_project] (nodes with integer ids, no top-level
    ["connections"]) the merged node list is the first project's list
    followed by those nodes of the second project whose id the first does
    not use: a node of the second project whose id is in use is left out,
    not renumbered.  The nodes taken over get the ids that follow the
    greatest id of the first project; the other sections of the first
    project are kept, and the metadata get the time of the merge. *)
Theorem merge_projects_nodes (p1 p2 md1 : dict) (ns1 ns2 : list dict)
    (ids1 ids2 : list Z) (now : string) :
  dict_get p1 "nodes" = Some (VList (VDict <$> ns1)) ->
  dict_get p2 "nodes" = Some (VList (VDict <$> ns2)) ->
  Forall2 (fun d z => int_id d = Some z) ns1 ids1 ->
  Forall2 (fun d z => int_id d = Some z) ns2 ids2 ->
  dict_get p1 "connections" = None ->
  dict_get p2 "connections" = None ->
  dict_get p1 "metadata" = Some (VDict md1) ->
  metadata_ok p2 = true ->
  let fresh := renumbered ids1 (Merge.greatest ids1) ns2 in
  exists result p2',
    Merge.merge_projects p1 p2 now
    = Merge.Ran (Return result) (Merge.mkProjects result p2' result)
    /\ dict_get result "nodes" = Some (VList (VDict <$> (ns1 ++ fresh)%list))
    /\ (forall k, k <> "nodes" -> k <> "metadata" -> dict_get result k = dict_get p1 k)
    /\ dict_get (metadata_of result) "merged" = Some (VStr now)
    /\ omap int_id fresh
       = seqZ (Merge.greatest ids1 + 1) (Z.of_nat (length fresh))
    /\ length fresh
       = length (List.filter (fun z => negb (existsb (Z.eqb z) ids1)) ids2).
Proof.
  intros Hn1 Hn2 Hi1 Hi2 Hc1 Hc2 Hm1 Hm2 fresh.
  set (s0 := Merge.mkProjects p1 p2 p1).
  destruct (each_node_entry ns1 ids1 s0 Hi1) as (entries & Hentries & Hids).
  destruct (merge_nodes_run ids1 ns2 ids2 Hi2 s0 0%nat (Merge.greatest ids1)
              (VDict <$> ns1) Hn1 Hn1) as (p2' & Hnodes & Hp2').
  fold fresh in Hnodes. cbn [Merge.project1 Merge.project2 Merge.merged s0] in *.
  set (P1 := dict_set p1 "nodes" (VList ((VDict <$> ns1) ++ (VDict <$> fresh))%list))
    in *.
  set (md' := dict_set md1 "merged" (VStr now)).
  assert (HmP : dict_get P1 "metadata" = Some (VDict md1)).
  { subst P1. now rewrite dict_get_set_ne by discriminate. }
  assert (HcP : dict_get P1 "connections" = None).
  { subst P1. now rewrite dict_get_set_ne by discriminate. }
  assert (Hc2' : dict_get p2' "connections" = None).
  { now rewrite Hp2' by discriminate. }
  assert (Hname2 : exists name2, forall s,
             Merge.project_name p2' "Проект 2" s = Merge.Ran (Return name2) s).
  { unfold Merge.project_name, dict_get_default. rewrite Hp2' by discriminate.
    unfold metadata_ok in Hm2.
    destruct (dict_get p2 "metadata") as [[| | | | | |md2]|]; try discriminate Hm2;
      eexists; intros s; reflexivity. }
  destruct Hname2 as (name2 & Hname2).
  set (name1 := dict_get_default md' "name" (VStr "Проект 1")).
  set (result := dict_set P1 "metadata"
                   (VDict (dict_set md' "source_projects" (VList [name1; name2])))).
  exists result, p2'.
  split; [|split; [|split; [|split; [|split]]]].
  - unfold Merge.merge_projects, Merge.merge_body. fold s0.
    unfold Merge.and_then at 1, Merge.read at 1. cbn [Merge.merged Merge.project2 s0].
    unfold dict_get_default at 1. rewrite Hn1.
    unfold Merge.and_then at 1, Merge.items at 1, Merge.done at 1.
    unfold Merge.and_then at 1. rewrite Hentries, Hids.
    unfold dict_get_default at 1. rewrite Hn2.
    unfold Merge.and_then at 1, Merge.items at 1, Merge.done at 1.
    unfold Merge.and_then at 1. rewrite Hnodes.
    unfold Merge.and_then at 1, Merge.read at 1. cbn [Merge.merged Merge.project2].
    unfold dict_get_default at 1. rewrite HcP.
    unfold Merge.and_then at 1, Merge.items at 1, Merge.done at 1.
    unfold Merge.and_then at 1. cbn [Merge.each]. unfold Merge.done at 1.
    unfold dict_get_default at 1. rewrite Hc2'.
    unfold Merge.and_then at 1, Merge.items at 1, Merge.done at 1.
    unfold Merge.and_then at 1. cbn [Merge.merge_connections]. unfold Merge.done at 1.
    unfold Merge.and_then at 1, Merge.set_metadata at 1, Merge.and_then at 1,
      Merge.read at 1. cbn [Merge.merged Merge.project1 Merge.project2].
    rewrite HmP. unfold Merge.write at 1. fold md'.
    unfold Merge.and_then at 1, Merge.read at 1. cbn [Merge.project1 Merge.project2].
    unfold Merge.and_then at 1, Merge.project_name at 1, dict_get_default at 1.
    rewrite dict_get_set_eq. fold name1. unfold Merge.done at 1.
    unfold Merge.and_then at 1. rewrite Hname2.
    unfold Merge.and_then at 1, Merge.set_metadata at 1, Merge.and_then at 1,
      Merge.read at 1. cbn [Merge.merged Merge.project1 Merge.project2].
    rewrite dict_get_set_eq. unfold Merge.write at 1.
    unfold Merge.and_then at 1, Merge.read at 1, Merge.done.
    cbn [Merge.merged]. rewrite !dict_set_set. reflexivity.
  - subst result P1. rewrite dict_get_set_ne by discriminate.
    rewrite dict_get_set_eq. now rewrite fmap_app.
  - intros k Hk1 Hk2. subst result P1. now rewrite !dict_get_set_ne by congruence.
  - subst result. unfold metadata_of. rewrite dict_get_set_eq.
    rewrite dict_get_set_ne by discriminate. subst md'. apply dict_get_set_eq.
  - apply renumbered_ids.
  - now apply renumbered_length.
Qed.

(** The theorem at two projects numbered from 1, of three and of two nodes. *)
Lemma merge_projects_nodes_witness :
  exists result p2',
    Merge.merge_projects (numbered_project "site A" ["a1"; "a2"; "a3"])
      (numbered_project "site B" ["b1"; "b2"]) "2024-04-04T00:00:00"
    = Merge.Ran (Return result) (Merge.mkProjects result p2' result)
    /\ dict_get result "nodes"
       = Some (VList [VDict [("id", VInt 1); ("name", VStr "a1")];
                      VDict [("id", VInt 2); ("name", VStr "a2")];
                      VDict [("id", VInt 3); ("name", VStr "a3")]]).
Proof.
  destruct (merge_projects_nodes
              (numbered_project "site A" ["a1"; "a2"; "a3"])
              (numbered_project "site B" ["b1"; "b2"])
              [("name", VStr "site A")]
              [[("id", VInt 1); ("name", VStr "a1")];
               [("id", VInt 2); ("name", VStr "a2")];
               [("id", VInt 3); ("name", VStr "a3")]]
              [[("id", VInt 1); ("name", VStr "b1")];
               [("id", VInt 2); ("name", VStr "b2")]]
              [1; 2; 3] [1; 2] "2024-04-04T00:00:00")
    as (result & p2' & Hrun & Hnodes & _);
    try reflexivity; try (repeat constructor).
  exists result, p2'. split; [exact Hrun|exact Hnodes].
Defined.

Example merge_projects_drops_used_ids :
  match Merge.merge_projects (numbered_project "site A" ["a1"; "a2"; "a3"])
          (numbered_project "site B" ["b1"; "b2"]) "2024-04-04T00:00:00" with
  | Merge.Ran (Return result) s =>
      dict_get result "nodes"
      = dict_get (numbered_project "site A" ["a1"; "a2"; "a3"]) "nodes"
      /\ Merge.project1 s = result
  | _ => False
  end.
Proof. vm_compute. split; reflexivity. Qed.

Example merge_projects_takes_unused_ids :
  match Merge.merge_projects (numbered_project "site A" ["a1"])
          (numbered_project "site B" ["b1"; "b2"; "b3"]) "2024-04-04T00:00:00" with
  | Merge.Ran (Return result) s =>
      dict_get result "nodes"
      = Some (VList [VDict [("id", VInt 1); ("name", VStr "a1")];
                     VDict [("id", VInt 2); ("name", VStr "b2")];
                     VDict [("id", VInt 3); ("name", VStr "b3")]])
  | _ => False
  end.
Proof. vm_compute. reflexivity. Qed.
